(** * JarvisAssistant private API (server/api.py): record store, queries, status

    A shallow embedding of [server/api.py].  The service keeps four
    collections (tarefas, diagnosticos, correcoes, sugestoes), each one a
    JSON file under [data/] that is re-read on every request.

    Conventions of the embedding
    - A Python [str] is represented by its UTF-8 encoding, a Rocq [string]
      (a list of bytes).  Code-point order of [str] coincides with the
      byte-wise lexicographic order of the encodings.  A [str] that UTF-8
      cannot encode, one that holds a lone surrogate, is represented by
      bytes that are not well-formed UTF-8.
    - A Python [dict] with string keys is an association list in insertion
      order; a Python [list] is a [list].
    - Values are the JSON values that [json.load] produces, without
      non-integer numbers: binary floating point is not modelled.
    - Exceptions are explicit: every operation that can raise returns a
      [result].  [uuid.uuid4()] and [datetime.now().isoformat()] are inputs
      supplied by the environment.
    - A write is followed chunk by chunk: [salvar_dados] empties the file
      when it opens it, and when [json.dump] raises, the file keeps what was
      written before.  The limits of the interpreter that make it raise
      (digits of an integer, depth of nesting) are inputs as well, gathered
      in [Ambiente]. *)

From Stdlib Require Import ZArith NArith List String Ascii Bool Lia Permutation.
From Stdlib Require Import DecimalString DecimalPos DecimalFacts.
From Stdlib Require Import Sorted.
From Stdlib Require OrderedTypeEx.
From stdpp Require Import gmap strings.

Import ListNotations.
Local Open Scope string_scope.
Local Open Scope Z_scope.

(** ** Python values *)

#[warnings="-register-all"]
Inductive json : Type :=
| JNull
| JBool (b : bool)
| JInt (n : Z)
| JStr (s : string)
| JList (xs : list json)
| JDict (kvs : list (string * json)).

Inductive exn : Type :=
| FileNotFoundError
| JSONDecodeError
| UnicodeDecodeError
| TypeError
| AttributeError
| RecursionError
| ValueError
| UnicodeEncodeError
| RequestValidationError
| HTTPException (status_code : Z) (detail : string)
| Unmodelled.

Inductive result (A : Type) : Type :=
| Ok (a : A)
| Raise (e : exn).
Arguments Ok {A} a.
Arguments Raise {A} e.

Definition rbind {A B} (r : result A) (k : A -> result B) : result B :=
  match r with
  | Ok a => k a
  | Raise e => Raise e
  end.

Notation "'let*' x ':=' r 'in' k" := (rbind r (fun x => k))
  (at level 10, x pattern, r at level 100, k at level 200).

Fixpoint rmap {A B} (f : A -> result B) (l : list A) : result (list B) :=
  match l with
  | [] => Ok []
  | x :: l' =>
      match f x with
      | Ok y => match rmap f l' with Ok ys => Ok (y :: ys) | Raise e => Raise e end
      | Raise e => Raise e
      end
  end.

(** *** dict operations ([d.get(k)], [d[k] = v], [d.update(u)]) *)

Fixpoint dict_get (d : list (string * json)) (k : string) : option json :=
  match d with
  | [] => None
  | (k', v) :: d' => if String.eqb k' k then Some v else dict_get d' k
  end.

(** [d[k] = v]: an existing key keeps its position, a new key goes last. *)
Fixpoint dict_set (d : list (string * json)) (k : string) (v : json)
  : list (string * json) :=
  match d with
  | [] => [(k, v)]
  | (k', v') :: d' =>
      if String.eqb k' k then (k', v) :: d' else (k', v') :: dict_set d' k v
  end.

Definition dict_update (d u : list (string * json)) : list (string * json) :=
  fold_left (fun acc kv => dict_set acc (fst kv) (snd kv)) u d.

Definition dict_keys (d : list (string * json)) : list string := map fst d.

(** [x.get(k, default)] on an arbitrary value: only a dict has the method. *)
Definition py_get_or (x : json) (k : string) (default : json) : result json :=
  match x with
  | JDict d => Ok (match dict_get d k with Some v => v | None => default end)
  | _ => Raise AttributeError
  end.

(** [x.get(k)]: the default is [None]. *)
Definition py_get (x : json) (k : string) : result json := py_get_or x k JNull.

(** *** Equality, truth value, ordering *)

(** [a == b].  [True == 1] and [False == 0] hold in Python; dict equality
    ignores insertion order. *)
Fixpoint py_eq (a b : json) {struct a} : bool :=
  match a, b with
  | JNull, JNull => true
  | JBool x, JBool y => Bool.eqb x y
  | JBool x, JInt n => (n =? Z.b2z x)
  | JInt n, JBool x => (n =? Z.b2z x)
  | JInt m, JInt n => (m =? n)
  | JStr s, JStr t => String.eqb s t
  | JList xs, JList ys =>
      (fix go (xs ys : list json) : bool :=
         match xs, ys with
         | [], [] => true
         | x :: xs', y :: ys' => py_eq x y && go xs' ys'
         | _, _ => false
         end) xs ys
  | JDict d, JDict e =>
      Nat.eqb (List.length d) (List.length e)
      && (fix go (d : list (string * json)) : bool :=
            match d with
            | [] => true
            | (k, v) :: d' =>
                match dict_get e k with
                | Some w => py_eq v w
                | None => false
                end && go d'
            end) d
  | _, _ => false
  end.

(** [bool(v)] *)
Definition py_truthy (v : json) : bool :=
  match v with
  | JNull => false
  | JBool b => b
  | JInt n => negb (n =? 0)
  | JStr s => negb (String.eqb s "")
  | JList xs => match xs with [] => false | _ => true end
  | JDict d => match d with [] => false | _ => true end
  end.

(** Values usable as dict keys: lists and dicts are unhashable. *)
Definition hashable (v : json) : bool :=
  match v with
  | JList _ | JDict _ => false
  | _ => true
  end.

(** [a < b]; raises [TypeError] between unordered types. *)
Fixpoint py_lt (a b : json) {struct a} : result bool :=
  match a, b with
  | JInt m, JInt n => Ok (m <? n)
  | JInt m, JBool y => Ok (m <? Z.b2z y)
  | JBool x, JInt n => Ok (Z.b2z x <? n)
  | JBool x, JBool y => Ok (Z.b2z x <? Z.b2z y)
  | JStr s, JStr t => Ok (String.ltb s t)
  | JList xs, JList ys =>
      (fix go (xs ys : list json) : result bool :=
         match xs, ys with
         | [], [] => Ok false
         | [], _ :: _ => Ok true
         | _ :: _, [] => Ok false
         | x :: xs', y :: ys' => if py_eq x y then go xs' ys' else py_lt x y
         end) xs ys
  | _, _ => Raise TypeError
  end.

(** ** Text files: UTF-8 *)

Definition byte_of (c : ascii) : N := N_of_ascii c.

Definition is_cont (c : ascii) : bool :=
  ((128 <=? byte_of c) && (byte_of c <=? 191))%N.

Definition in_range (lo hi : N) (c : ascii) : bool :=
  ((lo <=? byte_of c) && (byte_of c <=? hi))%N.

(** The strict UTF-8 decoder of [open(..., encoding='utf-8')]: accepts
    exactly the well-formed byte sequences (no overlong forms, no
    surrogates, nothing above U+10FFFF). *)
Fixpoint utf8_valid (s : string) : bool :=
  match s with
  | EmptyString => true
  | String c r =>
      if (byte_of c <? 128)%N then utf8_valid r
      else if in_range 194 223 c then
        match r with
        | String c1 r1 => is_cont c1 && utf8_valid r1
        | _ => false
        end
      else if in_range 224 239 c then
        match r with
        | String c1 (String c2 r2) =>
            (if (byte_of c =? 224)%N then in_range 160 191 c1
             else if (byte_of c =? 237)%N then in_range 128 159 c1
             else is_cont c1)
            && is_cont c2 && utf8_valid r2
        | _ => false
        end
      else if in_range 240 244 c then
        match r with
        | String c1 (String c2 (String c3 r3)) =>
            (if (byte_of c =? 240)%N then in_range 144 191 c1
             else if (byte_of c =? 244)%N then in_range 128 143 c1
             else is_cont c1)
            && is_cont c2 && is_cont c3 && utf8_valid r3
        | _ => false
        end
      else false
  end.

(** UTF-8 encoding of one code point (used for [\uXXXX] escapes). *)
Definition chr_byte (n : N) : ascii := ascii_of_N n.

Definition utf8_encode (cp : N) : string :=
  (if cp <? 128 then String (chr_byte cp) ""
   else if cp <? 2048 then
     String (chr_byte (192 + cp / 64))
       (String (chr_byte (128 + cp mod 64)) "")
   else if cp <? 65536 then
     String (chr_byte (224 + cp / 4096))
       (String (chr_byte (128 + (cp / 64) mod 64))
          (String (chr_byte (128 + cp mod 64)) ""))
   else
     String (chr_byte (240 + cp / 262144))
       (String (chr_byte (128 + (cp / 4096) mod 64))
          (String (chr_byte (128 + (cp / 64) mod 64))
             (String (chr_byte (128 + cp mod 64)) ""))))%N.

(** ** The JSON codec ([json.dump] / [json.load])

    Modelled on CPython's [json] package: [json.dump(dados, f,
    ensure_ascii=False, default=str, indent=2)] and [json.load(f)] with the
    default (strict) decoder.  [default=str] is never invoked on the values
    of this development. *)

Definition dquote : ascii := "034"%char.

Definition hex_digit (n : N) : ascii :=
  (if n <? 10 then ascii_of_N (48 + n) else ascii_of_N (87 + n))%N.

(** One character of a string literal, as [encode_basestring] writes it. *)
Definition escape_char (c : ascii) : string :=
  let n := byte_of c in
  (if n =? 34 then String "\" (String dquote "")
   else if n =? 92 then "\\"
   else if n =? 10 then "\n"
   else if n =? 13 then "\r"
   else if n =? 9 then "\t"
   else if n =? 8 then "\b"
   else if n =? 12 then "\f"
   else if n <? 32 then
     "\u00" ++ String (hex_digit (n / 16)) (String (hex_digit (n mod 16)) "")
   else String c "")%N.

Fixpoint escape (s : string) : string :=
  match s with
  | EmptyString => ""
  | String c r => escape_char c ++ escape r
  end.

Definition encode_basestring (s : string) : string :=
  String dquote (escape s ++ String dquote "").

Definition repr_int (n : Z) : string := NilZero.string_of_int (Z.to_int n).

Fixpoint spaces (n : nat) : string :=
  match n with
  | O => ""
  | S n' => String " " (spaces n')
  end.

Definition newline_indent (level : nat) : string :=
  String "010" (spaces (2 * level)).

(** [_iterencode] at nesting depth [level], with [indent=2]; the item
    separator is [","] and the key separator [": "]. *)
Fixpoint encode (level : nat) (v : json) : string :=
  match v with
  | JNull => "null"
  | JBool true => "true"
  | JBool false => "false"
  | JInt n => repr_int n
  | JStr s => encode_basestring s
  | JList [] => "[]"
  | JList (x :: xs) =>
      "[" ++ newline_indent (S level) ++ encode (S level) x
      ++ (fix items (xs : list json) : string :=
            match xs with
            | [] => ""
            | y :: ys =>
                "," ++ newline_indent (S level) ++ encode (S level) y ++ items ys
            end) xs
      ++ newline_indent level ++ "]"
  | JDict [] => "{}"
  | JDict ((k, x) :: kvs) =>
      "{" ++ newline_indent (S level)
      ++ encode_basestring k ++ ": " ++ encode (S level) x
      ++ (fix items (kvs : list (string * json)) : string :=
            match kvs with
            | [] => ""
            | (k', y) :: kvs' =>
                "," ++ newline_indent (S level)
                ++ encode_basestring k' ++ ": " ++ encode (S level) y
                ++ items kvs'
            end) kvs
      ++ newline_indent level ++ "}"
  end.

Definition json_dumps (v : json) : string := encode 0 v.

(** *** Writing: [json.dump] chunk by chunk

    [json.dump] asks the encoder for the text one chunk at a time and writes
    each chunk before asking for the next, so when the encoder or the write
    raises, the chunks before are in the file.  Three things raise:
    a string that UTF-8 cannot encode (a lone surrogate; in this model a
    [JStr] whose bytes are not well-formed) raises [UnicodeEncodeError] when
    its chunk is written; an integer with more decimal digits than the
    interpreter's limit raises [ValueError] when its text is asked for; a
    container nested deeper than the interpreter's stack allows raises
    [RecursionError] when it is entered.  The limits belong to the
    interpreter that runs the program, not to the program. *)

(** The interpreter: [sys.get_int_max_str_digits()] (4300 by default, 0 for
    no limit, otherwise at least 640), and the number of containers, one
    inside the other, that [json.dump] and [json.load] can enter from where
    the routes call them. *)
Record Ambiente := mkAmbiente {
  max_str_digits : nat;
  prof_escrita : nat;
  prof_leitura : nat }.

(** Decimal digits of [n], the sign apart. *)
Definition digitos (n : Z) : nat := String.length (repr_int (Z.abs n)).

Definition int_gravavel (amb : Ambiente) (n : Z) : bool :=
  (max_str_digits amb =? 0)%nat || (digitos n <=? max_str_digits amb)%nat.

(** What has reached the file, and the exception that stopped the write. *)
Definition escrita : Type := string * option exn.

Definition emite (t : string) : escrita := (t, None).
Definition levanta (e : exn) : escrita := ("", Some e).
Definition depois (a b : escrita) : escrita :=
  match snd a with
  | None => (fst a ++ fst b, snd b)
  | Some _ => a
  end.

(** The chunk of a value that is not a container, [buf] being what the
    encoder holds back to emit with it; of a container, [buf] alone. *)
Definition chunk_simples (amb : Ambiente) (buf : string) (v : json) : escrita :=
  match v with
  | JNull => emite (buf ++ "null")
  | JBool true => emite (buf ++ "true")
  | JBool false => emite (buf ++ "false")
  | JInt n =>
      if int_gravavel amb n then emite (buf ++ repr_int n)
      else levanta ValueError
  | JStr s =>
      if utf8_valid s then emite (buf ++ encode_basestring s)
      else levanta UnicodeEncodeError
  | JList _ | JDict _ => emite buf
  end.

(** [_iterencode] with [indent=2], [prof] being the containers that can
    still be entered.  In a list the separator is emitted in one chunk with
    the item that follows it; in a dict the separator, the key, the colon and
    the value are chunks of their own. *)
Fixpoint iterencode (amb : Ambiente) (prof level : nat) (v : json) {struct v}
  : escrita :=
  match v with
  | JList xs =>
      match prof with
      | O => levanta RecursionError
      | S p =>
          match xs with
          | [] => emite "[]"
          | _ :: _ =>
              depois
                ((fix itens (buf : string) (xs : list json) : escrita :=
                    match xs with
                    | [] => emite ""
                    | x :: xs' =>
                        depois
                          (match x with
                           | JList _ | JDict _ =>
                               depois (emite buf) (iterencode amb p (S level) x)
                           | _ => chunk_simples amb buf x
                           end)
                          (itens ("," ++ newline_indent (S level)) xs')
                    end) ("[" ++ newline_indent (S level)) xs)
                (depois (emite (newline_indent level)) (emite "]"))
          end
      end
  | JDict d =>
      match prof with
      | O => levanta RecursionError
      | S p =>
          match d with
          | [] => emite "{}"
          | _ :: _ =>
              depois (emite "{")
                (depois (emite (newline_indent (S level)))
                   (depois
                      ((fix pares (primeiro : bool) (d : list (string * json))
                          : escrita :=
                          match d with
                          | [] => emite ""
                          | (k, x) :: d' =>
                              depois
                                (emite (if primeiro then ""
                                        else "," ++ newline_indent (S level)))
                                (depois (chunk_simples amb "" (JStr k))
                                   (depois (emite ": ")
                                      (depois
                                         (match x with
                                          | JList _ | JDict _ =>
                                              iterencode amb p (S level) x
                                          | _ => chunk_simples amb "" x
                                          end)
                                         (pares false d'))))
                          end) true d)
                      (depois (emite (newline_indent level)) (emite "}"))))
          end
      end
  | _ => chunk_simples amb "" v
  end.


(** The parts of [iterencode], by name. *)
Definition iterencode_item (amb : Ambiente) (p level : nat) (buf : string)
    (x : json) : escrita :=
  match x with
  | JList _ | JDict _ => depois (emite buf) (iterencode amb p (S level) x)
  | _ => chunk_simples amb buf x
  end.

Definition iterencode_valor (amb : Ambiente) (p level : nat) (x : json)
  : escrita :=
  match x with
  | JList _ | JDict _ => iterencode amb p (S level) x
  | _ => chunk_simples amb "" x
  end.

Definition iterencode_itens (amb : Ambiente) (p level : nat)
  : string -> list json -> escrita :=
  fix itens (buf : string) (xs : list json) : escrita :=
    match xs with
    | [] => emite ""
    | x :: xs' =>
        depois (iterencode_item amb p level buf x)
          (itens ("," ++ newline_indent (S level)) xs')
    end.

Definition iterencode_pares (amb : Ambiente) (p level : nat)
  : bool -> list (string * json) -> escrita :=
  fix pares (primeiro : bool) (d : list (string * json)) : escrita :=
    match d with
    | [] => emite ""
    | (k, x) :: d' =>
        depois
          (emite (if primeiro then "" else "," ++ newline_indent (S level)))
          (depois (chunk_simples amb "" (JStr k))
             (depois (emite ": ")
                (depois (iterencode_valor amb p level x) (pares false d'))))
    end.

(** [json.dump(dados, f, ensure_ascii=False, default=str, indent=2)]: every
    value of [json] is serialisable, so [default] is never called. *)
Definition json_dump (amb : Ambiente) (dados : json) : escrita :=
  iterencode amb (prof_escrita amb) 0 dados.


(** *** Decoder *)

Definition is_ws (c : ascii) : bool :=
  let n := byte_of c in
  ((n =? 32) || (n =? 9) || (n =? 10) || (n =? 13))%N.

Fixpoint skip_ws (s : string) : string :=
  match s with
  | String c r => if is_ws c then skip_ws r else s
  | EmptyString => s
  end.

Definition is_digit (c : ascii) : bool := in_range 48 57 c.

Definition hex_val (c : ascii) : option N :=
  let n := byte_of c in
  (if in_range 48 57 c then Some (n - 48)
   else if in_range 97 102 c then Some (n - 87)
   else if in_range 65 70 c then Some (n - 55)
   else None)%N.

Definition hex4 (a b c d : ascii) : option N :=
  match hex_val a, hex_val b, hex_val c, hex_val d with
  | Some x, Some y, Some z, Some w => Some (((x * 16 + y) * 16 + z) * 16 + w)%N
  | _, _, _, _ => None
  end.

(** The [BACKSLASH] table of the decoder. *)
Definition unescape (c : ascii) : option ascii :=
  let n := byte_of c in
  (if n =? 34 then Some c
   else if n =? 92 then Some c
   else if n =? 47 then Some c
   else if n =? 98 then Some (ascii_of_N 8)
   else if n =? 102 then Some (ascii_of_N 12)
   else if n =? 110 then Some (ascii_of_N 10)
   else if n =? 114 then Some (ascii_of_N 13)
   else if n =? 116 then Some (ascii_of_N 9)
   else None)%N.

Definition cons_str (p : string) (r : result (string * string))
  : result (string * string) :=
  match r with
  | Ok (t, rest) => Ok (p ++ t, rest)
  | Raise e => Raise e
  end.

(** [scanstring] in strict mode, entered after the opening quote: the
    decoded string and the text after the closing quote. *)
Fixpoint scanstring (s : string) : result (string * string) :=
  match s with
  | EmptyString => Raise JSONDecodeError
  | String c r =>
      if (byte_of c =? 34)%N then Ok ("", r)
      else if (byte_of c =? 92)%N then
        match r with
        | EmptyString => Raise JSONDecodeError
        | String e r1 =>
            if (byte_of e =? 117)%N then
              match r1 with
              | String h1 (String h2 (String h3 (String h4 r2))) =>
                  match hex4 h1 h2 h3 h4 with
                  | None => Raise JSONDecodeError
                  | Some hi =>
                      if ((55296 <=? hi) && (hi <=? 56319))%N then
                        match r2 with
                        | String b (String u (String l1 (String l2
                            (String l3 (String l4 r3))))) =>
                            if ((byte_of b =? 92) && (byte_of u =? 117))%N then
                              match hex4 l1 l2 l3 l4 with
                              | None => Raise JSONDecodeError
                              | Some lo =>
                                  if ((56320 <=? lo) && (lo <=? 57343))%N then
                                    cons_str
                                      (utf8_encode
                                         (65536 + (hi - 55296) * 1024
                                          + (lo - 56320))%N)
                                      (scanstring r3)
                                  else cons_str (utf8_encode hi) (scanstring r2)
                              end
                            else cons_str (utf8_encode hi) (scanstring r2)
                        | _ => cons_str (utf8_encode hi) (scanstring r2)
                        end
                      else cons_str (utf8_encode hi) (scanstring r2)
                  end
              | _ => Raise JSONDecodeError
              end
            else
              match unescape e with
              | Some ch => cons_str (String ch "") (scanstring r1)
              | None => Raise JSONDecodeError
              end
        end
      else if (byte_of c <? 32)%N then Raise JSONDecodeError
      else cons_str (String c "") (scanstring r)
  end.

Fixpoint strip_prefix (p s : string) : option string :=
  match p, s with
  | EmptyString, _ => Some s
  | String a p', String b s' => if Ascii.eqb a b then strip_prefix p' s' else None
  | String _ _, EmptyString => None
  end.

Fixpoint digits (s : string) (acc : Z) : Z * string :=
  match s with
  | String c r =>
      if is_digit c then digits r (10 * acc + Z.of_N (byte_of c - 48)) else (acc, s)
  | EmptyString => (acc, s)
  end.

(** Does a fraction or an exponent follow the integer part? *)
Definition float_tail (s : string) : bool :=
  match s with
  | String c (String d r) =>
      ((byte_of c =? 46)%N && is_digit d)
      || (((byte_of c =? 101) || (byte_of c =? 69))%N
          && (is_digit d
              || (((byte_of d =? 43) || (byte_of d =? 45))%N
                  && match r with String x _ => is_digit x | _ => false end)))
  | _ => false
  end.

Definition finish_number (neg : bool) (n : Z) (rest : string)
  : result (json * string) :=
  if float_tail rest then Raise Unmodelled
  else Ok (JInt (if neg then - n else n), rest).

(** [NUMBER_RE.match]: [None] when no number starts here. *)
Definition match_number (s : string) : option (result (json * string)) :=
  let '(neg, s1) :=
    match s with
    | String c r => if (byte_of c =? 45)%N then (true, r) else (false, s)
    | EmptyString => (false, s)
    end in
  match s1 with
  | String c r =>
      if (byte_of c =? 48)%N then Some (finish_number neg 0 r)
      else if is_digit c then
        let '(n, rest) := digits s1 0 in Some (finish_number neg n rest)
      else None
  | EmptyString => None
  end.

(** [scan_once], [JSONObject] and [JSONArray].  The three recurse through
    each other; [fuel] bounds the recursion, and [json_loads] supplies more
    than any text can use.  [JSONObject_items] is entered after the opening
    quote of a key, [JSONArray_items] at the first character of an item.
    A repeated key keeps its first position and its last value, as
    [dict(pairs)] does. *)
Fixpoint scan_once (fuel : nat) (s : string) : result (json * string) :=
  match fuel with
  | O => Raise RecursionError
  | S fuel' =>
      match s with
      | EmptyString => Raise JSONDecodeError
      | String c r =>
          if (byte_of c =? 34)%N then
            let* (t, rest) := scanstring r in Ok (JStr t, rest)
          else if (byte_of c =? 123)%N then
            match skip_ws r with
            | String c1 r1 =>
                if (byte_of c1 =? 125)%N then Ok (JDict [], r1)
                else if (byte_of c1 =? 34)%N then JSONObject_items fuel' r1 []
                else Raise JSONDecodeError
            | EmptyString => Raise JSONDecodeError
            end
          else if (byte_of c =? 91)%N then
            match skip_ws r with
            | String c1 r1 =>
                if (byte_of c1 =? 93)%N then Ok (JList [], r1)
                else JSONArray_items fuel' (String c1 r1) []
            | EmptyString => Raise JSONDecodeError
            end
          else
            match strip_prefix "null" s, strip_prefix "true" s,
                  strip_prefix "false" s with
            | Some rest, _, _ => Ok (JNull, rest)
            | _, Some rest, _ => Ok (JBool true, rest)
            | _, _, Some rest => Ok (JBool false, rest)
            | None, None, None =>
                match match_number s with
                | Some r' => r'
                | None =>
                    match strip_prefix "NaN" s, strip_prefix "Infinity" s,
                          strip_prefix "-Infinity" s with
                    | None, None, None => Raise JSONDecodeError
                    | _, _, _ => Raise Unmodelled
                    end
                end
            end
      end
  end

with JSONObject_items (fuel : nat) (s : string) (acc : list (string * json))
  : result (json * string) :=
  match fuel with
  | O => Raise RecursionError
  | S fuel' =>
      let* (k, r1) := scanstring s in
      match skip_ws r1 with
      | String c2 r2 =>
          if (byte_of c2 =? 58)%N then
            let* (v, r3) := scan_once fuel' (skip_ws r2) in
            match skip_ws r3 with
            | String c4 r4 =>
                if (byte_of c4 =? 125)%N then Ok (JDict (dict_set acc k v), r4)
                else if (byte_of c4 =? 44)%N then
                  match skip_ws r4 with
                  | String c5 r5 =>
                      if (byte_of c5 =? 34)%N
                      then JSONObject_items fuel' r5 (dict_set acc k v)
                      else Raise JSONDecodeError
                  | EmptyString => Raise JSONDecodeError
                  end
                else Raise JSONDecodeError
            | EmptyString => Raise JSONDecodeError
            end
          else Raise JSONDecodeError
      | EmptyString => Raise JSONDecodeError
      end
  end

with JSONArray_items (fuel : nat) (s : string) (acc : list json)
  : result (json * string) :=
  match fuel with
  | O => Raise RecursionError
  | S fuel' =>
      let* (v, r1) := scan_once fuel' s in
      match skip_ws r1 with
      | String c2 r2 =>
          if (byte_of c2 =? 93)%N then Ok (JList (rev (v :: acc)), r2)
          else if (byte_of c2 =? 44)%N
          then JSONArray_items fuel' (skip_ws r2) (v :: acc)
          else Raise JSONDecodeError
      | EmptyString => Raise JSONDecodeError
      end
  end.

(** [json.loads]: one value, surrounded by optional white space. *)
Definition json_loads (s : string) : result json :=
  let* (v, rest) := scan_once (2 * String.length s + 2) (skip_ws s) in
  match skip_ws rest with
  | EmptyString => Ok v
  | String _ _ => Raise JSONDecodeError
  end.

(** ** Record store *)

(** The [data/] directory: path to file content, as bytes. *)
Abbreviation FS := (gmap string string).

Definition TAREFAS_FILE : string := "data/tarefas.json".
Definition DIAGNOSTICOS_FILE : string := "data/diagnosticos.json".
Definition CORRECOES_FILE : string := "data/correcoes.json".
Definition SUGESTOES_FILE : string := "data/sugestoes.json".

(** [arquivo.exists()] *)
Definition path_exists (fs : FS) (arquivo : string) : bool :=
  match fs !! arquivo with
  | Some _ => true
  | None => false
  end.

(** [open(arquivo, 'r', encoding='utf-8')] followed by [f.read()]. *)
Definition read_text (fs : FS) (arquivo : string) : result string :=
  match fs !! arquivo with
  | None => Raise FileNotFoundError
  | Some bytes => if utf8_valid bytes then Ok bytes else Raise UnicodeDecodeError
  end.

(** [json.load(f)] is [json.loads(f.read())]. *)
Definition json_load (fs : FS) (arquivo : string) : result json :=
  let* text := read_text fs arquivo in json_loads text.

(** [default=None]: [None] is the call without the argument, [Some JNull] the
    call that passes [None]; [if default is None: default = []] treats them
    alike. *)
Definition carregar_dados (fs : FS) (arquivo : string) (default : option json)
  : result json :=
  let default :=
    match default with
    | None | Some JNull => JList []
    | Some d => d
    end in
  if negb (path_exists fs arquivo) then Ok default
  else
    match json_load fs arquivo with
    | Raise JSONDecodeError => Ok default
    | Raise FileNotFoundError => Ok default
    | r => r
    end.

(** The store after a write of [dados] that ran to its end. *)
Definition gravado (fs : FS) (arquivo : string) (dados : json) : FS :=
  <[arquivo := json_dumps dados]> fs.

(** [open(arquivo, 'w', encoding='utf-8')] empties the file and [json.dump]
    writes into it; the [with] block closes the file also when [json.dump]
    raises, so the file then holds the chunks written before the exception,
    and no longer what it held. *)
Definition salvar_dados (amb : Ambiente) (fs : FS) (arquivo : string)
    (dados : json) : result unit * FS :=
  let (texto, falha) := json_dump amb dados in
  (match falha with
   | None => Ok tt
   | Some e => Raise e
   end,
   <[arquivo := texto]> fs).

(** ** Entity schemas (the pydantic models)

    A [*Body] is a validated request body: for each field with a default,
    the value the caller supplied, if any.  The constructor fills the
    defaults; [uuid] and [now] are the results of [uuid.uuid4()] and
    [datetime.now().isoformat()] evaluated by the default factories. *)

Definition opt_str (o : option string) : json :=
  match o with Some s => JStr s | None => JNull end.

Definition opt_dict (o : option (list (string * json))) : json :=
  match o with Some d => JDict d | None => JNull end.

Definition or_default {A} (o : option A) (d : A) : A :=
  match o with Some a => a | None => d end.

Module Tarefa.
Record t := mk {
  id : string;
  titulo : string;
  descricao : string;
  estado : string;
  agente_responsavel : option string;
  prioridade : string;
  timestamp_criacao : string;
  timestamp_atualizacao : option string;
  resultado : option string;
  contexto : option (list (string * json)) }.

Record body := mk_body {
  b_id : option string;
  b_titulo : string;
  b_descricao : string;
  b_estado : option string;
  b_agente_responsavel : option string;
  b_prioridade : option string;
  b_timestamp_criacao : option string;
  b_timestamp_atualizacao : option string;
  b_resultado : option string;
  b_contexto : option (list (string * json)) }.

Definition init (uuid now : string) (b : body) : t :=
  {| id := or_default (b_id b) uuid;
     titulo := b_titulo b;
     descricao := b_descricao b;
     estado := or_default (b_estado b) "pendente";
     agente_responsavel := b_agente_responsavel b;
     prioridade := or_default (b_prioridade b) "normal";
     timestamp_criacao := or_default (b_timestamp_criacao b) now;
     timestamp_atualizacao := b_timestamp_atualizacao b;
     resultado := b_resultado b;
     contexto := b_contexto b |}.

(** [tarefa.dict()] *)
Definition dict (x : t) : json :=
  JDict [ ("id", JStr (id x));
          ("titulo", JStr (titulo x));
          ("descricao", JStr (descricao x));
          ("estado", JStr (estado x));
          ("agente_responsavel", opt_str (agente_responsavel x));
          ("prioridade", JStr (prioridade x));
          ("timestamp_criacao", JStr (timestamp_criacao x));
          ("timestamp_atualizacao", opt_str (timestamp_atualizacao x));
          ("resultado", opt_str (resultado x));
          ("contexto", opt_dict (contexto x)) ].
End Tarefa.

Module Diagnostico.
Record t := mk {
  id : string;
  tipo : string;
  descricao : string;
  severidade : string;
  timestamp : string;
  detalhes : option (list (string * json));
  sugestoes : option (list string) }.

Record body := mk_body {
  b_id : option string;
  b_tipo : string;
  b_descricao : string;
  b_severidade : option string;
  b_timestamp : option string;
  b_detalhes : option (list (string * json));
  b_sugestoes : option (list string) }.

Definition init (uuid now : string) (b : body) : t :=
  {| id := or_default (b_id b) uuid;
     tipo := b_tipo b;
     descricao := b_descricao b;
     severidade := or_default (b_severidade b) "info";
     timestamp := or_default (b_timestamp b) now;
     detalhes := b_detalhes b;
     sugestoes := b_sugestoes b |}.

Definition dict (x : t) : json :=
  JDict [ ("id", JStr (id x));
          ("tipo", JStr (tipo x));
          ("descricao", JStr (descricao x));
          ("severidade", JStr (severidade x));
          ("timestamp", JStr (timestamp x));
          ("detalhes", opt_dict (detalhes x));
          ("sugestoes",
           match sugestoes x with
           | Some l => JList (map JStr l)
           | None => JNull
           end) ].
End Diagnostico.

Module Correcao.
Record t := mk {
  id : string;
  diagnostico_id : option string;
  descricao : string;
  codigo : option string;
  aplicada : bool;
  timestamp : string;
  resultado : option string }.

Record body := mk_body {
  b_id : option string;
  b_diagnostico_id : option string;
  b_descricao : string;
  b_codigo : option string;
  b_aplicada : option bool;
  b_timestamp : option string;
  b_resultado : option string }.

Definition init (uuid now : string) (b : body) : t :=
  {| id := or_default (b_id b) uuid;
     diagnostico_id := b_diagnostico_id b;
     descricao := b_descricao b;
     codigo := b_codigo b;
     aplicada := or_default (b_aplicada b) false;
     timestamp := or_default (b_timestamp b) now;
     resultado := b_resultado b |}.

Definition dict (x : t) : json :=
  JDict [ ("id", JStr (id x));
          ("diagnostico_id", opt_str (diagnostico_id x));
          ("descricao", JStr (descricao x));
          ("codigo", opt_str (codigo x));
          ("aplicada", JBool (aplicada x));
          ("timestamp", JStr (timestamp x));
          ("resultado", opt_str (resultado x)) ].
End Correcao.

Module Sugestao.
Record t := mk {
  id : string;
  tipo : string;
  titulo : string;
  descricao : string;
  prioridade : string;
  implementada : bool;
  timestamp : string;
  detalhes : option (list (string * json)) }.

Record body := mk_body {
  b_id : option string;
  b_tipo : string;
  b_titulo : string;
  b_descricao : string;
  b_prioridade : option string;
  b_implementada : option bool;
  b_timestamp : option string;
  b_detalhes : option (list (string * json)) }.

Definition init (uuid now : string) (b : body) : t :=
  {| id := or_default (b_id b) uuid;
     tipo := b_tipo b;
     titulo := b_titulo b;
     descricao := b_descricao b;
     prioridade := or_default (b_prioridade b) "media";
     implementada := or_default (b_implementada b) false;
     timestamp := or_default (b_timestamp b) now;
     detalhes := b_detalhes b |}.

Definition dict (x : t) : json :=
  JDict [ ("id", JStr (id x));
          ("tipo", JStr (tipo x));
          ("titulo", JStr (titulo x));
          ("descricao", JStr (descricao x));
          ("prioridade", JStr (prioridade x));
          ("implementada", JBool (implementada x));
          ("timestamp", JStr (timestamp x));
          ("detalhes", opt_dict (detalhes x)) ].
End Sugestao.

(** ** Query, filter and sort layer *)

(** Code points of a [str], one string each. *)
Fixpoint chars_from (cur : string) (s : string) : list string :=
  match s with
  | EmptyString => match cur with EmptyString => [] | _ => [cur] end
  | String c r =>
      if is_cont c then chars_from (cur ++ String c "") r
      else
        match cur with
        | EmptyString => chars_from (String c "") r
        | _ => cur :: chars_from (String c "") r
        end
  end.

(** What a [for] loop or a comprehension iterates over. *)
Definition py_iter (v : json) : result (list json) :=
  match v with
  | JList xs => Ok xs
  | JDict d => Ok (map (fun kv => JStr (fst kv)) d)
  | JStr s => Ok (map JStr (chars_from "" s))
  | _ => Raise TypeError
  end.

(** [len(v)] *)
Definition py_len (v : json) : result Z :=
  match v with
  | JList xs => Ok (Z.of_nat (List.length xs))
  | JDict d => Ok (Z.of_nat (List.length d))
  | JStr s => Ok (Z.of_nat (List.length (chars_from "" s)))
  | _ => Raise TypeError
  end.

(** [v.append(x)]: only a list has the method. *)
Definition py_append (v : json) (x : json) : result json :=
  match v with
  | JList xs => Ok (JList (xs ++ [x]))
  | _ => Raise AttributeError
  end.

(** [l[:n]] *)
Definition py_slice_to {A} (l : list A) (n : Z) : list A :=
  if n <? 0 then firstn (List.length l - Z.to_nat (- n)) l
  else firstn (Z.to_nat n) l.

(** [[x for x in l if p(x)]], where [p] may raise. *)
Fixpoint rfilter (p : json -> result bool) (l : list json) : result (list json) :=
  match l with
  | [] => Ok []
  | x :: l' =>
      let* b := p x in
      let* r := rfilter p l' in
      Ok (if b then x :: r else r)
  end.

(** [if valor: dados = [t for t in dados if t.get(campo) == valor]] for a
    string query parameter: [None] and the empty string are falsy. *)
Definition filtro_str (valor : option string) (campo : string) (dados : json)
  : result json :=
  match valor with
  | None => Ok dados
  | Some v =>
      if String.eqb v "" then Ok dados
      else
        let* l := py_iter dados in
        let* r := rfilter (fun t => let* x := py_get t campo in
                                    Ok (py_eq x (JStr v))) l in
        Ok (JList r)
  end.

(** [if valor is not None: dados = [c for c in dados if c.get(campo) == valor]]
    for a boolean query parameter. *)
Definition filtro_bool (valor : option bool) (campo : string) (dados : json)
  : result json :=
  match valor with
  | None => Ok dados
  | Some v =>
      let* l := py_iter dados in
      let* r := rfilter (fun t => let* x := py_get t campo in
                                  Ok (py_eq x (JBool v))) l in
      Ok (JList r)
  end.

(** [Query(default, ge=lo, le=hi)] for an integer parameter. *)
Definition query_int (valor : option Z) (default lo hi : Z) : result Z :=
  match valor with
  | None => Ok default
  | Some n => if (lo <=? n) && (n <=? hi) then Ok n else Raise RequestValidationError
  end.

(** *** [list.sort(key=..., reverse=...)]

    Keys are computed first, for every element.  The sort is stable; with
    [reverse=True] the list is reversed, sorted and reversed again, so equal
    keys keep their original order in both directions.  Only [<] is used on
    keys.  When two keys of the list cannot be compared the model raises
    [TypeError]; CPython raises at the first such comparison its merge
    strategy performs.  The results below concern lists whose keys are
    pairwise comparable, where the outcome does not depend on the strategy. *)
Section Sort.
Context {K : Type} (lt : K -> K -> result bool).

Definition comparable (a b : K) : bool :=
  match lt a b, lt b a with
  | Ok _, Ok _ => true
  | _, _ => false
  end.

Fixpoint pairwise_comparable (ks : list K) : bool :=
  match ks with
  | [] => true
  | k :: ks' => forallb (comparable k) ks' && pairwise_comparable ks'
  end.

Definition ltb_key (a b : K) : bool :=
  match lt a b with
  | Ok b => b
  | Raise _ => false
  end.

Fixpoint insert_sorted (x : K * json) (l : list (K * json)) : list (K * json) :=
  match l with
  | [] => [x]
  | y :: l' =>
      if ltb_key (fst y) (fst x) then y :: insert_sorted x l' else x :: l
  end.

Definition stable_sort (l : list (K * json)) : list (K * json) :=
  fold_right insert_sorted [] l.

Definition list_sort (key : json -> result K) (reverse : bool) (l : list json)
  : result (list json) :=
  let* ks := rmap key l in
  if pairwise_comparable ks then
    let dec := combine ks l in
    let sorted :=
      if reverse then rev (stable_sort (rev dec)) else stable_sort dec in
    Ok (map snd sorted)
  else Raise TypeError.

(** [dados.sort(...)]: only a list has the method. *)
Definition py_sort (key : json -> result K) (reverse : bool) (dados : json)
  : result (list json) :=
  match dados with
  | JList l => list_sort key reverse l
  | _ => Raise AttributeError
  end.
End Sort.

(** [(r1, t1) < (r2, t2)] on tuples: the first differing component decides. *)
Definition tuple_lt (a b : Z * json) : result bool :=
  if negb (fst a =? fst b) then Ok (fst a <? fst b)
  else if py_eq (snd a) (snd b) then Ok false
  else py_lt (snd a) (snd b).

(** [table.get(k, default)] for a rank table with string keys. *)
Fixpoint table_lookup (table : list (string * Z)) (s : string) : option Z :=
  match table with
  | [] => None
  | (k, r) :: table' => if String.eqb k s then Some r else table_lookup table' s
  end.

Definition table_get (table : list (string * Z)) (k : json) (default : Z)
  : result Z :=
  match k with
  | JStr s => Ok (or_default (table_lookup table s) default)
  | JList _ | JDict _ => Raise TypeError
  | _ => Ok default
  end.

(** ** Routes *)

(** *** Tarefas *)

Definition criar_tarefa (amb : Ambiente) (tarefa : Tarefa.t) (fs : FS)
  : result Tarefa.t * FS :=
  match carregar_dados fs TAREFAS_FILE None with
  | Raise e => (Raise e, fs)
  | Ok tarefas =>
      match py_append tarefas (Tarefa.dict tarefa) with
      | Raise e => (Raise e, fs)
      | Ok tarefas =>
          match salvar_dados amb fs TAREFAS_FILE tarefas with
          | (Ok _, fs') => (Ok tarefa, fs')
          | (Raise e, fs') => (Raise e, fs')
          end
      end
  end.

Definition prioridade_tarefa : list (string * Z) :=
  [("critica", 0); ("alta", 1); ("normal", 2); ("baixa", 3)].

Definition chave_tarefa (x : json) : result (Z * json) :=
  let* p := py_get_or x "prioridade" (JStr "normal") in
  let* r := table_get prioridade_tarefa p 2 in
  let* t := py_get_or x "timestamp_criacao" (JStr "") in
  Ok (r, t).

Definition listar_tarefas (estado agente prioridade : option string)
    (limite : option Z) (fs : FS) : result (list json) :=
  let* limite := query_int limite 100 1 1000 in
  let* tarefas := carregar_dados fs TAREFAS_FILE None in
  let* tarefas := filtro_str estado "estado" tarefas in
  let* tarefas := filtro_str agente "agente_responsavel" tarefas in
  let* tarefas := filtro_str prioridade "prioridade" tarefas in
  let* tarefas := py_sort tuple_lt chave_tarefa false tarefas in
  Ok (py_slice_to tarefas limite).

Definition nao_encontrada (tarefa_id : string) : exn :=
  HTTPException 404 ("Tarefa " ++ tarefa_id ++ " não encontrada").

Fixpoint buscar_tarefa (tarefa_id : string) (tarefas : list json)
  : result (option json) :=
  match tarefas with
  | [] => Ok None
  | tarefa :: resto =>
      let* i := py_get tarefa "id" in
      if py_eq i (JStr tarefa_id) then Ok (Some tarefa)
      else buscar_tarefa tarefa_id resto
  end.

Definition obter_tarefa (tarefa_id : string) (fs : FS) : result json :=
  let* tarefas := carregar_dados fs TAREFAS_FILE None in
  let* l := py_iter tarefas in
  let* r := buscar_tarefa tarefa_id l in
  match r with
  | Some tarefa => Ok tarefa
  | None => Raise (nao_encontrada tarefa_id)
  end.

(** [tarefas[i].update(atualizacao)] followed by
    [tarefas[i]["timestamp_atualizacao"] = now]. *)
Definition aplicar_atualizacao (tarefa atualizacao : list (string * json))
    (now : string) : list (string * json) :=
  dict_set (dict_update tarefa atualizacao) "timestamp_atualizacao" (JStr now).

(** The loop of [atualizar_tarefa]: the collection with the first matching
    record replaced, and that record; [None] when the loop ends without a
    match. *)
Fixpoint atualizar_primeira (tarefa_id : string)
    (atualizacao : list (string * json)) (now : string) (tarefas : list json)
  : result (option (list json * json)) :=
  match tarefas with
  | [] => Ok None
  | tarefa :: resto =>
      let* i := py_get tarefa "id" in
      if py_eq i (JStr tarefa_id) then
        match tarefa with
        | JDict d =>
            let nova := JDict (aplicar_atualizacao d atualizacao now) in
            Ok (Some (nova :: resto, nova))
        | _ => Raise AttributeError
        end
      else
        let* r := atualizar_primeira tarefa_id atualizacao now resto in
        Ok (match r with
            | Some (l, nova) => Some (tarefa :: l, nova)
            | None => None
            end)
  end.

Definition atualizar_tarefa (amb : Ambiente) (tarefa_id : string)
    (atualizacao : list (string * json)) (now : string) (fs : FS)
  : result json * FS :=
  match carregar_dados fs TAREFAS_FILE None with
  | Raise e => (Raise e, fs)
  | Ok tarefas =>
      match py_iter tarefas with
      | Raise e => (Raise e, fs)
      | Ok l =>
          match atualizar_primeira tarefa_id atualizacao now l with
          | Raise e => (Raise e, fs)
          | Ok None => (Raise (nao_encontrada tarefa_id), fs)
          | Ok (Some (l', nova)) =>
              match salvar_dados amb fs TAREFAS_FILE (JList l') with
              | (Ok _, fs') => (Ok nova, fs')
              | (Raise e, fs') => (Raise e, fs')
              end
          end
      end
  end.

(** *** Diagnosticos *)

Definition criar_diagnostico (amb : Ambiente) (diagnostico : Diagnostico.t) (fs : FS)
  : result Diagnostico.t * FS :=
  match carregar_dados fs DIAGNOSTICOS_FILE None with
  | Raise e => (Raise e, fs)
  | Ok diagnosticos =>
      match py_append diagnosticos (Diagnostico.dict diagnostico) with
      | Raise e => (Raise e, fs)
      | Ok diagnosticos =>
          match salvar_dados amb fs DIAGNOSTICOS_FILE diagnosticos with
          | (Ok _, fs') => (Ok diagnostico, fs')
          | (Raise e, fs') => (Raise e, fs')
          end
      end
  end.

Definition rank_severidade : list (string * Z) :=
  [("critico", 0); ("erro", 1); ("aviso", 2); ("info", 3)].

Definition chave_diagnostico (x : json) : result (Z * json) :=
  let* s := py_get_or x "severidade" (JStr "info") in
  let* r := table_get rank_severidade s 3 in
  let* t := py_get_or x "timestamp" (JStr "") in
  Ok (r, t).

Definition listar_diagnosticos (tipo severidade : option string)
    (limite : option Z) (fs : FS) : result (list json) :=
  let* limite := query_int limite 100 1 1000 in
  let* diagnosticos := carregar_dados fs DIAGNOSTICOS_FILE None in
  let* diagnosticos := filtro_str tipo "tipo" diagnosticos in
  let* diagnosticos := filtro_str severidade "severidade" diagnosticos in
  let* diagnosticos := py_sort tuple_lt chave_diagnostico true diagnosticos in
  Ok (py_slice_to diagnosticos limite).

(** *** Correcoes *)

Definition criar_correcao (amb : Ambiente) (correcao : Correcao.t) (fs : FS)
  : result Correcao.t * FS :=
  match carregar_dados fs CORRECOES_FILE None with
  | Raise e => (Raise e, fs)
  | Ok correcoes =>
      match py_append correcoes (Correcao.dict correcao) with
      | Raise e => (Raise e, fs)
      | Ok correcoes =>
          match salvar_dados amb fs CORRECOES_FILE correcoes with
          | (Ok _, fs') => (Ok correcao, fs')
          | (Raise e, fs') => (Raise e, fs')
          end
      end
  end.

Definition chave_correcao (x : json) : result json :=
  py_get_or x "timestamp" (JStr "").

Definition listar_correcoes (aplicada : option bool)
    (diagnostico_id : option string) (limite : option Z) (fs : FS)
  : result (list json) :=
  let* limite := query_int limite 100 1 1000 in
  let* correcoes := carregar_dados fs CORRECOES_FILE None in
  let* correcoes := filtro_bool aplicada "aplicada" correcoes in
  let* correcoes := filtro_str diagnostico_id "diagnostico_id" correcoes in
  let* correcoes := py_sort py_lt chave_correcao true correcoes in
  Ok (py_slice_to correcoes limite).

(** *** Sugestoes *)

Definition criar_sugestao (amb : Ambiente) (sugestao : Sugestao.t) (fs : FS)
  : result Sugestao.t * FS :=
  match carregar_dados fs SUGESTOES_FILE None with
  | Raise e => (Raise e, fs)
  | Ok sugestoes =>
      match py_append sugestoes (Sugestao.dict sugestao) with
      | Raise e => (Raise e, fs)
      | Ok sugestoes =>
          match salvar_dados amb fs SUGESTOES_FILE sugestoes with
          | (Ok _, fs') => (Ok sugestao, fs')
          | (Raise e, fs') => (Raise e, fs')
          end
      end
  end.

Definition prioridade_sugestao : list (string * Z) :=
  [("alta", 0); ("media", 1); ("baixa", 2)].

Definition chave_sugestao (x : json) : result (Z * json) :=
  let* p := py_get_or x "prioridade" (JStr "media") in
  let* r := table_get prioridade_sugestao p 1 in
  let* t := py_get_or x "timestamp" (JStr "") in
  Ok (r, t).

Definition listar_sugestoes (tipo prioridade : option string)
    (implementada : option bool) (limite : option Z) (fs : FS)
  : result (list json) :=
  let* limite := query_int limite 100 1 1000 in
  let* sugestoes := carregar_dados fs SUGESTOES_FILE None in
  let* sugestoes := filtro_str tipo "tipo" sugestoes in
  let* sugestoes := filtro_str prioridade "prioridade" sugestoes in
  let* sugestoes := filtro_bool implementada "implementada" sugestoes in
  let* sugestoes := py_sort tuple_lt chave_sugestao false sugestoes in
  Ok (py_slice_to sugestoes limite).

(** *** Status *)

(** A counting dict: keys are hashable values compared with [==], in
    insertion order. *)
Fixpoint contagem_get (d : list (json * Z)) (k : json) : option Z :=
  match d with
  | [] => None
  | (k', n) :: d' => if py_eq k' k then Some n else contagem_get d' k
  end.

Fixpoint contagem_set (d : list (json * Z)) (k : json) (n : Z)
  : list (json * Z) :=
  match d with
  | [] => [(k, n)]
  | (k', n') :: d' =>
      if py_eq k' k then (k', n) :: d' else (k', n') :: contagem_set d' k n
  end.

(** One pass of [d[v] = d.get(v, 0) + 1] with [v = x.get(campo, default)]. *)
Fixpoint contar_por (campo : string) (default : json) (dados : list json)
    (d : list (json * Z)) : result (list (json * Z)) :=
  match dados with
  | [] => Ok d
  | x :: resto =>
      let* v := py_get_or x campo default in
      if hashable v then
        contar_por campo default resto
          (contagem_set d v (or_default (contagem_get d v) 0 + 1))
      else Raise TypeError
  end.

(** [sum(1 for x in dados if x.get(campo, False))] *)
Fixpoint contar_se (campo : string) (dados : list json) : result Z :=
  match dados with
  | [] => Ok 0
  | x :: resto =>
      let* v := py_get_or x campo (JBool false) in
      let* n := contar_se campo resto in
      Ok (if py_truthy v then 1 + n else n)
  end.

Record Status := mkStatus {
  status : string;
  timestamp : string;
  tarefas_total : Z;
  tarefas_por_estado : list (json * Z);
  diagnosticos_total : Z;
  diagnosticos_por_severidade : list (json * Z);
  correcoes_total : Z;
  correcoes_aplicadas : Z;
  correcoes_pendentes : Z;
  sugestoes_total : Z;
  sugestoes_implementadas : Z;
  sugestoes_pendentes : Z }.

Definition obter_status (now : string) (fs : FS) : result Status :=
  let* tarefas := carregar_dados fs TAREFAS_FILE None in
  let* diagnosticos := carregar_dados fs DIAGNOSTICOS_FILE None in
  let* correcoes := carregar_dados fs CORRECOES_FILE None in
  let* sugestoes := carregar_dados fs SUGESTOES_FILE None in
  let* ts := py_iter tarefas in
  let* tarefas_por_estado := contar_por "estado" (JStr "pendente") ts [] in
  let* ds := py_iter diagnosticos in
  let* diagnosticos_por_severidade :=
    contar_por "severidade" (JStr "info") ds [] in
  let* cs := py_iter correcoes in
  let* correcoes_aplicadas := contar_se "aplicada" cs in
  let* ss := py_iter sugestoes in
  let* sugestoes_implementadas := contar_se "implementada" ss in
  let* n_tarefas := py_len tarefas in
  let* n_diagnosticos := py_len diagnosticos in
  let* n_correcoes := py_len correcoes in
  let* n_sugestoes := py_len sugestoes in
  Ok {| status := "online";
        timestamp := now;
        tarefas_total := n_tarefas;
        tarefas_por_estado := tarefas_por_estado;
        diagnosticos_total := n_diagnosticos;
        diagnosticos_por_severidade := diagnosticos_por_severidade;
        correcoes_total := n_correcoes;
        correcoes_aplicadas := correcoes_aplicadas;
        correcoes_pendentes := n_correcoes - correcoes_aplicadas;
        sugestoes_total := n_sugestoes;
        sugestoes_implementadas := sugestoes_implementadas;
        sugestoes_pendentes := n_sugestoes - sugestoes_implementadas |}.

(** Sum of the values of a counting dict. *)
Definition soma_contagem (d : list (json * Z)) : Z :=
  fold_right (fun kn acc => snd kn + acc) 0 d.

(** ** Vocabulary of the statements *)

(** The [id] of a stored record ([None] when it has none). *)
Definition id_de (x : json) : json :=
  match x with
  | JDict d => or_default (dict_get d "id") JNull
  | _ => JNull
  end.

Definition campo (k : string) (x : json) : json :=
  match x with
  | JDict d => or_default (dict_get d k) JNull
  | _ => JNull
  end.

Definition is_dict (x : json) : bool :=
  match x with
  | JDict _ => true
  | _ => false
  end.

Definition is_str (x : json) : bool :=
  match x with
  | JStr _ => true
  | _ => false
  end.

(** A record that the sort of a list route accepts: a dict whose rank field,
    when present, is hashable and whose timestamp field, when present, is a
    string. *)
Definition ordenavel (campo_rank campo_ts : string) (x : json) : bool :=
  match x with
  | JDict d =>
      hashable (or_default (dict_get d campo_rank) JNull)
      && is_str (or_default (dict_get d campo_ts) (JStr ""))
  | _ => false
  end.

(** A record that [obter_status] can count by [k]. *)
Definition contavel (k : string) (x : json) : bool :=
  match x with
  | JDict d => hashable (or_default (dict_get d k) JNull)
  | _ => false
  end.

(** The pure reading of one filter: [x.get(k) == v]. *)
Definition casa_str (k : string) (valor : option string) (x : json) : bool :=
  match valor with
  | None => true
  | Some v => String.eqb v "" || py_eq (campo k x) (JStr v)
  end.

Definition casa_bool (k : string) (valor : option bool) (x : json) : bool :=
  match valor with
  | None => true
  | Some v => py_eq (campo k x) (JBool v)
  end.

(** A record that the sort of [listar_correcoes] accepts: a dict whose
    timestamp, when present, is a string. *)
Definition ordenavel_ts (campo_ts : string) (x : json) : bool :=
  match x with
  | JDict d => is_str (or_default (dict_get d campo_ts) (JStr ""))
  | _ => false
  end.

(** The records a list route retains: those matching every supplied filter. *)
Definition tarefas_filtradas (estado agente prioridade : option string)
    (l : list json) : list json :=
  List.filter (casa_str "prioridade" prioridade)
    (List.filter (casa_str "agente_responsavel" agente)
       (List.filter (casa_str "estado" estado) l)).

Definition diagnosticos_filtrados (tipo severidade : option string)
    (l : list json) : list json :=
  List.filter (casa_str "severidade" severidade)
    (List.filter (casa_str "tipo" tipo) l).

Definition correcoes_filtradas (aplicada : option bool)
    (diagnostico_id : option string) (l : list json) : list json :=
  List.filter (casa_str "diagnostico_id" diagnostico_id)
    (List.filter (casa_bool "aplicada" aplicada) l).

Definition sugestoes_filtradas (tipo prioridade : option string)
    (implementada : option bool) (l : list json) : list json :=
  List.filter (casa_bool "implementada" implementada)
    (List.filter (casa_str "prioridade" prioridade)
       (List.filter (casa_str "tipo" tipo) l)).

(** The allowed values of the [limite] parameter. *)
Definition limite_valido (limite : option Z) : Prop :=
  match limite with
  | None => True
  | Some n => 1 <= n <= 1000
  end.

(** What a list route answers: the retained records are sorted by the
    route's [sort] call, which succeeds, permutes them and leaves them in
    the order [em_ordem] of the route (each record stands in that relation
    to every record after it), and the first [n] of the result are
    returned. *)
Definition filtra_ordena_trunca (em_ordem : json -> json -> Prop)
    (resposta ordenacao : result (list json))
    (retidas : list json) (n : Z) : Prop :=
  exists s,
    ordenacao = Ok s
    /\ Permutation s retidas
    /\ StronglySorted em_ordem s
    /\ resposta = Ok (firstn (Z.to_nat n) s)
    /\ Z.of_nat (List.length (firstn (Z.to_nat n) s)) <= n.

(** *** Values that can be written and read back *)

(** Every string of a value, keys included, is well-formed UTF-8: the value
    is one that Python can hold and write. *)
Fixpoint utf8_texto (v : json) : bool :=
  match v with
  | JStr s => utf8_valid s
  | JList xs =>
      (fix go (xs : list json) : bool :=
         match xs with
         | [] => true
         | x :: xs' => utf8_texto x && go xs'
         end) xs
  | JDict d =>
      (fix go (d : list (string * json)) : bool :=
         match d with
         | [] => true
         | kv :: d' => utf8_valid (fst kv) && utf8_texto (snd kv) && go d'
         end) d
  | _ => true
  end.

Definition utf8_itens (xs : list json) : bool := forallb utf8_texto xs.

Definition utf8_pares (d : list (string * json)) : bool :=
  forallb (fun kv => utf8_valid (fst kv) && utf8_texto (snd kv)) d.

(** Distinct keys in every dict of a value. *)
Fixpoint chaves_distintas (v : json) : bool :=
  match v with
  | JList xs =>
      (fix go (xs : list json) : bool :=
         match xs with
         | [] => true
         | x :: xs' => chaves_distintas x && go xs'
         end) xs
  | JDict d =>
      (fix go (vistos : list string) (d : list (string * json)) : bool :=
         match d with
         | [] => true
         | kv :: d' =>
             negb (existsb (String.eqb (fst kv)) vistos)
             && chaves_distintas (snd kv)
             && go (fst kv :: vistos) d'
         end) [] d
  | _ => true
  end.

Definition chaves_distintas_pares (vistos : list string)
    (d : list (string * json)) : bool :=
  (fix go (vistos : list string) (d : list (string * json)) : bool :=
     match d with
     | [] => true
     | kv :: d' =>
         negb (existsb (String.eqb (fst kv)) vistos)
         && chaves_distintas (snd kv)
         && go (fst kv :: vistos) d'
     end) vistos d.

Definition chaves_distintas_itens (xs : list json) : bool :=
  forallb chaves_distintas xs.

(** Containers one inside the other: 0 for a value that is not a container. *)
Fixpoint profundidade (v : json) : nat :=
  match v with
  | JList xs =>
      S ((fix go (xs : list json) : nat :=
            match xs with
            | [] => O
            | x :: xs' => Nat.max (profundidade x) (go xs')
            end) xs)
  | JDict d =>
      S ((fix go (d : list (string * json)) : nat :=
            match d with
            | [] => O
            | kv :: d' => Nat.max (profundidade (snd kv)) (go d')
            end) d)
  | _ => O
  end.

Fixpoint ints_dentro (amb : Ambiente) (v : json) : bool :=
  match v with
  | JInt n => int_gravavel amb n
  | JList xs =>
      (fix go (xs : list json) : bool :=
         match xs with
         | [] => true
         | x :: xs' => ints_dentro amb x && go xs'
         end) xs
  | JDict d =>
      (fix go (d : list (string * json)) : bool :=
         match d with
         | [] => true
         | kv :: d' => ints_dentro amb (snd kv) && go d'
         end) d
  | _ => true
  end.

Definition ints_itens (amb : Ambiente) (xs : list json) : bool :=
  forallb (ints_dentro amb) xs.

Definition ints_pares (amb : Ambiente) (d : list (string * json)) : bool :=
  forallb (fun kv => ints_dentro amb (snd kv)) d.

Definition prof_itens (xs : list json) : nat :=
  (fix go (xs : list json) : nat :=
     match xs with
     | [] => O
     | x :: xs' => Nat.max (profundidade x) (go xs')
     end) xs.

Definition prof_pares (d : list (string * json)) : nat :=
  (fix go (d : list (string * json)) : nat :=
     match d with
     | [] => O
     | kv :: d' => Nat.max (profundidade (snd kv)) (go d')
     end) d.

(** A value that [json.dump] writes to the end: its strings are text, its
    integers within the digit limit, its nesting within what [json.dump]
    can enter. *)
Definition gravavel (amb : Ambiente) (v : json) : bool :=
  utf8_texto v && ints_dentro amb v
  && (profundidade v <=? prof_escrita amb)%nat.

(** A written value that [json.load] reads within the interpreter's limits
    and gives back as it was: nesting within what [json.load] can enter, and
    no dict with a repeated key (a Python dict has none). *)
Definition legivel (amb : Ambiente) (v : json) : bool :=
  (profundidade v <=? prof_leitura amb)%nat && chaves_distintas v.

Definition dentro_dos_limites (amb : Ambiente) (v : json) : bool :=
  gravavel amb v && legivel amb v.

(** *** Example data *)

(** An interpreter with the default digit limit and room for 500 nested
    containers in [json.dump] and in [json.load]. *)
Definition ambiente_ex : Ambiente := mkAmbiente 4300 500 500.

(** The bytes that stand for the lone surrogate U+D83D, which a request body
    can carry (["\ud83d"]) and UTF-8 cannot encode. *)
Definition substituto_isolado : string :=
  String "237" (String "160" (String "189" "")).

Definition diagnostico_ex (i sev ts : string) : json :=
  Diagnostico.dict (Diagnostico.mk i "sistema" "disco cheio" sev ts None None).

Definition d_info : json := diagnostico_ex "d1" "info" "2024-05-01T10:00:00".
Definition d_critico : json := diagnostico_ex "d2" "critico" "2024-05-01T11:00:00".
Definition d_erro : json := diagnostico_ex "d3" "erro" "2024-05-01T12:00:00".

Definition fs_diagnosticos : FS :=
  gravado ∅ DIAGNOSTICOS_FILE (JList [d_info; d_critico; d_erro]).

(** A store whose tarefas file is not UTF-8: the single byte 0xFF. *)
Definition fs_corrompido : FS :=
  <[TAREFAS_FILE := String (ascii_of_N 255) ""]> ∅.

Definition corpo_tarefa (i ts : option string) : Tarefa.body :=
  Tarefa.mk_body i "backup" "copiar os dados" None None None ts None None None.

Definition tarefa_ex (i : string) : Tarefa.t :=
  Tarefa.init "uuid-1" "2024-05-02T09:00:00" (corpo_tarefa (Some i) None).

Definition fs_uma_tarefa : FS :=
  gravado ∅ TAREFAS_FILE (JList [Tarefa.dict (tarefa_ex "t1")]).

Definition correcao_ex (i : string) (aplicada : bool) (ts : string) : json :=
  Correcao.dict (Correcao.mk i (Some "d1") "limpar /tmp" None aplicada ts None).

Definition sugestao_ex (i p : string) (implementada : bool) (ts : string)
  : json :=
  Sugestao.dict
    (Sugestao.mk i "otimizacao" "cache" "guardar respostas" p implementada ts
       None).

Definition tarefas_ex : list json :=
  [Tarefa.dict (tarefa_ex "t1");
   Tarefa.dict (Tarefa.init "uuid-2" "2024-05-02T10:00:00"
                  (Tarefa.mk_body None "relatorio" "gerar" (Some "concluida")
                     None (Some "alta") None None None None))].

Definition correcoes_ex : list json :=
  [correcao_ex "c1" true "2024-05-01T13:00:00";
   correcao_ex "c2" false "2024-05-01T14:00:00"].

Definition sugestoes_ex : list json :=
  [sugestao_ex "s1" "baixa" false "2024-05-01T15:00:00";
   sugestao_ex "s2" "alta" true "2024-05-01T16:00:00"].

(** A task as stored, by id, state, priority and creation time. *)
Definition tarefa_de (i est pri ts : string) : json :=
  Tarefa.dict
    (Tarefa.mk i "backup" "copiar os dados" est None pri ts None None None).

(** Five tasks, one of them done.  The pending ones are stored out of the
    order of the listing, and two of them, [t1] and [t4], have the same
    priority and the same creation time. *)
Definition tarefas_listagem : list json :=
  [tarefa_de "t1" "pendente" "normal" "2024-05-02T09:00:00";
   tarefa_de "t2" "concluida" "critica" "2024-05-02T10:00:00";
   tarefa_de "t3" "pendente" "critica" "2024-05-02T11:00:00";
   tarefa_de "t4" "pendente" "normal" "2024-05-02T09:00:00";
   tarefa_de "t5" "pendente" "baixa" "2024-05-02T08:00:00"].

(** Four diagnostics; [e1] and [e3] have the same severity and the same
    timestamp. *)
Definition diagnosticos_listagem : list json :=
  [diagnostico_ex "e1" "erro" "2024-05-01T12:00:00";
   diagnostico_ex "e2" "critico" "2024-05-01T11:00:00";
   diagnostico_ex "e3" "erro" "2024-05-01T12:00:00";
   diagnostico_ex "e4" "info" "2024-05-01T10:00:00"].

(** A store with these tasks and diagnostics, and no file for the fixes and
    the suggestions. *)
Definition fs_listagem : FS :=
  gravado (gravado ∅ TAREFAS_FILE (JList tarefas_listagem))
    DIAGNOSTICOS_FILE (JList diagnosticos_listagem).

(** A store with the four collections populated. *)
Definition fs_ex : FS :=
  gravado
    (gravado
       (gravado
          (gravado ∅ TAREFAS_FILE (JList tarefas_ex))
          DIAGNOSTICOS_FILE (JList [d_info; d_critico; d_erro]))
       CORRECOES_FILE (JList correcoes_ex))
    SUGESTOES_FILE (JList sugestoes_ex).

(** * Results *)

(** ** Record store: loading *)

Lemma carregar_dados_ausente (fs : FS) (arquivo : string) :
  fs !! arquivo = None -> carregar_dados fs arquivo None = Ok (JList []).
Proof.
  intros H. unfold carregar_dados, path_exists. rewrite H. reflexivity.
Qed.

Lemma carregar_dados_ilegivel (fs : FS) (arquivo texto : string) :
  fs !! arquivo = Some texto ->
  utf8_valid texto = true ->
  json_loads texto = Raise JSONDecodeError ->
  carregar_dados fs arquivo None = Ok (JList []).
Proof.
  intros H Hu Hj. unfold carregar_dados, path_exists, json_load, read_text.
  rewrite H, Hu. simpl. rewrite Hj. reflexivity.
Qed.

Lemma carregar_dados_valido (fs : FS) (arquivo texto : string) (v : json) :
  fs !! arquivo = Some texto ->
  utf8_valid texto = true ->
  json_loads texto = Ok v ->
  carregar_dados fs arquivo None = Ok v.
Proof.
  intros H Hu Hj. unfold carregar_dados, path_exists, json_load, read_text.
  rewrite H, Hu. simpl. rewrite Hj. reflexivity.
Qed.

(** C4. Loading is meant never to surface an error, a corrupt file giving
    the empty list.  [carregar_dados] catches [JSONDecodeError] and
    [FileNotFoundError] only: on a file that is not valid UTF-8 the read
    itself raises [UnicodeDecodeError], which reaches the caller. *)
Theorem carregar_dados_nao_utf8_levanta :
  carregar_dados fs_corrompido TAREFAS_FILE None = Raise UnicodeDecodeError.
Proof. vm_compute. reflexivity. Qed.

(** ** Diagnostics: order of the listing *)

(** C1. The listing is meant to put the most severe diagnostic first.  With
    the rank table [critico = 0 .. info = 3] and [reverse=True] the route
    returns the least severe first: stored [info, critico, erro] come back
    as [info, erro, critico]. *)
Theorem listar_diagnosticos_info_primeiro :
  listar_diagnosticos None None None fs_diagnosticos
  = Ok [d_info; d_erro; d_critico].
Proof. vm_compute. reflexivity. Qed.

(** ** Rank of an unrecognised enum value *)

Lemma table_get_str (table : list (string * Z)) (s : string) (default : Z) :
  table_lookup table s = None -> table_get table (JStr s) default = Ok default.
Proof. intros H. unfold table_get. rewrite H. reflexivity. Qed.

Lemma py_get_or_some (d : list (string * json)) (k : string) (v default : json) :
  dict_get d k = Some v -> py_get_or (JDict d) k default = Ok v.
Proof. intros H. unfold py_get_or. rewrite H. reflexivity. Qed.

(** A diagnostic with an unrecognised severity gets rank 3, the rank of
    [info] and the last of the table, not one of the two middle ranks. *)
Lemma severidade_desconhecida_nao_e_rank_medio :
  ~ (exists r t,
        chave_diagnostico (diagnostico_ex "d9" "fatal" "2024-05-01T10:00:00")
        = Ok (r, t)
        /\ (r = 1 \/ r = 2)).
Proof.
  intros (r & t & H & Hr). vm_compute in H. injection H as <- _. lia.
Qed.

(** C3 (amended). A record whose enum sort field holds a string outside the
    rank table is given the rank the route names as default, which is the
    rank of the field's default value: 2 ([normal]) for tarefas, 3 ([info],
    the last rank) for diagnosticos, 1 ([media]) for sugestoes.  The key is
    computed without error. *)
Theorem rank_de_valor_desconhecido
    (d : list (string * json)) (s : string) :
  (dict_get d "prioridade" = Some (JStr s) ->
   table_lookup prioridade_tarefa s = None ->
   chave_tarefa (JDict d)
   = Ok (2, or_default (dict_get d "timestamp_criacao") (JStr "")))
  /\ (dict_get d "severidade" = Some (JStr s) ->
      table_lookup rank_severidade s = None ->
      chave_diagnostico (JDict d)
      = Ok (3, or_default (dict_get d "timestamp") (JStr "")))
  /\ (dict_get d "prioridade" = Some (JStr s) ->
      table_lookup prioridade_sugestao s = None ->
      chave_sugestao (JDict d)
      = Ok (1, or_default (dict_get d "timestamp") (JStr ""))).
Proof.
  repeat split; intros Hd Ht.
  - unfold chave_tarefa. rewrite (py_get_or_some _ _ _ _ Hd). cbn [rbind].
    rewrite (table_get_str _ _ _ Ht). reflexivity.
  - unfold chave_diagnostico. rewrite (py_get_or_some _ _ _ _ Hd). cbn [rbind].
    rewrite (table_get_str _ _ _ Ht). reflexivity.
  - unfold chave_sugestao. rewrite (py_get_or_some _ _ _ _ Hd). cbn [rbind].
    rewrite (table_get_str _ _ _ Ht). reflexivity.
Qed.

Lemma rank_de_valor_desconhecido_witness :
  chave_tarefa (JDict [("prioridade", JStr "urgente")]) = Ok (2, JStr "")
  /\ chave_diagnostico (JDict [("severidade", JStr "fatal")]) = Ok (3, JStr "")
  /\ chave_sugestao (JDict [("prioridade", JStr "urgente")]) = Ok (1, JStr "").
Proof.
  split; [|split].
  - apply (proj1 (rank_de_valor_desconhecido
                    [("prioridade", JStr "urgente")] "urgente"));
      reflexivity.
  - apply (proj1 (proj2 (rank_de_valor_desconhecido
                           [("severidade", JStr "fatal")] "fatal")));
      reflexivity.
  - apply (proj2 (proj2 (rank_de_valor_desconhecido
                           [("prioridade", JStr "urgente")] "urgente")));
      reflexivity.
Defined.

(** ** dict lemmas *)

Lemma dict_get_set_eq (d : list (string * json)) (k : string) (v : json) :
  dict_get (dict_set d k v) k = Some v.
Proof.
  induction d as [|[k' v'] d IH]; simpl.
  - rewrite String.eqb_refl. reflexivity.
  - destruct (String.eqb k' k) eqn:E; simpl; rewrite E; auto.
Qed.

Lemma dict_get_set_ne (d : list (string * json)) (k k' : string) (v : json) :
  k' <> k -> dict_get (dict_set d k' v) k = dict_get d k.
Proof.
  intros Hne. induction d as [|[k0 v0] d IH]; simpl.
  - destruct (String.eqb k' k) eqn:E; [|reflexivity].
    apply String.eqb_eq in E. contradiction.
  - destruct (String.eqb k0 k') eqn:E; simpl.
    + apply String.eqb_eq in E. subst k0.
      destruct (String.eqb k' k) eqn:E'; [|reflexivity].
      apply String.eqb_eq in E'. contradiction.
    + rewrite IH. reflexivity.
Qed.

Lemma dict_get_update_none (u d : list (string * json)) (k : string) :
  dict_get u k = None -> dict_get (dict_update d u) k = dict_get d k.
Proof.
  unfold dict_update. revert d.
  induction u as [|[k' v'] u IH]; intros d H; simpl in *; [reflexivity|].
  destruct (String.eqb k' k) eqn:E; [discriminate|].
  rewrite IH by assumption. apply dict_get_set_ne.
  intros ->. rewrite String.eqb_refl in E. discriminate.
Qed.

Lemma dict_get_update_some (u d : list (string * json)) (k : string) (v : json) :
  NoDup (map fst u) -> dict_get u k = Some v ->
  dict_get (dict_update d u) k = Some v.
Proof.
  unfold dict_update. revert d.
  induction u as [|[k' v'] u IH]; intros d Hnd H; simpl in *; [discriminate|].
  inversion Hnd as [|? ? Hnotin Hnd']; subst.
  destruct (String.eqb k' k) eqn:E.
  - apply String.eqb_eq in E. subst k'. injection H as ->.
    assert (Hu : dict_get u k = None).
    { clear -Hnotin. induction u as [|[k0 v0] u IH]; simpl; [reflexivity|].
      destruct (String.eqb k0 k) eqn:E.
      - apply String.eqb_eq in E. subst. exfalso. apply Hnotin. left.
      - apply IH. intros Hin. apply Hnotin. right. exact Hin. }
    fold (dict_update (dict_set d k v) u).
    rewrite (dict_get_update_none u _ k Hu). apply dict_get_set_eq.
  - apply IH; assumption.
Qed.

Lemma py_eq_str (x : json) (s : string) : py_eq x (JStr s) = true -> x = JStr s.
Proof.
  destruct x; simpl; try discriminate.
  intros H. apply String.eqb_eq in H. subst. reflexivity.
Qed.

Lemma py_eq_str_refl (s : string) : py_eq (JStr s) (JStr s) = true.
Proof. simpl. apply String.eqb_refl. Qed.

Lemma py_get_dict (d : list (string * json)) (k : string) :
  py_get (JDict d) k = Ok (campo k (JDict d)).
Proof. reflexivity. Qed.

(** ** Updating a task *)

Arguments py_eq : simpl never.
Arguments id_de : simpl never.

Definition sem_id (tarefa_id : string) (x : json) : Prop :=
  is_dict x = true /\ py_eq (id_de x) (JStr tarefa_id) = false.

Lemma atualizar_primeira_dict
    (tarefa_id : string) (u : list (string * json)) (now : string)
    (d : list (string * json)) (resto : list json) :
  atualizar_primeira tarefa_id u now (JDict d :: resto)
  = if py_eq (id_de (JDict d)) (JStr tarefa_id)
    then Ok (Some (JDict (aplicar_atualizacao d u now) :: resto,
                   JDict (aplicar_atualizacao d u now)))
    else
      let* r := atualizar_primeira tarefa_id u now resto in
      Ok (match r with
          | Some (l, nova) => Some (JDict d :: l, nova)
          | None => None
          end).
Proof. reflexivity. Qed.

Lemma atualizar_primeira_sem_match
    (tarefa_id : string) (u : list (string * json)) (now : string)
    (l : list json) :
  Forall (sem_id tarefa_id) l ->
  atualizar_primeira tarefa_id u now l = Ok None.
Proof.
  induction 1 as [|x l [Hd Hx] _ IH]; [reflexivity|].
  destruct x; try discriminate.
  rewrite atualizar_primeira_dict, Hx, IH. reflexivity.
Qed.

Lemma atualizar_primeira_match
    (tarefa_id : string) (u : list (string * json)) (now : string)
    (pre post : list json) (d : list (string * json)) :
  Forall (sem_id tarefa_id) pre ->
  py_eq (id_de (JDict d)) (JStr tarefa_id) = true ->
  atualizar_primeira tarefa_id u now (pre ++ JDict d :: post)
  = Ok (Some ((pre ++ JDict (aplicar_atualizacao d u now) :: post)%list,
              JDict (aplicar_atualizacao d u now))).
Proof.
  intros Hpre Hd. induction Hpre as [|x l [Hx1 Hx2] _ IH].
  - simpl app. rewrite atualizar_primeira_dict, Hd. reflexivity.
  - destruct x; try discriminate.
    change ((JDict kvs :: l) ++ JDict d :: post)%list
      with (JDict kvs :: (l ++ JDict d :: post))%list.
    rewrite atualizar_primeira_dict, Hx2, IH. reflexivity.
Qed.

(** What a successful pass of the loop did. *)
Lemma atualizar_primeira_inv
    (tarefa_id : string) (u : list (string * json)) (now : string)
    (l l' : list json) (nova : json) :
  atualizar_primeira tarefa_id u now l = Ok (Some (l', nova)) ->
  exists pre d post,
    l = (pre ++ JDict d :: post)%list
    /\ l' = (pre ++ nova :: post)%list
    /\ nova = JDict (aplicar_atualizacao d u now)
    /\ id_de (JDict d) = JStr tarefa_id
    /\ Forall (sem_id tarefa_id) pre.
Proof.
  revert l'. induction l as [|x l IH]; intros l' H; [discriminate|].
  destruct x as [| | | |?|d]; try discriminate.
  rewrite atualizar_primeira_dict in H.
  destruct (py_eq (id_de (JDict d)) (JStr tarefa_id)) eqn:E.
  - injection H as <- <-. exists [], d, l. repeat split.
    + apply py_eq_str in E. exact E.
    + constructor.
  - destruct (atualizar_primeira tarefa_id u now l) as [[[l0 n0]|]|] eqn:E';
      simpl in H; try discriminate.
    injection H as <- <-.
    destruct (IH l0 eq_refl) as (pre & d' & post & -> & -> & Hn & Hid & Hpre).
    exists (JDict d :: pre), d', post. repeat split; auto.
    constructor; [split; [reflexivity | exact E] | exact Hpre].
Qed.

Lemma id_de_aplicar_atualizacao
    (d u : list (string * json)) (now : string) :
  dict_get u "id" = None ->
  id_de (JDict (aplicar_atualizacao d u now)) = id_de (JDict d).
Proof.
  intros H. unfold id_de, aplicar_atualizacao.
  rewrite dict_get_set_ne by discriminate.
  rewrite dict_get_update_none by assumption. reflexivity.
Qed.

(** ** Record store: saving then loading *)

Lemma carregar_apos_salvar (fs : FS) (arquivo : string) (dados : json) :
  utf8_valid (json_dumps dados) = true ->
  json_loads (json_dumps dados) = Ok dados ->
  carregar_dados (gravado fs arquivo dados) arquivo None = Ok dados.
Proof.
  intros Hu Hj. unfold gravado.
  apply (carregar_dados_valido _ _ (json_dumps dados)); auto.
  apply lookup_insert_eq.
Qed.

Lemma carregar_outro_arquivo (fs : FS) (a b : string) (dados : json) :
  a <> b ->
  carregar_dados (gravado fs a dados) b None = carregar_dados fs b None.
Proof.
  intros Hne. unfold carregar_dados, path_exists, json_load, read_text,
    gravado.
  rewrite lookup_insert_ne by assumption. reflexivity.
Qed.

(** ** Status *)

Lemma soma_contagem_incrementa (d : list (json * Z)) (k : json) :
  soma_contagem (contagem_set d k (or_default (contagem_get d k) 0 + 1))
  = soma_contagem d + 1.
Proof.
  unfold soma_contagem, or_default.
  induction d as [|[k' n] d IH]; simpl.
  - lia.
  - destruct (py_eq k' k) eqn:E; simpl.
    + lia.
    + rewrite IH. lia.
Qed.

Lemma contar_por_soma (k : string) (default : json) (l : list json) :
  hashable default = true ->
  Forall (fun x => contavel k x = true) l ->
  forall d, exists d',
    contar_por k default l d = Ok d'
    /\ soma_contagem d' = soma_contagem d + Z.of_nat (List.length l).
Proof.
  intros Hdef. induction 1 as [|x l Hx _ IH]; intros d.
  - exists d. split; [reflexivity | simpl; lia].
  - destruct x as [| | | | |kvs]; try discriminate.
    unfold contavel in Hx. simpl.
    assert (Hh : hashable
                   match dict_get kvs k with Some v => v | None => default end
                 = true).
    { destruct (dict_get kvs k); [exact Hx | exact Hdef]. }
    rewrite Hh.
    destruct (IH (contagem_set d
                    match dict_get kvs k with Some v => v | None => default end
                    (or_default
                       (contagem_get d
                          match dict_get kvs k with
                          | Some v => v
                          | None => default
                          end) 0 + 1)))
      as (d' & Hd' & Hs).
    exists d'. split; [exact Hd'|].
    rewrite Hs, soma_contagem_incrementa. lia.
Qed.

Lemma contar_se_limites (k : string) (l : list json) :
  Forall (fun x => is_dict x = true) l ->
  exists n, contar_se k l = Ok n /\ 0 <= n <= Z.of_nat (List.length l).
Proof.
  induction 1 as [|x l Hx _ (n & Hn & Hb)].
  - exists 0. split; [reflexivity | simpl; lia].
  - destruct x as [| | | | |kvs]; try discriminate. simpl. rewrite Hn. simpl.
    eexists. split; [reflexivity|].
    destruct (py_truthy _); lia.
Qed.

(** C7. For collections of records, [obter_status] answers, and in its
    answer every total is the length of the collection, the counts by state
    and by severity add up to the totals of tasks and diagnostics, and for
    fixes and suggestions the applied (implemented) count and the pending
    count add up to the total. *)
Theorem obter_status_somas
    (now : string) (fs : FS) (ts ds cs ss : list json) :
  carregar_dados fs TAREFAS_FILE None = Ok (JList ts) ->
  carregar_dados fs DIAGNOSTICOS_FILE None = Ok (JList ds) ->
  carregar_dados fs CORRECOES_FILE None = Ok (JList cs) ->
  carregar_dados fs SUGESTOES_FILE None = Ok (JList ss) ->
  Forall (fun x => contavel "estado" x = true) ts ->
  Forall (fun x => contavel "severidade" x = true) ds ->
  Forall (fun x => is_dict x = true) cs ->
  Forall (fun x => is_dict x = true) ss ->
  exists st,
    obter_status now fs = Ok st
    /\ tarefas_total st = Z.of_nat (List.length ts)
    /\ soma_contagem (tarefas_por_estado st) = tarefas_total st
    /\ diagnosticos_total st = Z.of_nat (List.length ds)
    /\ soma_contagem (diagnosticos_por_severidade st) = diagnosticos_total st
    /\ correcoes_total st = Z.of_nat (List.length cs)
    /\ correcoes_aplicadas st + correcoes_pendentes st = correcoes_total st
    /\ 0 <= correcoes_aplicadas st <= correcoes_total st
    /\ sugestoes_total st = Z.of_nat (List.length ss)
    /\ sugestoes_implementadas st + sugestoes_pendentes st = sugestoes_total st
    /\ 0 <= sugestoes_implementadas st <= sugestoes_total st.
Proof.
  intros Ht Hd Hc Hs Fts Fds Fcs Fss.
  destruct (contar_por_soma "estado" (JStr "pendente") ts eq_refl Fts [])
    as (pe & Hpe & Spe).
  destruct (contar_por_soma "severidade" (JStr "info") ds eq_refl Fds [])
    as (ps & Hps & Sps).
  destruct (contar_se_limites "aplicada" cs Fcs) as (na & Hna & Bna).
  destruct (contar_se_limites "implementada" ss Fss) as (ni & Hni & Bni).
  eexists. split.
  - unfold obter_status. rewrite Ht, Hd, Hc, Hs. cbn [rbind py_iter py_len].
    rewrite Hpe, Hps, Hna, Hni. cbn [rbind]. reflexivity.
  - cbn [tarefas_total tarefas_por_estado diagnosticos_total
         diagnosticos_por_severidade correcoes_total correcoes_aplicadas
         correcoes_pendentes sugestoes_total sugestoes_implementadas
         sugestoes_pendentes].
    simpl in Spe, Sps. repeat split; lia.
Qed.

Lemma obter_status_somas_witness :
  exists st,
    obter_status "2024-05-05T00:00:00" fs_ex = Ok st
    /\ tarefas_total st = 2
    /\ soma_contagem (tarefas_por_estado st) = tarefas_total st
    /\ soma_contagem (diagnosticos_por_severidade st) = diagnosticos_total st
    /\ correcoes_aplicadas st + correcoes_pendentes st = correcoes_total st
    /\ sugestoes_implementadas st + sugestoes_pendentes st = sugestoes_total st.
Proof.
  destruct (obter_status_somas "2024-05-05T00:00:00" fs_ex
              tarefas_ex [d_info; d_critico; d_erro] correcoes_ex sugestoes_ex)
    as (st & H0 & H1 & H2 & H3 & H4 & H5 & H6 & H7 & H8 & H9 & H10).
  1-4: vm_compute; reflexivity.
  1-4: repeat constructor.
  exists st. repeat split; assumption.
Defined.

(** ** Listing: filters *)

Lemma campo_dict (k : string) (d : list (string * json)) :
  py_get (JDict d) k = Ok (campo k (JDict d)).
Proof. reflexivity. Qed.

Lemma rfilter_dicts (k : string) (v : json) (l : list json) :
  Forall (fun x => is_dict x = true) l ->
  rfilter (fun t => let* x := py_get t k in Ok (py_eq x v)) l
  = Ok (List.filter (fun t => py_eq (campo k t) v) l).
Proof.
  induction 1 as [|x l Hx _ IH]; [reflexivity|].
  destruct x as [| | | | |d]; try discriminate.
  cbn [rfilter List.filter]. rewrite campo_dict. cbn [rbind].
  rewrite IH. cbn [rbind]. reflexivity.
Qed.

Lemma filter_tudo {A} (f : A -> bool) (l : list A) :
  (forall x, f x = true) -> List.filter f l = l.
Proof.
  intros H. induction l as [|x l IH]; simpl; [reflexivity|].
  rewrite H, IH. reflexivity.
Qed.

Lemma filtro_str_lista (valor : option string) (k : string) (l : list json) :
  Forall (fun x => is_dict x = true) l ->
  filtro_str valor k (JList l) = Ok (JList (List.filter (casa_str k valor) l)).
Proof.
  intros Hl. unfold filtro_str. destruct valor as [v|].
  - destruct (String.eqb v "") eqn:E.
    + rewrite filter_tudo; [reflexivity|].
      intros x. unfold casa_str. rewrite E. reflexivity.
    + cbn [py_iter rbind]. rewrite (rfilter_dicts k (JStr v) l Hl).
      cbn [rbind]. do 2 f_equal. apply List.filter_ext.
      intros x. unfold casa_str. rewrite E. reflexivity.
  - rewrite filter_tudo; reflexivity.
Qed.

Lemma filtro_bool_lista (valor : option bool) (k : string) (l : list json) :
  Forall (fun x => is_dict x = true) l ->
  filtro_bool valor k (JList l) = Ok (JList (List.filter (casa_bool k valor) l)).
Proof.
  intros Hl. unfold filtro_bool. destruct valor as [v|].
  - cbn [py_iter rbind]. rewrite (rfilter_dicts k (JBool v) l Hl).
    reflexivity.
  - rewrite filter_tudo; reflexivity.
Qed.

Lemma Forall_filter_bool {A} (P : A -> Prop) (f : A -> bool) (l : list A) :
  Forall P l -> Forall P (List.filter f l).
Proof.
  induction 1 as [|x l Hx _ IH]; simpl; [constructor|].
  destruct (f x); [constructor|]; assumption.
Qed.

Lemma filter_satisfaz {A} (f : A -> bool) (l : list A) :
  Forall (fun x => f x = true) (List.filter f l).
Proof.
  induction l as [|x l IH]; simpl; [constructor|].
  destruct (f x) eqn:E; [constructor|]; assumption.
Qed.

Lemma filter_sublista {A} (f : A -> bool) (l : list A) (x : A) :
  In x (List.filter f l) -> In x l.
Proof. intros H. apply List.filter_In in H. tauto. Qed.

(** ** Listing: sort *)

Lemma rmap_length {A B} (f : A -> result B) (l : list A) (ys : list B) :
  rmap f l = Ok ys -> List.length ys = List.length l.
Proof.
  revert ys. induction l as [|x l IH]; intros ys H; simpl in H.
  - injection H as <-. reflexivity.
  - destruct (f x); [|discriminate].
    destruct (rmap f l) as [ys'|]; [|discriminate].
    injection H as <-. simpl. rewrite (IH ys' eq_refl). reflexivity.
Qed.

Lemma map_snd_combine {A B} (ks : list A) (l : list B) :
  List.length ks = List.length l -> map snd (combine ks l) = l.
Proof.
  revert l. induction ks as [|k ks IH]; intros [|x l] H; simpl in *;
    try discriminate; [reflexivity|].
  rewrite IH by lia. reflexivity.
Qed.

Section SortFacts.
Context {K : Type} (lt : K -> K -> result bool).

Lemma insert_sorted_perm (x : K * json) (l : list (K * json)) :
  Permutation (insert_sorted lt x l) (x :: l).
Proof.
  induction l as [|y l IH]; simpl; [reflexivity|].
  destruct (ltb_key lt (fst y) (fst x)).
  - rewrite IH. apply perm_swap.
  - reflexivity.
Qed.

Lemma stable_sort_perm (l : list (K * json)) :
  Permutation (stable_sort lt l) l.
Proof.
  induction l as [|x l IH]; simpl; [reflexivity|].
  rewrite insert_sorted_perm, IH. reflexivity.
Qed.

Lemma list_sort_ok (key : json -> result K) (reverse : bool)
    (l : list json) (ks : list K) :
  rmap key l = Ok ks ->
  pairwise_comparable lt ks = true ->
  exists s, list_sort lt key reverse l = Ok s /\ Permutation s l.
Proof.
  intros Hk Hp. unfold list_sort. rewrite Hk. cbn [rbind]. rewrite Hp.
  eexists. split; [reflexivity|].
  transitivity (map snd (combine ks l));
    [|rewrite (map_snd_combine ks l (rmap_length _ _ _ Hk)); reflexivity].
  apply Permutation_map. destruct reverse.
  - rewrite <- Permutation_rev, stable_sort_perm, <- Permutation_rev.
    reflexivity.
  - apply stable_sort_perm.
Qed.
End SortFacts.

(** The three ranked keys are instances of one shape. *)
Definition chave_rank (campo_rank valor_default : string)
    (tabela : list (string * Z)) (rank_default : Z) (campo_ts : string)
    (x : json) : result (Z * json) :=
  let* p := py_get_or x campo_rank (JStr valor_default) in
  let* r := table_get tabela p rank_default in
  let* t := py_get_or x campo_ts (JStr "") in
  Ok (r, t).

Lemma rmap_chave_rank (cr dv : string) (tabela : list (string * Z)) (dr : Z)
    (ct : string) (l : list json) :
  Forall (fun x => ordenavel cr ct x = true) l ->
  exists ks, rmap (chave_rank cr dv tabela dr ct) l = Ok ks
             /\ Forall (fun k => is_str (snd k) = true) ks.
Proof.
  induction 1 as [|x l Hx _ (ks & Hks & Fks)].
  - exists []. split; [reflexivity | constructor].
  - destruct x as [| | | | |d]; try discriminate.
    unfold ordenavel in Hx. apply andb_prop in Hx as [Hh Hs].
    assert (Hr : exists r, table_get tabela
                   match dict_get d cr with Some v => v | None => JStr dv end dr
                 = Ok r).
    { destruct (dict_get d cr) as [v|]; simpl in *.
      - destruct v; try discriminate; eexists; reflexivity.
      - eexists; reflexivity. }
    destruct Hr as (r & Hr).
    exists ((r, or_default (dict_get d ct) (JStr "")) :: ks). split.
    + cbn [rmap]. unfold chave_rank at 1. cbn [py_get_or rbind].
      rewrite Hr. cbn [rbind]. rewrite Hks. reflexivity.
    + constructor; assumption.
Qed.

Lemma tuple_lt_strings (a b : Z * json) :
  is_str (snd a) = true -> is_str (snd b) = true ->
  comparable tuple_lt a b = true.
Proof.
  destruct a as [r1 t1], b as [r2 t2]. simpl.
  destruct t1; try discriminate. destruct t2; try discriminate.
  intros _ _. unfold comparable, tuple_lt. simpl.
  destruct (negb (r1 =? r2)), (negb (r2 =? r1)); simpl;
    repeat match goal with |- context [py_eq ?a ?b] => destruct (py_eq a b) end;
    reflexivity.
Qed.

Lemma pairwise_tuple_lt (ks : list (Z * json)) :
  Forall (fun k => is_str (snd k) = true) ks ->
  pairwise_comparable tuple_lt ks = true.
Proof.
  induction 1 as [|k ks Hk Hks IH]; [reflexivity|].
  simpl. rewrite IH, andb_true_r. apply forallb_forall.
  intros k' Hin. apply tuple_lt_strings; [exact Hk|].
  rewrite List.Forall_forall in Hks. apply Hks. exact Hin.
Qed.

Lemma ordenavel_is_dict (cr ct : string) (l : list json) :
  Forall (fun x => ordenavel cr ct x = true) l ->
  Forall (fun x => is_dict x = true) l.
Proof.
  apply List.Forall_impl. intros [| | | | |d]; try discriminate. reflexivity.
Qed.

Lemma ordenavel_ts_is_dict (ct : string) (l : list json) :
  Forall (fun x => ordenavel_ts ct x = true) l ->
  Forall (fun x => is_dict x = true) l.
Proof.
  apply List.Forall_impl. intros [| | | | |d]; try discriminate. reflexivity.
Qed.

Lemma rmap_chave_correcao (l : list json) :
  Forall (fun x => ordenavel_ts "timestamp" x = true) l ->
  exists ks, rmap chave_correcao l = Ok ks
             /\ Forall (fun k => is_str k = true) ks.
Proof.
  induction 1 as [|x l Hx _ (ks & Hks & Fks)].
  - exists []. split; [reflexivity | constructor].
  - destruct x as [| | | | |d]; try discriminate.
    exists (or_default (dict_get d "timestamp") (JStr "") :: ks). split.
    + cbn [rmap]. unfold chave_correcao at 1. cbn [py_get_or].
      rewrite Hks. reflexivity.
    + constructor; assumption.
Qed.

Lemma pairwise_py_lt_strings (ks : list json) :
  Forall (fun k => is_str k = true) ks ->
  pairwise_comparable py_lt ks = true.
Proof.
  induction 1 as [|k ks Hk Hks IH]; [reflexivity|].
  simpl. rewrite IH, andb_true_r. apply forallb_forall.
  intros k' Hin. rewrite List.Forall_forall in Hks. specialize (Hks k' Hin).
  destruct k; try discriminate. destruct k'; try discriminate. reflexivity.
Qed.

Lemma query_int_valido (limite : option Z) :
  limite_valido limite ->
  query_int limite 100 1 1000 = Ok (or_default limite 100)
  /\ 1 <= or_default limite 100 <= 1000.
Proof.
  destruct limite as [n|]; simpl; intros H.
  - split; [|lia].
    replace (1 <=? n) with true by (symmetry; apply Z.leb_le; lia).
    replace (n <=? 1000) with true by (symmetry; apply Z.leb_le; lia).
    reflexivity.
  - split; [reflexivity | lia].
Qed.

Lemma py_slice_to_firstn {A} (l : list A) (n : Z) :
  1 <= n ->
  py_slice_to l n = firstn (Z.to_nat n) l
  /\ Z.of_nat (List.length (py_slice_to l n)) <= n.
Proof.
  intros Hn. unfold py_slice_to.
  replace (n <? 0) with false by (symmetry; apply Z.ltb_ge; lia).
  split; [reflexivity|].
  rewrite List.length_firstn. lia.
Qed.

Lemma py_sort_rank (cr dv : string) (tabela : list (string * Z)) (dr : Z)
    (ct : string) (reverse : bool) (l : list json) :
  Forall (fun x => ordenavel cr ct x = true) l ->
  exists s,
    py_sort tuple_lt (chave_rank cr dv tabela dr ct) reverse (JList l) = Ok s
    /\ Permutation s l.
Proof.
  intros Hl.
  destruct (rmap_chave_rank cr dv tabela dr ct l Hl) as (ks & Hks & Fks).
  apply (list_sort_ok tuple_lt _ reverse l ks Hks (pairwise_tuple_lt ks Fks)).
Qed.

Lemma py_sort_correcoes (l : list json) :
  Forall (fun x => ordenavel_ts "timestamp" x = true) l ->
  exists s,
    py_sort py_lt chave_correcao true (JList l) = Ok s /\ Permutation s l.
Proof.
  intros Hl. destruct (rmap_chave_correcao l Hl) as (ks & Hks & Fks).
  apply (list_sort_ok py_lt _ true l ks Hks (pairwise_py_lt_strings ks Fks)).
Qed.

Ltac filtra H :=
  first
    [ rewrite filtro_str_lista
        by (repeat apply Forall_filter_bool; exact H)
    | rewrite filtro_bool_lista
        by (repeat apply Forall_filter_bool; exact H) ];
  cbn [rbind].

Lemma listar_tarefas_forma (fs : FS) (l : list json)
    (estado agente prioridade : option string) (limite : option Z) :
  carregar_dados fs TAREFAS_FILE None = Ok (JList l) ->
  Forall (fun x => ordenavel "prioridade" "timestamp_criacao" x = true) l ->
  limite_valido limite ->
  exists s,
    py_sort tuple_lt chave_tarefa false
      (JList (tarefas_filtradas estado agente prioridade l)) = Ok s
    /\ Permutation s (tarefas_filtradas estado agente prioridade l)
    /\ listar_tarefas estado agente prioridade limite fs
       = Ok (firstn (Z.to_nat (or_default limite 100)) s).
Proof.
  intros Hload Hl Hlim.
  destruct (query_int_valido limite Hlim) as [Hq Hn].
  pose proof (ordenavel_is_dict _ _ l Hl) as Hd.
  destruct (py_sort_rank "prioridade" "normal" prioridade_tarefa 2
              "timestamp_criacao" false
              (tarefas_filtradas estado agente prioridade l))
    as (s & Hs & Hp).
  { unfold tarefas_filtradas. repeat apply Forall_filter_bool. exact Hl. }
  exists s. split; [exact Hs|]. split; [exact Hp|].
  unfold listar_tarefas. rewrite Hq, Hload. cbn [rbind].
  do 3 filtra Hd.
  change chave_tarefa
    with (chave_rank "prioridade" "normal" prioridade_tarefa 2
            "timestamp_criacao").
  unfold tarefas_filtradas in Hs. rewrite Hs. cbn [rbind].
  rewrite (proj1 (py_slice_to_firstn s _ (proj1 Hn))). reflexivity.
Qed.

Lemma listar_diagnosticos_forma (fs : FS) (l : list json)
    (tipo severidade : option string) (limite : option Z) :
  carregar_dados fs DIAGNOSTICOS_FILE None = Ok (JList l) ->
  Forall (fun x => ordenavel "severidade" "timestamp" x = true) l ->
  limite_valido limite ->
  exists s,
    py_sort tuple_lt chave_diagnostico true
      (JList (diagnosticos_filtrados tipo severidade l)) = Ok s
    /\ Permutation s (diagnosticos_filtrados tipo severidade l)
    /\ listar_diagnosticos tipo severidade limite fs
       = Ok (firstn (Z.to_nat (or_default limite 100)) s).
Proof.
  intros Hload Hl Hlim.
  destruct (query_int_valido limite Hlim) as [Hq Hn].
  pose proof (ordenavel_is_dict _ _ l Hl) as Hd.
  destruct (py_sort_rank "severidade" "info" rank_severidade 3
              "timestamp" true (diagnosticos_filtrados tipo severidade l))
    as (s & Hs & Hp).
  { unfold diagnosticos_filtrados. repeat apply Forall_filter_bool. exact Hl. }
  exists s. split; [exact Hs|]. split; [exact Hp|].
  unfold listar_diagnosticos. rewrite Hq, Hload. cbn [rbind].
  do 2 filtra Hd.
  change chave_diagnostico
    with (chave_rank "severidade" "info" rank_severidade 3 "timestamp").
  unfold diagnosticos_filtrados in Hs. rewrite Hs. cbn [rbind].
  rewrite (proj1 (py_slice_to_firstn s _ (proj1 Hn))). reflexivity.
Qed.

Lemma listar_correcoes_forma (fs : FS) (l : list json)
    (aplicada : option bool) (diagnostico_id : option string)
    (limite : option Z) :
  carregar_dados fs CORRECOES_FILE None = Ok (JList l) ->
  Forall (fun x => ordenavel_ts "timestamp" x = true) l ->
  limite_valido limite ->
  exists s,
    py_sort py_lt chave_correcao true
      (JList (correcoes_filtradas aplicada diagnostico_id l)) = Ok s
    /\ Permutation s (correcoes_filtradas aplicada diagnostico_id l)
    /\ listar_correcoes aplicada diagnostico_id limite fs
       = Ok (firstn (Z.to_nat (or_default limite 100)) s).
Proof.
  intros Hload Hl Hlim.
  destruct (query_int_valido limite Hlim) as [Hq Hn].
  pose proof (ordenavel_ts_is_dict _ l Hl) as Hd.
  destruct (py_sort_correcoes (correcoes_filtradas aplicada diagnostico_id l))
    as (s & Hs & Hp).
  { unfold correcoes_filtradas. repeat apply Forall_filter_bool. exact Hl. }
  exists s. split; [exact Hs|]. split; [exact Hp|].
  unfold listar_correcoes. rewrite Hq, Hload. cbn [rbind].
  do 2 filtra Hd.
  unfold correcoes_filtradas in Hs. rewrite Hs. cbn [rbind].
  rewrite (proj1 (py_slice_to_firstn s _ (proj1 Hn))). reflexivity.
Qed.

Lemma listar_sugestoes_forma (fs : FS) (l : list json)
    (tipo prioridade : option string) (implementada : option bool)
    (limite : option Z) :
  carregar_dados fs SUGESTOES_FILE None = Ok (JList l) ->
  Forall (fun x => ordenavel "prioridade" "timestamp" x = true) l ->
  limite_valido limite ->
  exists s,
    py_sort tuple_lt chave_sugestao false
      (JList (sugestoes_filtradas tipo prioridade implementada l)) = Ok s
    /\ Permutation s (sugestoes_filtradas tipo prioridade implementada l)
    /\ listar_sugestoes tipo prioridade implementada limite fs
       = Ok (firstn (Z.to_nat (or_default limite 100)) s).
Proof.
  intros Hload Hl Hlim.
  destruct (query_int_valido limite Hlim) as [Hq Hn].
  pose proof (ordenavel_is_dict _ _ l Hl) as Hd.
  destruct (py_sort_rank "prioridade" "media" prioridade_sugestao 1
              "timestamp" false
              (sugestoes_filtradas tipo prioridade implementada l))
    as (s & Hs & Hp).
  { unfold sugestoes_filtradas. repeat apply Forall_filter_bool. exact Hl. }
  exists s. split; [exact Hs|]. split; [exact Hp|].
  unfold listar_sugestoes. rewrite Hq, Hload. cbn [rbind].
  do 3 filtra Hd.
  change chave_sugestao
    with (chave_rank "prioridade" "media" prioridade_sugestao 1 "timestamp").
  unfold sugestoes_filtradas in Hs. rewrite Hs. cbn [rbind].
  rewrite (proj1 (py_slice_to_firstn s _ (proj1 Hn))). reflexivity.
Qed.

Lemma firstn_limite {A} (s : list A) (n : Z) :
  1 <= n -> Z.of_nat (List.length (firstn (Z.to_nat n) s)) <= n.
Proof. intros Hn. rewrite List.length_firstn. lia. Qed.

(** ** Filters: empty string and [False] *)

Lemma Forall_firstn {A} (P : A -> Prop) (n : nat) (l : list A) :
  Forall P l -> Forall P (firstn n l).
Proof.
  intros H. revert n. induction H as [|x l Hx _ IH]; intros [|n]; simpl;
    constructor; auto.
Qed.

Lemma Forall_perm {A} (P : A -> Prop) (l l' : list A) :
  Permutation l l' -> Forall P l' -> Forall P l.
Proof.
  intros Hp H. rewrite List.Forall_forall in *. intros x Hx.
  apply H. apply (Permutation_in _ Hp). exact Hx.
Qed.

(** C10. A string filter given as the empty string is treated as absent:
    the call answers exactly as the call without that filter.  The boolean
    filters are tested with [is not None]: [aplicada=False] and
    [implementada=False] keep only the records whose field equals [False],
    which differs from the answer without the filter. *)
Theorem filtro_vazio_ausente_e_false_filtra
    (fs : FS) (cs ss : list json) (limite : option Z) :
  carregar_dados fs CORRECOES_FILE None = Ok (JList cs) ->
  carregar_dados fs SUGESTOES_FILE None = Ok (JList ss) ->
  Forall (fun x => ordenavel_ts "timestamp" x = true) cs ->
  Forall (fun x => ordenavel "prioridade" "timestamp" x = true) ss ->
  limite_valido limite ->
  (forall a p, listar_tarefas (Some "") a p limite fs
               = listar_tarefas None a p limite fs)
  /\ (forall e p, listar_tarefas e (Some "") p limite fs
                  = listar_tarefas e None p limite fs)
  /\ (forall e a, listar_tarefas e a (Some "") limite fs
                  = listar_tarefas e a None limite fs)
  /\ (forall s, listar_diagnosticos (Some "") s limite fs
                = listar_diagnosticos None s limite fs)
  /\ (forall t, listar_diagnosticos t (Some "") limite fs
                = listar_diagnosticos t None limite fs)
  /\ (forall a, listar_correcoes a (Some "") limite fs
                = listar_correcoes a None limite fs)
  /\ (forall p i, listar_sugestoes (Some "") p i limite fs
                  = listar_sugestoes None p i limite fs)
  /\ (forall t i, listar_sugestoes t (Some "") i limite fs
                  = listar_sugestoes t None i limite fs)
  /\ (forall d, exists r,
         listar_correcoes (Some false) d limite fs = Ok r
         /\ Forall (fun x => py_eq (campo "aplicada" x) (JBool false) = true) r)
  /\ (forall t p, exists r,
         listar_sugestoes t p (Some false) limite fs = Ok r
         /\ Forall (fun x => py_eq (campo "implementada" x) (JBool false) = true)
              r)
  /\ listar_correcoes (Some false) None None fs_ex
     <> listar_correcoes None None None fs_ex
  /\ listar_sugestoes None None (Some false) None fs_ex
     <> listar_sugestoes None None None None fs_ex.
Proof.
  intros Hc Hs Fcs Fss Hlim.
  do 8 (split; [intros; reflexivity|]).
  split; [|split; [|split]].
  - intros d.
    destruct (listar_correcoes_forma fs cs (Some false) d limite Hc Fcs Hlim)
      as (s & _ & Hp & Hr).
    eexists. split; [exact Hr|].
    apply Forall_firstn. apply (Forall_perm _ _ _ Hp).
    unfold correcoes_filtradas. apply Forall_filter_bool.
    apply (filter_satisfaz (casa_bool "aplicada" (Some false))).
  - intros t p.
    destruct (listar_sugestoes_forma fs ss t p (Some false) limite Hs Fss Hlim)
      as (s & _ & Hp & Hr).
    eexists. split; [exact Hr|].
    apply Forall_firstn. apply (Forall_perm _ _ _ Hp).
    unfold sugestoes_filtradas.
    apply (filter_satisfaz (casa_bool "implementada" (Some false))).
  - vm_compute. discriminate.
  - vm_compute. discriminate.
Qed.

Lemma filtro_vazio_ausente_e_false_filtra_witness :
  listar_tarefas (Some "") None None (Some 5) fs_ex
  = listar_tarefas None None None (Some 5) fs_ex
  /\ exists r,
       listar_correcoes (Some false) None (Some 5) fs_ex = Ok r
       /\ Forall (fun x => py_eq (campo "aplicada" x) (JBool false) = true) r.
Proof.
  destruct (filtro_vazio_ausente_e_false_filtra fs_ex correcoes_ex sugestoes_ex
              (Some 5))
    as (H1 & _ & _ & _ & _ & _ & _ & _ & H9 & _).
  1-2: vm_compute; reflexivity.
  1-2: repeat constructor.
  - simpl. lia.
  - split; [apply H1 | apply H9].
Defined.

(** ** The codec reads back what it writes *)

(** *** Strings *)

Lemma append_assoc (a b c : string) : ((a ++ b) ++ c = a ++ (b ++ c))%string.
Proof.
  induction a as [|x a IH]; [reflexivity|].
  change (String x ((a ++ b) ++ c) = String x (a ++ (b ++ c)))%string.
  f_equal. exact IH.
Qed.

Lemma scanstring_escape_char (c : ascii) (tail : string) :
  scanstring (escape_char c ++ tail)
  = cons_str (String c "") (scanstring tail).
Proof.
  destruct c as [[] [] [] [] [] [] [] []]; reflexivity.
Qed.

Lemma scanstring_escape (s rest : string) :
  scanstring (escape s ++ String dquote rest) = Ok (s, rest).
Proof.
  induction s as [|c s IH]; [reflexivity|].
  change (escape (String c s)) with (escape_char c ++ escape s).
  rewrite append_assoc, scanstring_escape_char, IH.
  reflexivity.
Qed.

(** *** Integers *)

(** What may follow a value in the text that [encode] writes: nothing, a
    comma or a newline. *)
Definition delimitado (rest : string) : bool :=
  match rest with
  | EmptyString => true
  | String c _ => ((byte_of c =? 44) || (byte_of c =? 10))%N
  end.

Lemma delimitado_digits (rest : string) (acc : Z) :
  delimitado rest = true -> digits rest acc = (acc, rest).
Proof.
  destruct rest as [|c r]; [reflexivity|].
  destruct c as [[] [] [] [] [] [] [] []]; try discriminate; reflexivity.
Qed.

Lemma delimitado_float_tail (rest : string) :
  delimitado rest = true -> float_tail rest = false.
Proof.
  destruct rest as [|c r]; [reflexivity|].
  destruct c as [[] [] [] [] [] [] [] []]; try discriminate;
    destruct r; reflexivity.
Qed.

Lemma append_cons (c : ascii) (s t : string) :
  (String c s ++ t)%string = String c (s ++ t)%string.
Proof. reflexivity. Qed.

Lemma digits_of_uint_acc (d : Decimal.uint) (acc : positive) (rest : string) :
  delimitado rest = true ->
  digits (NilEmpty.string_of_uint d ++ rest) (Z.pos acc)
  = (Z.pos (Pos.of_uint_acc d acc), rest).
Proof.
  intros Hr. revert acc.
  induction d as [|d IH|d IH|d IH|d IH|d IH|d IH|d IH|d IH|d IH|d IH];
    intros acc;
    [ apply delimitado_digits; exact Hr | .. ];
    cbn [NilEmpty.string_of_uint]; rewrite append_cons;
    cbn [digits is_digit in_range byte_of N_of_ascii N_of_digits N.leb
         N.compare Pos.compare Pos.compare_cont andb N.add N.mul N.sub
         Pos.add Pos.mul Pos.sub Pos.sub_mask Pos.succ Pos.double_mask
         Pos.succ_double_mask Pos.pred_double Pos.double_pred_mask Z.of_N];
    cbn [Pos.of_uint_acc];
    rewrite <- IH; f_equal; lia.
Qed.

Lemma unorm_D0 (d l : Decimal.uint) : Decimal.unorm d = Decimal.D0 l -> l = Decimal.Nil.
Proof.
  induction d; simpl; intros H; try discriminate; auto.
  injection H as <-. reflexivity.
Qed.

Lemma to_uint_sem_zero_inicial (p : positive) (l : Decimal.uint) :
  Pos.to_uint p <> Decimal.D0 l.
Proof.
  intros H.
  pose proof (DecimalPos.Unsigned.to_of (Pos.to_uint p)) as Hn.
  rewrite DecimalPos.Unsigned.of_to in Hn. simpl in Hn.
  rewrite H in Hn. symmetry in Hn.
  change (Decimal.unorm l = Decimal.D0 l) in Hn.
  assert (Hl : l = Decimal.Nil) by (apply (unorm_D0 l l); exact Hn).
  subst l. apply (DecimalPos.Unsigned.to_uint_nonzero p). exact H.
Qed.

Ltac numero_lido neg Hr :=
  match goal with
  | Hof : Pos.of_uint _ = N.pos ?p
    |- context [String.append (NilEmpty.string_of_uint ?l) ?r] =>
      simpl in Hof; injection Hof as Hof;
      match type of Hof with
      | Pos.of_uint_acc _ ?k = _ =>
          transitivity
            (let '(n, r0) :=
               digits (String.append (NilEmpty.string_of_uint l) r) (Z.pos k) in
             Some (finish_number neg n r0));
          [ reflexivity
          | rewrite (digits_of_uint_acc l k r Hr), Hof;
            unfold finish_number;
            rewrite (delimitado_float_tail r Hr); reflexivity ]
      end
  end.

Lemma match_number_pos (p : positive) (rest : string) :
  delimitado rest = true ->
  match_number (NilZero.string_of_uint (Pos.to_uint p) ++ rest)
  = Some (Ok (JInt (Z.pos p), rest)).
Proof.
  intros Hr.
  pose proof (DecimalPos.Unsigned.of_to p) as Hof.
  pose proof (to_uint_sem_zero_inicial p) as Hz.
  pose proof (DecimalPos.Unsigned.to_uint_nonnil p) as Hnil.
  destruct (Pos.to_uint p) as [|l|l|l|l|l|l|l|l|l|l];
    [ contradiction | exfalso; apply (Hz l); reflexivity | .. ];
    clear Hz Hnil;
    cbn [NilZero.string_of_uint NilEmpty.string_of_uint];
    rewrite append_cons; numero_lido false Hr.
Qed.

Lemma match_number_neg (p : positive) (rest : string) :
  delimitado rest = true ->
  match_number (String "-" (NilZero.string_of_uint (Pos.to_uint p)) ++ rest)
  = Some (Ok (JInt (Z.neg p), rest)).
Proof.
  intros Hr.
  pose proof (DecimalPos.Unsigned.of_to p) as Hof.
  pose proof (to_uint_sem_zero_inicial p) as Hz.
  pose proof (DecimalPos.Unsigned.to_uint_nonnil p) as Hnil.
  destruct (Pos.to_uint p) as [|l|l|l|l|l|l|l|l|l|l];
    [ contradiction | exfalso; apply (Hz l); reflexivity | .. ];
    clear Hz Hnil;
    cbn [NilZero.string_of_uint NilEmpty.string_of_uint];
    rewrite !append_cons; numero_lido true Hr.
Qed.

Lemma match_number_repr_int (n : Z) (rest : string) :
  delimitado rest = true ->
  match_number (repr_int n ++ rest) = Some (Ok (JInt n, rest)).
Proof.
  intros Hr. unfold repr_int. destruct n as [|p|p].
  - change (NilZero.string_of_int (Z.to_int 0)) with "0".
    rewrite append_cons.
    transitivity (Some (finish_number false 0 rest)); [reflexivity|].
    unfold finish_number. rewrite (delimitado_float_tail rest Hr). reflexivity.
  - apply match_number_pos. exact Hr.
  - apply match_number_neg. exact Hr.
Qed.

(** *** Values *)

Section JsonInd.
Variable P : json -> Prop.
Hypothesis HNull : P JNull.
Hypothesis HBool : forall b, P (JBool b).
Hypothesis HInt : forall n, P (JInt n).
Hypothesis HStr : forall s, P (JStr s).
Hypothesis HList : forall xs, List.Forall P xs -> P (JList xs).
Hypothesis HDict :
  forall d, List.Forall (fun kv => P (snd kv)) d -> P (JDict d).

Fixpoint json_ind_aninhado (v : json) : P v :=
  match v with
  | JNull => HNull
  | JBool b => HBool b
  | JInt n => HInt n
  | JStr s => HStr s
  | JList xs =>
      HList xs
        ((fix go (xs : list json) : List.Forall P xs :=
            match xs with
            | [] => @List.Forall_nil _ P
            | x :: xs' =>
                @List.Forall_cons _ P x xs' (json_ind_aninhado x) (go xs')
            end) xs)
  | JDict d =>
      HDict d
        ((fix go (d : list (string * json))
           : List.Forall (fun kv => P (snd kv)) d :=
            match d with
            | [] => @List.Forall_nil _ _
            | kv :: d' =>
                @List.Forall_cons _ (fun kv => P (snd kv)) kv d'
                  (json_ind_aninhado (snd kv)) (go d')
            end) d)
  end.
End JsonInd.

(** Fuel that [scan_once] uses on the text of a value. *)
Fixpoint custo (v : json) : nat :=
  match v with
  | JList xs =>
      S ((fix go (xs : list json) : nat :=
            match xs with
            | [] => O
            | x :: xs' => S (Nat.max (custo x) (go xs'))
            end) xs)
  | JDict d =>
      S ((fix go (d : list (string * json)) : nat :=
            match d with
            | [] => O
            | kv :: d' => S (Nat.max (custo (snd kv)) (go d'))
            end) d)
  | _ => 1%nat
  end.

Definition custo_itens (xs : list json) : nat :=
  (fix go (xs : list json) : nat :=
     match xs with
     | [] => O
     | x :: xs' => S (Nat.max (custo x) (go xs'))
     end) xs.

Definition custo_pares (d : list (string * json)) : nat :=
  (fix go (d : list (string * json)) : nat :=
     match d with
     | [] => O
     | kv :: d' => S (Nat.max (custo (snd kv)) (go d'))
     end) d.

(** Text of the items after the first, as [encode] writes them. *)
Definition encode_itens (level : nat) (xs : list json) : string :=
  (fix items (xs : list json) : string :=
     match xs with
     | [] => ""
     | y :: ys =>
         "," ++ newline_indent (S level) ++ encode (S level) y ++ items ys
     end) xs.

Definition encode_pares (level : nat) (kvs : list (string * json)) : string :=
  (fix items (kvs : list (string * json)) : string :=
     match kvs with
     | [] => ""
     | (k', y) :: kvs' =>
         "," ++ newline_indent (S level)
         ++ encode_basestring k' ++ ": " ++ encode (S level) y
         ++ items kvs'
     end) kvs.

Lemma encode_lista (level : nat) (x : json) (xs : list json) :
  encode level (JList (x :: xs))
  = ("[" ++ newline_indent (S level) ++ encode (S level) x
     ++ encode_itens level xs ++ newline_indent level ++ "]")%string.
Proof. reflexivity. Qed.

Lemma encode_itens_cons (level : nat) (y : json) (ys : list json) :
  encode_itens level (y :: ys)
  = ("," ++ newline_indent (S level) ++ encode (S level) y
     ++ encode_itens level ys)%string.
Proof. reflexivity. Qed.

Lemma encode_dict (level : nat) (k : string) (x : json)
    (kvs : list (string * json)) :
  encode level (JDict ((k, x) :: kvs))
  = ("{" ++ newline_indent (S level)
     ++ encode_basestring k ++ ": " ++ encode (S level) x
     ++ encode_pares level kvs ++ newline_indent level ++ "}")%string.
Proof. reflexivity. Qed.

Lemma encode_pares_cons (level : nat) (k : string) (y : json)
    (kvs : list (string * json)) :
  encode_pares level ((k, y) :: kvs)
  = ("," ++ newline_indent (S level)
     ++ encode_basestring k ++ ": " ++ encode (S level) y
     ++ encode_pares level kvs)%string.
Proof. reflexivity. Qed.

Lemma chaves_distintas_lista (xs : list json) :
  chaves_distintas (JList xs) = chaves_distintas_itens xs.
Proof.
  induction xs as [|x xs IH]; [reflexivity|].
  simpl in *. rewrite IH. reflexivity.
Qed.

Lemma chaves_distintas_dict (d : list (string * json)) :
  chaves_distintas (JDict d) = chaves_distintas_pares [] d.
Proof. reflexivity. Qed.

Lemma chaves_distintas_pares_cons (vistos : list string) (k : string)
    (x : json) (d : list (string * json)) :
  chaves_distintas_pares vistos ((k, x) :: d)
  = negb (existsb (String.eqb k) vistos)
    && chaves_distintas x
    && chaves_distintas_pares (k :: vistos) d.
Proof. reflexivity. Qed.

Lemma skip_ws_cabeca (c : ascii) (r : string) :
  is_ws c = false -> skip_ws (String c r) = String c r.
Proof. intros H. simpl. rewrite H. reflexivity. Qed.

Lemma skip_ws_spaces (n : nat) (s : string) :
  skip_ws (spaces n ++ s) = skip_ws s.
Proof. induction n as [|n IH]; [reflexivity | exact IH]. Qed.

Lemma skip_ws_newline_indent (level : nat) (s : string) :
  skip_ws (newline_indent level ++ s) = skip_ws s.
Proof. unfold newline_indent. apply (skip_ws_spaces (2 * level) s). Qed.

(** The first character of an encoded value: not white space, not a
    closing bracket. *)
Definition inicia_valor (s : string) : Prop :=
  exists c r, s = String c r /\ is_ws c = false /\ (byte_of c =? 93)%N = false.

Lemma repr_int_cabeca (n : Z) (t : string) : inicia_valor (repr_int n ++ t).
Proof.
  unfold repr_int. destruct n as [|p|p].
  - do 2 eexists. split; [reflexivity | split; reflexivity].
  - pose proof (DecimalPos.Unsigned.to_uint_nonnil p) as Hnil.
    change (NilZero.string_of_int (Z.to_int (Z.pos p)))
      with (NilZero.string_of_uint (Pos.to_uint p)).
    destruct (Pos.to_uint p); [contradiction | ..];
      do 2 eexists; (split; [reflexivity | split; reflexivity]).
  - do 2 eexists. split; [reflexivity | split; reflexivity].
Qed.

Lemma encode_cabeca (level : nat) (v : json) (t : string) :
  inicia_valor (encode level v ++ t).
Proof.
  destruct v as [|[]|n|s|[|x xs]|[|[k x] d]];
    try (do 2 eexists; split; [reflexivity | split; reflexivity]).
  apply repr_int_cabeca.
Qed.

Lemma skip_ws_encode (level : nat) (v : json) (t : string) :
  skip_ws (encode level v ++ t) = (encode level v ++ t)%string.
Proof.
  destruct (encode_cabeca level v t) as (c & r & -> & Hws & _).
  apply skip_ws_cabeca. exact Hws.
Qed.

(** *** Unfolding the decoder *)

Lemma scan_once_eq (fuel : nat) (c : ascii) (r : string) :
  scan_once (S fuel) (String c r)
  = if (byte_of c =? 34)%N then
      let* (t, rest) := scanstring r in Ok (JStr t, rest)
    else if (byte_of c =? 123)%N then
      match skip_ws r with
      | String c1 r1 =>
          if (byte_of c1 =? 125)%N then Ok (JDict [], r1)
          else if (byte_of c1 =? 34)%N then JSONObject_items fuel r1 []
          else Raise JSONDecodeError
      | EmptyString => Raise JSONDecodeError
      end
    else if (byte_of c =? 91)%N then
      match skip_ws r with
      | String c1 r1 =>
          if (byte_of c1 =? 93)%N then Ok (JList [], r1)
          else JSONArray_items fuel (String c1 r1) []
      | EmptyString => Raise JSONDecodeError
      end
    else
      match strip_prefix "null" (String c r), strip_prefix "true" (String c r),
            strip_prefix "false" (String c r) with
      | Some rest, _, _ => Ok (JNull, rest)
      | _, Some rest, _ => Ok (JBool true, rest)
      | _, _, Some rest => Ok (JBool false, rest)
      | None, None, None =>
          match match_number (String c r) with
          | Some r' => r'
          | None =>
              match strip_prefix "NaN" (String c r),
                    strip_prefix "Infinity" (String c r),
                    strip_prefix "-Infinity" (String c r) with
              | None, None, None => Raise JSONDecodeError
              | _, _, _ => Raise Unmodelled
              end
          end
      end.
Proof. reflexivity. Qed.

Lemma JSONArray_items_eq (fuel : nat) (s : string) (acc : list json) :
  JSONArray_items (S fuel) s acc
  = let* (v, r1) := scan_once fuel s in
    match skip_ws r1 with
    | String c2 r2 =>
        if (byte_of c2 =? 93)%N then Ok (JList (rev (v :: acc)), r2)
        else if (byte_of c2 =? 44)%N
        then JSONArray_items fuel (skip_ws r2) (v :: acc)
        else Raise JSONDecodeError
    | EmptyString => Raise JSONDecodeError
    end.
Proof. reflexivity. Qed.

Lemma JSONObject_items_eq (fuel : nat) (s : string)
    (acc : list (string * json)) :
  JSONObject_items (S fuel) s acc
  = let* (k, r1) := scanstring s in
    match skip_ws r1 with
    | String c2 r2 =>
        if (byte_of c2 =? 58)%N then
          let* (v, r3) := scan_once fuel (skip_ws r2) in
          match skip_ws r3 with
          | String c4 r4 =>
              if (byte_of c4 =? 125)%N then Ok (JDict (dict_set acc k v), r4)
              else if (byte_of c4 =? 44)%N then
                match skip_ws r4 with
                | String c5 r5 =>
                    if (byte_of c5 =? 34)%N
                    then JSONObject_items fuel r5 (dict_set acc k v)
                    else Raise JSONDecodeError
                | EmptyString => Raise JSONDecodeError
                end
              else Raise JSONDecodeError
          | EmptyString => Raise JSONDecodeError
          end
        else Raise JSONDecodeError
    | EmptyString => Raise JSONDecodeError
    end.
Proof. reflexivity. Qed.

Lemma scan_once_numero (fuel : nat) (s : string) (r : result (json * string)) :
  match_number s = Some r -> scan_once (S fuel) s = r.
Proof.
  intros H. destruct s as [|c t]; [discriminate|].
  rewrite scan_once_eq, H.
  destruct c as [[] [] [] [] [] [] [] []];
    try (cbv in H; discriminate H); reflexivity.
Qed.

(** *** Lists and dicts *)

Definition le_de_volta (v : json) : Prop :=
  forall (level fuel : nat) (rest : string),
    delimitado rest = true ->
    chaves_distintas v = true ->
    (custo v <= fuel)%nat ->
    scan_once fuel (encode level v ++ rest) = Ok (v, rest).

Lemma delimitado_itens (level : nat) (xs : list json) (t : string) :
  delimitado (encode_itens level xs ++ newline_indent level ++ t) = true.
Proof. destruct xs; reflexivity. Qed.

Lemma delimitado_pares (level : nat) (d : list (string * json)) (t : string) :
  delimitado (encode_pares level d ++ newline_indent level ++ t) = true.
Proof. destruct d as [|[k x] d]; reflexivity. Qed.

Lemma custo_itens_cons (x : json) (xs : list json) :
  custo_itens (x :: xs) = S (Nat.max (custo x) (custo_itens xs)).
Proof. reflexivity. Qed.

Lemma custo_pares_cons (k : string) (x : json) (d : list (string * json)) :
  custo_pares ((k, x) :: d) = S (Nat.max (custo x) (custo_pares d)).
Proof. reflexivity. Qed.

Lemma itens_lidos (level : nat) (rest : string) (xs : list json) :
  List.Forall le_de_volta xs ->
  forall (x : json) (acc : list json) (fuel : nat),
    le_de_volta x ->
    chaves_distintas_itens (x :: xs) = true ->
    (custo_itens (x :: xs) <= fuel)%nat ->
    JSONArray_items fuel
      (encode (S level) x ++ encode_itens level xs ++ newline_indent level
       ++ String "]" rest) acc
    = Ok (JList (rev acc ++ x :: xs), rest).
Proof.
  induction 1 as [|y ys Hy Hys IH]; intros x acc fuel Hx Hk Hc;
    rewrite custo_itens_cons in Hc;
    (destruct fuel as [|fuel]; [lia|]);
    apply andb_prop in Hk as [Hkx Hk];
    rewrite JSONArray_items_eq.
  - rewrite (Hx (S level) fuel _ (delimitado_itens level [] _) Hkx)
      by lia.
    cbn [rbind].
    change (encode_itens level [] ++ newline_indent level ++ String "]" rest)%string
      with (newline_indent level ++ String "]" rest)%string.
    rewrite skip_ws_newline_indent. reflexivity.
  - rewrite (Hx (S level) fuel _ (delimitado_itens level (y :: ys) _) Hkx)
      by lia.
    cbn [rbind].
    rewrite encode_itens_cons, !append_assoc.
    change ("," ++ ?s)%string with (String "," s).
    match goal with
    | |- match skip_ws (String _ ?r) with _ => _ end = ?rhs =>
        change (JSONArray_items fuel (skip_ws r) (x :: acc) = rhs)
    end.
    rewrite skip_ws_newline_indent, skip_ws_encode.
    change (chaves_distintas_itens (y :: ys) = true) in Hk.
    rewrite (IH y (x :: acc) fuel Hy Hk) by lia.
    cbn [rev]. rewrite <- app_assoc. reflexivity.
Qed.

Lemma dict_set_novo (acc : list (string * json)) (k : string) (v : json) :
  existsb (String.eqb k) (rev (map fst acc)) = false ->
  dict_set acc k v = (acc ++ [(k, v)])%list.
Proof.
  induction acc as [|[k' v'] acc IH]; intros H; [reflexivity|].
  cbn [map fst rev] in H. rewrite existsb_app in H.
  apply orb_false_elim in H as [H1 H2]. cbn [existsb] in H2.
  rewrite orb_false_r in H2. cbn [dict_set app].
  rewrite String.eqb_sym, H2, (IH H1). reflexivity.
Qed.

Ltac passo c :=
  rewrite (skip_ws_cabeca c) by reflexivity; cbv beta iota;
  repeat match goal with
         | |- context [(byte_of c =? ?n)%N] =>
             let b := eval vm_compute in (byte_of c =? n)%N in
             change (byte_of c =? n)%N with b
         end;
  cbv beta iota.

Lemma pares_lidos (level : nat) (rest : string) (d : list (string * json)) :
  List.Forall (fun kv => le_de_volta (snd kv)) d ->
  forall (k : string) (x : json) (acc : list (string * json)) (fuel : nat),
    le_de_volta x ->
    chaves_distintas_pares (rev (map fst acc)) ((k, x) :: d) = true ->
    (custo_pares ((k, x) :: d) <= fuel)%nat ->
    JSONObject_items fuel
      (escape k ++ String dquote
         (": " ++ encode (S level) x ++ encode_pares level d
          ++ newline_indent level ++ String "}" rest)) acc
    = Ok (JDict (acc ++ (k, x) :: d), rest).
Proof.
  induction 1 as [|[k' y] d Hy Hd IH]; intros k x acc fuel Hx Hk Hc;
    rewrite custo_pares_cons in Hc;
    (destruct fuel as [|fuel]; [lia|]);
    rewrite chaves_distintas_pares_cons in Hk;
    apply andb_prop in Hk as [Hk Hkd]; apply andb_prop in Hk as [Hnovo Hkx];
    apply negb_true_iff in Hnovo;
    rewrite JSONObject_items_eq, scanstring_escape; cbn [rbind];
    change (": " ++ ?t)%string with (String ":" (String " " t));
    passo ":"%char;
    change (skip_ws (String " " ?t)) with (skip_ws t);
    rewrite skip_ws_encode.
  - rewrite (Hx (S level) fuel _ (delimitado_pares level [] _) Hkx) by lia.
    cbn [rbind].
    change (encode_pares level [] ++ ?t)%string with t.
    rewrite skip_ws_newline_indent. passo "}"%char.
    rewrite (dict_set_novo acc k x Hnovo). reflexivity.
  - rewrite (Hx (S level) fuel _ (delimitado_pares level ((k', y) :: d) _) Hkx)
      by lia.
    cbn [rbind].
    rewrite encode_pares_cons, !append_assoc.
    change ("," ++ ?t)%string with (String "," t).
    passo ","%char.
    rewrite skip_ws_newline_indent.
    unfold encode_basestring at 1.
    rewrite append_cons, append_assoc.
    change (String dquote "" ++ ?t)%string with (String dquote t).
    passo dquote.
    rewrite (dict_set_novo acc k x Hnovo).
    rewrite (IH k' y (acc ++ [(k, x)])%list fuel Hy).
    + rewrite <- app_assoc. reflexivity.
    + rewrite List.map_app, List.rev_app_distr. exact Hkd.
    + lia.
Qed.

Lemma le_de_volta_todos (v : json) : le_de_volta v.
Proof.
  induction v as [|b|n|s|xs IH|d IH] using json_ind_aninhado;
    intros level fuel rest Hr Hk Hc; (destruct fuel as [|fuel]; [simpl in Hc; lia|]).
  - reflexivity.
  - destruct b; reflexivity.
  - apply scan_once_numero. apply match_number_repr_int. exact Hr.
  - change (encode level (JStr s) ++ rest)%string
      with (String dquote ((escape s ++ String dquote "") ++ rest)).
    rewrite scan_once_eq. change (byte_of dquote =? 34)%N with true.
    cbv beta iota. rewrite append_assoc.
    change (String dquote "" ++ rest)%string with (String dquote rest).
    rewrite scanstring_escape. reflexivity.
  - destruct xs as [|x xs]; [reflexivity|].
    rewrite encode_lista, !append_assoc.
    change ("[" ++ ?t)%string with (String "[" t).
    rewrite scan_once_eq.
    change (byte_of "[" =? 34)%N with false.
    change (byte_of "[" =? 123)%N with false.
    change (byte_of "[" =? 91)%N with true. cbv beta iota.
    rewrite skip_ws_newline_indent, skip_ws_encode.
    destruct (encode_cabeca (S level) x
                (encode_itens level xs ++ newline_indent level ++ "]" ++ rest))
      as (c & r & E & _ & Hc93).
    rewrite E, Hc93, <- E.
    change ("]" ++ rest)%string with (String "]" rest).
    rewrite chaves_distintas_lista in Hk.
    change (custo (JList (x :: xs))) with (S (custo_itens (x :: xs))) in Hc.
    rewrite (itens_lidos level rest xs (List.Forall_inv_tail IH) x [] fuel
               (List.Forall_inv IH) Hk) by lia.
    reflexivity.
  - destruct d as [|[k x] d]; [reflexivity|].
    rewrite encode_dict, !append_assoc.
    change ("{" ++ ?t)%string with (String "{" t).
    rewrite scan_once_eq.
    change (byte_of "{" =? 34)%N with false.
    change (byte_of "{" =? 123)%N with true. cbv beta iota.
    rewrite skip_ws_newline_indent.
    unfold encode_basestring at 1.
    rewrite append_cons, append_assoc.
    change (String dquote "" ++ ?t)%string with (String dquote t).
    passo dquote.
    change ("}" ++ rest)%string with (String "}" rest).
    rewrite chaves_distintas_dict in Hk.
    change (custo (JDict ((k, x) :: d))) with (S (custo_pares ((k, x) :: d))) in Hc.
    rewrite (pares_lidos level rest d (List.Forall_inv_tail IH) k x [] fuel
               (List.Forall_inv IH) Hk) by lia.
    reflexivity.
Qed.

(** *** Fuel *)

Lemma length_append (a b : string) :
  String.length (a ++ b) = (String.length a + String.length b)%nat.
Proof.
  induction a as [|c a IH]; [reflexivity|].
  rewrite append_cons. cbn [String.length]. rewrite IH. reflexivity.
Qed.

Lemma append_vazio (a : string) : (a ++ "")%string = a.
Proof.
  induction a as [|c a IH]; [reflexivity|].
  rewrite append_cons, IH. reflexivity.
Qed.

Lemma encode_nao_vazio (level : nat) (v : json) :
  (1 <= String.length (encode level v))%nat.
Proof.
  destruct (encode_cabeca level v "") as (c & r & E & _).
  rewrite append_vazio in E. rewrite E. cbn [String.length]. lia.
Qed.

Lemma custo_itens_limite (level : nat) (xs : list json) :
  List.Forall (fun x => forall level,
                   (custo x <= String.length (encode level x))%nat) xs ->
  (custo_itens xs <= String.length (encode_itens level xs))%nat.
Proof.
  induction 1 as [|y ys Hy _ IH]; [reflexivity|].
  rewrite custo_itens_cons, encode_itens_cons, !length_append.
  specialize (Hy (S level)). cbn [String.length]. lia.
Qed.

Lemma custo_pares_limite (level : nat) (d : list (string * json)) :
  List.Forall (fun kv => forall level,
                   (custo (snd kv) <= String.length (encode level (snd kv)))%nat)
    d ->
  (custo_pares d <= String.length (encode_pares level d))%nat.
Proof.
  induction 1 as [|[k y] d Hy _ IH]; [reflexivity|].
  rewrite custo_pares_cons, encode_pares_cons, !length_append.
  specialize (Hy (S level)). cbn [snd] in Hy. cbn [String.length]. lia.
Qed.

Lemma custo_limite (v : json) (level : nat) :
  (custo v <= String.length (encode level v))%nat.
Proof.
  revert level.
  induction v as [|b|n|s|xs IH|d IH] using json_ind_aninhado; intros level;
    try apply encode_nao_vazio.
  - destruct xs as [|x xs]; [cbn; lia|].
    change (custo (JList (x :: xs))) with (S (custo_itens (x :: xs))).
    rewrite encode_lista, !length_append, custo_itens_cons.
    pose proof (List.Forall_inv IH (S level)) as Hx.
    pose proof (custo_itens_limite level xs (List.Forall_inv_tail IH)) as Hxs.
    cbn [String.length]. lia.
  - destruct d as [|[k x] d]; [cbn; lia|].
    change (custo (JDict ((k, x) :: d))) with (S (custo_pares ((k, x) :: d))).
    rewrite encode_dict, !length_append, custo_pares_cons.
    pose proof (List.Forall_inv IH (S level)) as Hx. cbn [snd] in Hx.
    pose proof (custo_pares_limite level d (List.Forall_inv_tail IH)) as Hd.
    cbn [String.length]. lia.
Qed.

(** [json.loads] reads back what [json.dumps] wrote. *)
Lemma json_loads_dumps (v : json) :
  chaves_distintas v = true -> json_loads (json_dumps v) = Ok v.
Proof.
  intros Hk. unfold json_loads, json_dumps.
  pose proof (skip_ws_encode 0%nat v "") as Hs. rewrite append_vazio in Hs.
  rewrite Hs.
  pose proof (le_de_volta_todos v 0%nat
                (2 * String.length (encode 0 v) + 2)%nat "" eq_refl Hk) as H.
  rewrite append_vazio in H. rewrite H; [reflexivity|].
  pose proof (custo_limite v 0%nat). lia.
Qed.

(** *** The text written is UTF-8 *)

Lemma utf8_valid_eq (c : ascii) (r : string) :
  utf8_valid (String c r)
  = if (byte_of c <? 128)%N then utf8_valid r
    else if in_range 194 223 c then
      match r with
      | String c1 r1 => is_cont c1 && utf8_valid r1
      | _ => false
      end
    else if in_range 224 239 c then
      match r with
      | String c1 (String c2 r2) =>
          (if (byte_of c =? 224)%N then in_range 160 191 c1
           else if (byte_of c =? 237)%N then in_range 128 159 c1
           else is_cont c1)
          && is_cont c2 && utf8_valid r2
      | _ => false
      end
    else if in_range 240 244 c then
      match r with
      | String c1 (String c2 (String c3 r3)) =>
          (if (byte_of c =? 240)%N then in_range 144 191 c1
           else if (byte_of c =? 244)%N then in_range 128 143 c1
           else is_cont c1)
          && is_cont c2 && is_cont c3 && utf8_valid r3
      | _ => false
      end
    else false.
Proof. reflexivity. Qed.

(** Appending to well-formed text: the decoder is back in its initial
    state at the end of [a]. *)
Lemma utf8_valid_prefixo (b : string) (n : nat) :
  forall a, (String.length a <= n)%nat ->
            utf8_valid a = true -> utf8_valid (a ++ b) = utf8_valid b.
Proof.
  induction n as [|n IH]; intros [|c r] Hn Ha; try reflexivity;
    cbn [String.length] in Hn; [lia|].
  rewrite append_cons, utf8_valid_eq. rewrite utf8_valid_eq in Ha.
  destruct (byte_of c <? 128)%N; [apply IH; [lia | exact Ha]|].
  destruct (in_range 194 223 c).
  { destruct r as [|c1 r1]; [discriminate|].
    apply andb_prop in Ha as [H1 Ha]. rewrite append_cons, H1.
    apply IH; [cbn [String.length] in Hn; lia | exact Ha]. }
  destruct (in_range 224 239 c).
  { destruct r as [|c1 [|c2 r2]]; try discriminate.
    apply andb_prop in Ha as [H1 Ha]. rewrite !append_cons, H1.
    apply IH; [cbn [String.length] in Hn; lia | exact Ha]. }
  destruct (in_range 240 244 c); [|discriminate].
  destruct r as [|c1 [|c2 [|c3 r3]]]; try discriminate.
  apply andb_prop in Ha as [H1 Ha]. rewrite !append_cons, H1.
  apply IH; [cbn [String.length] in Hn; lia | exact Ha].
Qed.

Lemma utf8_valid_append (a b : string) :
  utf8_valid a = true -> utf8_valid b = true -> utf8_valid (a ++ b) = true.
Proof.
  intros Ha Hb.
  rewrite (utf8_valid_prefixo b (String.length a) a (Nat.le_refl _) Ha).
  exact Hb.
Qed.

Lemma escape_char_alto (c : ascii) :
  (byte_of c <? 128)%N = false -> escape_char c = String c "".
Proof.
  destruct c as [[] [] [] [] [] [] [] []]; intros H;
    try (cbv in H; discriminate H); reflexivity.
Qed.

Lemma escape_char_valido (c : ascii) :
  (byte_of c <? 128)%N = true -> utf8_valid (escape_char c) = true.
Proof.
  destruct c as [[] [] [] [] [] [] [] []]; intros H;
    try (cbv in H; discriminate H); vm_compute; reflexivity.
Qed.

Lemma in_range_alto (lo hi : N) (c : ascii) :
  (128 <= lo)%N -> in_range lo hi c = true -> (byte_of c <? 128)%N = false.
Proof.
  intros Hlo H. unfold in_range in H. apply andb_prop in H as [H _].
  apply N.leb_le in H. apply N.ltb_ge. lia.
Qed.

Lemma is_cont_alto (c : ascii) :
  is_cont c = true -> (byte_of c <? 128)%N = false.
Proof. apply (in_range_alto 128 191 c). lia. Qed.

Lemma escape_cons_alto (c : ascii) (r : string) :
  (byte_of c <? 128)%N = false -> escape (String c r) = String c (escape r).
Proof.
  intros H. change (escape (String c r)) with (escape_char c ++ escape r)%string.
  rewrite (escape_char_alto c H). reflexivity.
Qed.

Lemma utf8_valid_escape_n (n : nat) :
  forall s, (String.length s <= n)%nat ->
            utf8_valid s = true -> utf8_valid (escape s) = true.
Proof.
  induction n as [|n IH]; intros [|c r] Hn Hs; try reflexivity;
    cbn [String.length] in Hn; [lia|].
  rewrite utf8_valid_eq in Hs.
  destruct (byte_of c <? 128)%N eqn:E.
  { change (escape (String c r)) with (escape_char c ++ escape r)%string.
    apply utf8_valid_append; [apply escape_char_valido; exact E|].
    apply IH; [lia | exact Hs]. }
  rewrite (escape_cons_alto c r E), utf8_valid_eq, E.
  destruct (in_range 194 223 c).
  { destruct r as [|c1 r1]; [discriminate|].
    apply andb_prop in Hs as [H1 Hs].
    rewrite (escape_cons_alto c1 r1 (is_cont_alto c1 H1)), H1.
    apply IH; [cbn [String.length] in Hn; lia | exact Hs]. }
  destruct (in_range 224 239 c).
  { destruct r as [|c1 [|c2 r2]]; try discriminate.
    apply andb_prop in Hs as [H12 Hs]. pose proof H12 as H.
    apply andb_prop in H as [H1 H2].
    assert (A1 : (byte_of c1 <? 128)%N = false).
    { destruct (byte_of c =? 224)%N; [|destruct (byte_of c =? 237)%N].
      - apply (in_range_alto 160 191 c1); [lia | exact H1].
      - apply (in_range_alto 128 159 c1); [lia | exact H1].
      - apply is_cont_alto. exact H1. }
    rewrite (escape_cons_alto c1 _ A1),
      (escape_cons_alto c2 r2 (is_cont_alto c2 H2)), H12.
    apply IH; [cbn [String.length] in Hn; lia | exact Hs]. }
  destruct (in_range 240 244 c); [|discriminate].
  destruct r as [|c1 [|c2 [|c3 r3]]]; try discriminate.
  apply andb_prop in Hs as [H123 Hs]. pose proof H123 as H.
  apply andb_prop in H as [H H3]. apply andb_prop in H as [H1 H2].
  assert (A1 : (byte_of c1 <? 128)%N = false).
  { destruct (byte_of c =? 240)%N; [|destruct (byte_of c =? 244)%N].
    - apply (in_range_alto 144 191 c1); [lia | exact H1].
    - apply (in_range_alto 128 143 c1); [lia | exact H1].
    - apply is_cont_alto. exact H1. }
  rewrite (escape_cons_alto c1 _ A1),
    (escape_cons_alto c2 _ (is_cont_alto c2 H2)),
    (escape_cons_alto c3 r3 (is_cont_alto c3 H3)), H123.
  apply IH; [cbn [String.length] in Hn; lia | exact Hs].
Qed.

Lemma utf8_valid_escape (s : string) :
  utf8_valid s = true -> utf8_valid (escape s) = true.
Proof. apply (utf8_valid_escape_n (String.length s)). apply Nat.le_refl. Qed.

Lemma utf8_valid_basestring (s : string) :
  utf8_valid s = true -> utf8_valid (encode_basestring s) = true.
Proof.
  intros H. unfold encode_basestring.
  rewrite utf8_valid_eq. change (byte_of dquote <? 128)%N with true.
  cbv beta iota.
  apply utf8_valid_append; [apply utf8_valid_escape; exact H | reflexivity].
Qed.

Lemma utf8_valid_spaces (n : nat) : utf8_valid (spaces n) = true.
Proof. induction n as [|n IH]; [reflexivity | exact IH]. Qed.

Lemma utf8_valid_newline_indent (level : nat) :
  utf8_valid (newline_indent level) = true.
Proof. apply (utf8_valid_spaces (2 * level)). Qed.

Lemma utf8_valid_uint (d : Decimal.uint) :
  utf8_valid (NilEmpty.string_of_uint d) = true.
Proof. induction d; [reflexivity | exact IHd ..]. Qed.

Lemma utf8_valid_repr_int (n : Z) : utf8_valid (repr_int n) = true.
Proof.
  unfold repr_int. destruct n as [|p|p]; [reflexivity | |].
  - change (NilZero.string_of_int (Z.to_int (Z.pos p)))
      with (NilZero.string_of_uint (Pos.to_uint p)).
    unfold NilZero.string_of_uint.
    destruct (Pos.to_uint p) eqn:E; [reflexivity | ..];
      rewrite <- E; apply utf8_valid_uint.
  - change (NilZero.string_of_int (Z.to_int (Z.neg p)))
      with (String "-" (NilZero.string_of_uint (Pos.to_uint p))).
    rewrite utf8_valid_eq. change (byte_of "-" <? 128)%N with true.
    cbv beta iota. unfold NilZero.string_of_uint.
    destruct (Pos.to_uint p) eqn:E; [reflexivity | ..];
      rewrite <- E; apply utf8_valid_uint.
Qed.

Lemma utf8_texto_lista (xs : list json) :
  utf8_texto (JList xs) = utf8_itens xs.
Proof.
  induction xs as [|x xs IH]; [reflexivity|].
  cbn in *. rewrite IH. reflexivity.
Qed.

Lemma utf8_texto_dict (d : list (string * json)) :
  utf8_texto (JDict d) = utf8_pares d.
Proof.
  induction d as [|kv d IH]; [reflexivity|].
  cbn in *. rewrite IH. reflexivity.
Qed.

Lemma utf8_valid_encode_itens (level : nat) (xs : list json) :
  List.Forall (fun x => forall level,
                   utf8_texto x = true -> utf8_valid (encode level x) = true)
    xs ->
  utf8_itens xs = true ->
  utf8_valid (encode_itens level xs) = true.
Proof.
  induction 1 as [|y ys Hy _ IH]; intros Hu; [reflexivity|].
  apply andb_prop in Hu as [Hu1 Hu2].
  rewrite encode_itens_cons.
  apply utf8_valid_append; [reflexivity|].
  apply utf8_valid_append; [apply utf8_valid_newline_indent|].
  apply utf8_valid_append; [apply Hy; exact Hu1|].
  apply IH; exact Hu2.
Qed.

Lemma utf8_valid_encode_pares (level : nat) (d : list (string * json)) :
  List.Forall (fun kv => forall level,
                   utf8_texto (snd kv) = true ->
                   utf8_valid (encode level (snd kv)) = true) d ->
  utf8_pares d = true ->
  utf8_valid (encode_pares level d) = true.
Proof.
  induction 1 as [|[k y] d Hy _ IH]; intros Hu; [reflexivity|].
  apply andb_prop in Hu as [Hu1 Hu2]. apply andb_prop in Hu1 as [Hk Hu1].
  rewrite encode_pares_cons.
  apply utf8_valid_append; [reflexivity|].
  apply utf8_valid_append; [apply utf8_valid_newline_indent|].
  apply utf8_valid_append; [apply utf8_valid_basestring; exact Hk|].
  apply utf8_valid_append; [reflexivity|].
  apply utf8_valid_append; [apply Hy; exact Hu1|].
  apply IH; exact Hu2.
Qed.

Lemma utf8_valid_encode (v : json) (level : nat) :
  utf8_texto v = true -> utf8_valid (encode level v) = true.
Proof.
  revert level.
  induction v as [|b|n|s|xs IH|d IH] using json_ind_aninhado;
    intros level Hu.
  - reflexivity.
  - destruct b; reflexivity.
  - apply utf8_valid_repr_int.
  - apply utf8_valid_basestring. exact Hu.
  - destruct xs as [|x xs]; [reflexivity|].
    rewrite utf8_texto_lista in Hu. apply andb_prop in Hu as [Hu1 Hu2].
    rewrite encode_lista.
    apply utf8_valid_append; [reflexivity|].
    apply utf8_valid_append; [apply utf8_valid_newline_indent|].
    apply utf8_valid_append; [apply (List.Forall_inv IH); exact Hu1|].
    apply utf8_valid_append;
      [apply utf8_valid_encode_itens;
         [exact (List.Forall_inv_tail IH) | exact Hu2]|].
    apply utf8_valid_append; [apply utf8_valid_newline_indent | reflexivity].
  - destruct d as [|[k x] d]; [reflexivity|].
    rewrite utf8_texto_dict in Hu. apply andb_prop in Hu as [Hu1 Hu2].
    apply andb_prop in Hu1 as [Hk Hu1].
    rewrite encode_dict.
    apply utf8_valid_append; [reflexivity|].
    apply utf8_valid_append; [apply utf8_valid_newline_indent|].
    apply utf8_valid_append; [apply utf8_valid_basestring; exact Hk|].
    apply utf8_valid_append; [reflexivity|].
    apply utf8_valid_append; [apply (List.Forall_inv IH); exact Hu1|].
    apply utf8_valid_append;
      [apply utf8_valid_encode_pares;
         [exact (List.Forall_inv_tail IH) | exact Hu2]|].
    apply utf8_valid_append; [apply utf8_valid_newline_indent | reflexivity].
Qed.


(** ** Record store: writing *)

Lemma iterencode_lista (amb : Ambiente) (p level : nat) (x : json)
    (xs : list json) :
  iterencode amb (S p) level (JList (x :: xs))
  = depois (iterencode_itens amb p level ("[" ++ newline_indent (S level))
              (x :: xs))
      (depois (emite (newline_indent level)) (emite "]")).
Proof. reflexivity. Qed.

Lemma iterencode_dict (amb : Ambiente) (p level : nat) (kv : string * json)
    (d : list (string * json)) :
  iterencode amb (S p) level (JDict (kv :: d))
  = depois (emite "{")
      (depois (emite (newline_indent (S level)))
         (depois (iterencode_pares amb p level true (kv :: d))
            (depois (emite (newline_indent level)) (emite "}")))).
Proof. reflexivity. Qed.

Lemma prof_itens_cons (x : json) (xs : list json) :
  prof_itens (x :: xs) = Nat.max (profundidade x) (prof_itens xs).
Proof. reflexivity. Qed.

Lemma prof_pares_cons (kv : string * json) (d : list (string * json)) :
  prof_pares (kv :: d) = Nat.max (profundidade (snd kv)) (prof_pares d).
Proof. reflexivity. Qed.

Definition escreve_tudo (amb : Ambiente) (x : json) : Prop :=
  forall prof level,
    utf8_texto x = true -> ints_dentro amb x = true ->
    (profundidade x <= prof)%nat ->
    iterencode amb prof level x = (encode level x, None).

Lemma depois_emite (t : string) (b : escrita) :
  depois (emite t) b = ((t ++ fst b)%string, snd b).
Proof. reflexivity. Qed.

Lemma depois_ok (t : string) (b : escrita) :
  depois (t, None) b = ((t ++ fst b)%string, snd b).
Proof. reflexivity. Qed.

Lemma iterencode_item_ok (amb : Ambiente) (p level : nat) (buf : string)
    (x : json) :
  escreve_tudo amb x ->
  utf8_texto x = true -> ints_dentro amb x = true ->
  (profundidade x <= p)%nat ->
  iterencode_item amb p level buf x = ((buf ++ encode (S level) x)%string, None).
Proof.
  intros Hx Hu Hi Hp. destruct x as [|[]|n|s|xs|d]; cbn [iterencode_item].
  - reflexivity.
  - reflexivity.
  - reflexivity.
  - cbn [chunk_simples]. cbn [ints_dentro] in Hi. rewrite Hi. reflexivity.
  - cbn [chunk_simples]. cbn [utf8_texto] in Hu. rewrite Hu. reflexivity.
  - rewrite (Hx p (S level) Hu Hi Hp). reflexivity.
  - rewrite (Hx p (S level) Hu Hi Hp). reflexivity.
Qed.

Lemma iterencode_valor_ok (amb : Ambiente) (p level : nat) (x : json) :
  escreve_tudo amb x ->
  utf8_texto x = true -> ints_dentro amb x = true ->
  (profundidade x <= p)%nat ->
  iterencode_valor amb p level x = (encode (S level) x, None).
Proof.
  intros Hx Hu Hi Hp. destruct x as [|[]|n|s|xs|d]; cbn [iterencode_valor].
  - reflexivity.
  - reflexivity.
  - reflexivity.
  - cbn [chunk_simples]. cbn [ints_dentro] in Hi. rewrite Hi. reflexivity.
  - cbn [chunk_simples]. cbn [utf8_texto] in Hu. rewrite Hu. reflexivity.
  - exact (Hx p (S level) Hu Hi Hp).
  - exact (Hx p (S level) Hu Hi Hp).
Qed.

Lemma ints_dentro_lista (amb : Ambiente) (xs : list json) :
  ints_dentro amb (JList xs) = ints_itens amb xs.
Proof.
  induction xs as [|x xs IH]; [reflexivity|].
  cbn in *. rewrite IH. reflexivity.
Qed.

Lemma ints_dentro_dict (amb : Ambiente) (d : list (string * json)) :
  ints_dentro amb (JDict d) = ints_pares amb d.
Proof.
  induction d as [|kv d IH]; [reflexivity|].
  cbn in *. rewrite IH. reflexivity.
Qed.

Lemma profundidade_lista (xs : list json) :
  profundidade (JList xs) = S (prof_itens xs).
Proof. reflexivity. Qed.

Lemma profundidade_dict (d : list (string * json)) :
  profundidade (JDict d) = S (prof_pares d).
Proof. reflexivity. Qed.

Lemma iterencode_itens_ok (amb : Ambiente) (p level : nat) (xs : list json) :
  List.Forall (escreve_tudo amb) xs ->
  utf8_itens xs = true -> ints_itens amb xs = true ->
  (prof_itens xs <= p)%nat ->
  iterencode_itens amb p level ("," ++ newline_indent (S level)) xs
  = (encode_itens level xs, None).
Proof.
  induction 1 as [|x xs Hx _ IH]; intros Hu Hi Hp; [reflexivity|].
  apply andb_prop in Hu as [Hu1 Hu2]. apply andb_prop in Hi as [Hi1 Hi2].
  rewrite prof_itens_cons in Hp.
  cbn [iterencode_itens].
  rewrite (iterencode_item_ok amb p level _ x Hx Hu1 Hi1) by lia.
  fold (iterencode_itens amb p level).
  rewrite IH; [|assumption|assumption|lia].
  rewrite depois_ok. cbn [fst snd].
  rewrite encode_itens_cons, !append_assoc. reflexivity.
Qed.

Lemma iterencode_pares_ok (amb : Ambiente) (p level : nat)
    (d : list (string * json)) :
  List.Forall (fun kv => escreve_tudo amb (snd kv)) d ->
  utf8_pares d = true -> ints_pares amb d = true ->
  (prof_pares d <= p)%nat ->
  iterencode_pares amb p level false d = (encode_pares level d, None).
Proof.
  induction 1 as [|[k x] d Hx _ IH]; intros Hu Hi Hp; [reflexivity|].
  apply andb_prop in Hu as [Hu1 Hu2]. apply andb_prop in Hu1 as [Hk Hu1].
  apply andb_prop in Hi as [Hi1 Hi2].
  rewrite prof_pares_cons in Hp. cbn [snd fst] in *.
  cbn [iterencode_pares].
  rewrite (iterencode_valor_ok amb p level x Hx Hu1 Hi1) by lia.
  fold (iterencode_pares amb p level).
  rewrite IH; [|assumption|assumption|lia].
  cbn [chunk_simples]. rewrite Hk.
  rewrite !depois_emite, !depois_ok. cbn [fst snd].
  rewrite encode_pares_cons, !append_assoc. reflexivity.
Qed.

Lemma iterencode_gravavel (amb : Ambiente) (v : json) : escreve_tudo amb v.
Proof.
  induction v as [|b|n|s|xs IH|d IH] using json_ind_aninhado;
    intros prof level Hu Hi Hp.
  - reflexivity.
  - destruct b; reflexivity.
  - cbn [iterencode chunk_simples]. cbn [ints_dentro] in Hi. rewrite Hi.
    reflexivity.
  - cbn [iterencode chunk_simples]. cbn [utf8_texto] in Hu. rewrite Hu.
    reflexivity.
  - rewrite profundidade_lista in Hp. destruct prof as [|p]; [lia|].
    destruct xs as [|x xs]; [reflexivity|].
    rewrite utf8_texto_lista in Hu. rewrite ints_dentro_lista in Hi.
    apply andb_prop in Hu as [Hu1 Hu2]. apply andb_prop in Hi as [Hi1 Hi2].
    rewrite prof_itens_cons in Hp.
    rewrite iterencode_lista. cbn [iterencode_itens].
    rewrite (iterencode_item_ok amb p level _ x (List.Forall_inv IH) Hu1 Hi1)
      by lia.
    fold (iterencode_itens amb p level).
    rewrite (iterencode_itens_ok amb p level xs (List.Forall_inv_tail IH)
               Hu2 Hi2) by lia.
    rewrite !depois_ok, !depois_emite. cbn [fst snd].
    rewrite encode_lista, !append_assoc. reflexivity.
  - rewrite profundidade_dict in Hp. destruct prof as [|p]; [lia|].
    destruct d as [|[k x] d]; [reflexivity|].
    rewrite utf8_texto_dict in Hu. rewrite ints_dentro_dict in Hi.
    apply andb_prop in Hu as [Hu1 Hu2]. apply andb_prop in Hu1 as [Hk Hu1].
    apply andb_prop in Hi as [Hi1 Hi2].
    rewrite prof_pares_cons in Hp. cbn [snd fst] in *.
    rewrite iterencode_dict. cbn [iterencode_pares].
    rewrite (iterencode_valor_ok amb p level x (List.Forall_inv IH) Hu1 Hi1)
      by lia.
    fold (iterencode_pares amb p level).
    rewrite (iterencode_pares_ok amb p level d (List.Forall_inv_tail IH)
               Hu2 Hi2) by lia.
    cbn [chunk_simples]. rewrite Hk.
    rewrite !depois_emite, !depois_ok. cbn [fst snd].
    rewrite encode_dict, !append_assoc. reflexivity.
Qed.

(** No exception means that nothing stood in the way. *)
Definition sem_falha_implica (amb : Ambiente) (x : json) : Prop :=
  forall prof level,
    snd (iterencode amb prof level x) = None ->
    utf8_texto x = true /\ ints_dentro amb x = true
    /\ (profundidade x <= prof)%nat.

Lemma depois_sem_falha (a b : escrita) :
  snd (depois a b) = None -> snd a = None /\ snd b = None.
Proof.
  unfold depois. destruct (snd a) eqn:E; [intros H; congruence|].
  cbn [snd]. auto.
Qed.

Lemma iterencode_item_inv (amb : Ambiente) (p level : nat) (buf : string)
    (x : json) :
  sem_falha_implica amb x ->
  snd (iterencode_item amb p level buf x) = None ->
  utf8_texto x = true /\ ints_dentro amb x = true /\ (profundidade x <= p)%nat.
Proof.
  intros Hx H. destruct x as [|[]|n|s|xs|d]; cbn [iterencode_item] in H.
  - repeat split; cbn; lia.
  - repeat split; cbn; lia.
  - repeat split; cbn; lia.
  - cbn [chunk_simples] in H. cbn [utf8_texto ints_dentro profundidade].
    destruct (int_gravavel amb n); [repeat split; lia | discriminate].
  - cbn [chunk_simples] in H. cbn [utf8_texto ints_dentro profundidade].
    destruct (utf8_valid s); [repeat split; lia | discriminate].
  - apply depois_sem_falha in H as [_ H]. exact (Hx p (S level) H).
  - apply depois_sem_falha in H as [_ H]. exact (Hx p (S level) H).
Qed.

Lemma iterencode_valor_inv (amb : Ambiente) (p level : nat) (x : json) :
  sem_falha_implica amb x ->
  snd (iterencode_valor amb p level x) = None ->
  utf8_texto x = true /\ ints_dentro amb x = true /\ (profundidade x <= p)%nat.
Proof.
  intros Hx H. destruct x as [|[]|n|s|xs|d]; cbn [iterencode_valor] in H.
  - repeat split; cbn; lia.
  - repeat split; cbn; lia.
  - repeat split; cbn; lia.
  - cbn [chunk_simples] in H. cbn [utf8_texto ints_dentro profundidade].
    destruct (int_gravavel amb n); [repeat split; lia | discriminate].
  - cbn [chunk_simples] in H. cbn [utf8_texto ints_dentro profundidade].
    destruct (utf8_valid s); [repeat split; lia | discriminate].
  - exact (Hx p (S level) H).
  - exact (Hx p (S level) H).
Qed.

Lemma iterencode_itens_inv (amb : Ambiente) (p level : nat) (xs : list json) :
  List.Forall (sem_falha_implica amb) xs ->
  forall buf,
    snd (iterencode_itens amb p level buf xs) = None ->
    utf8_itens xs = true /\ ints_itens amb xs = true
    /\ (prof_itens xs <= p)%nat.
Proof.
  induction 1 as [|x xs Hx _ IH]; intros buf H.
  - repeat split. cbn. lia.
  - cbn [iterencode_itens] in H. fold (iterencode_itens amb p level) in H.
    apply depois_sem_falha in H as [H1 H2].
    apply (iterencode_item_inv amb p level buf x Hx) in H1 as (U1 & I1 & P1).
    apply IH in H2 as (U2 & I2 & P2).
    rewrite prof_itens_cons. cbn [utf8_itens ints_itens forallb].
    fold (utf8_itens xs). fold (ints_itens amb xs).
    rewrite U1, I1, U2, I2. repeat split. lia.
Qed.

Lemma iterencode_pares_inv (amb : Ambiente) (p level : nat)
    (d : list (string * json)) :
  List.Forall (fun kv => sem_falha_implica amb (snd kv)) d ->
  forall primeiro,
    snd (iterencode_pares amb p level primeiro d) = None ->
    utf8_pares d = true /\ ints_pares amb d = true
    /\ (prof_pares d <= p)%nat.
Proof.
  induction 1 as [|[k x] d Hx _ IH]; intros primeiro H.
  - repeat split. cbn. lia.
  - cbn [iterencode_pares] in H. fold (iterencode_pares amb p level) in H.
    apply depois_sem_falha in H as [_ H].
    apply depois_sem_falha in H as [Hk H].
    apply depois_sem_falha in H as [_ H].
    apply depois_sem_falha in H as [H1 H2].
    cbn [snd] in Hx.
    apply (iterencode_valor_inv amb p level x Hx) in H1 as (U1 & I1 & P1).
    apply IH in H2 as (U2 & I2 & P2).
    cbn [chunk_simples] in Hk.
    destruct (utf8_valid k) eqn:Ek; [|discriminate].
    rewrite prof_pares_cons. cbn [utf8_pares ints_pares forallb fst snd].
    fold (utf8_pares d). fold (ints_pares amb d).
    rewrite Ek, U1, I1, U2, I2. repeat split. lia.
Qed.

Lemma iterencode_sem_falha_inv (amb : Ambiente) (v : json) :
  sem_falha_implica amb v.
Proof.
  induction v as [|b|n|s|xs IH|d IH] using json_ind_aninhado;
    intros prof level H.
  - repeat split; cbn; lia.
  - repeat split; cbn; lia.
  - cbn [iterencode chunk_simples] in H.
    cbn [utf8_texto ints_dentro profundidade].
    destruct (int_gravavel amb n); [repeat split; lia | discriminate].
  - cbn [iterencode chunk_simples] in H.
    cbn [utf8_texto ints_dentro profundidade].
    destruct (utf8_valid s); [repeat split; lia | discriminate].
  - destruct prof as [|p]; [discriminate|].
    rewrite utf8_texto_lista, ints_dentro_lista, profundidade_lista.
    destruct xs as [|x xs]; [repeat split; cbn; lia|].
    rewrite iterencode_lista in H. apply depois_sem_falha in H as [H _].
    apply (iterencode_itens_inv amb p level _ IH) in H as (U & I & P).
    repeat split; [exact U | exact I | lia].
  - destruct prof as [|p]; [discriminate|].
    rewrite utf8_texto_dict, ints_dentro_dict, profundidade_dict.
    destruct d as [|kv d]; [repeat split; cbn; lia|].
    rewrite iterencode_dict in H. apply depois_sem_falha in H as [_ H].
    apply depois_sem_falha in H as [_ H].
    apply depois_sem_falha in H as [H _].
    apply (iterencode_pares_inv amb p level _ IH) in H as (U & I & P).
    repeat split; [exact U | exact I | lia].
Qed.

Lemma json_dump_gravavel (amb : Ambiente) (v : json) :
  gravavel amb v = true -> json_dump amb v = (json_dumps v, None).
Proof.
  intros H. apply andb_prop in H as [H Hp]. apply andb_prop in H as [Hu Hi].
  apply Nat.leb_le in Hp. exact (iterencode_gravavel amb v _ 0%nat Hu Hi Hp).
Qed.

Lemma json_dump_sem_falha (amb : Ambiente) (v : json) :
  snd (json_dump amb v) = None -> gravavel amb v = true.
Proof.
  intros H. apply iterencode_sem_falha_inv in H as (Hu & Hi & Hp).
  unfold gravavel. rewrite Hu, Hi. apply Nat.leb_le in Hp. rewrite Hp.
  reflexivity.
Qed.

Lemma salvar_dados_ok (amb : Ambiente) (fs : FS) (arquivo : string)
    (dados : json) :
  gravavel amb dados = true ->
  salvar_dados amb fs arquivo dados = (Ok tt, gravado fs arquivo dados).
Proof.
  intros H. unfold salvar_dados. rewrite (json_dump_gravavel amb dados H).
  reflexivity.
Qed.

Lemma salvar_dados_inv (amb : Ambiente) (fs fs' : FS) (arquivo : string)
    (dados : json) (u : unit) :
  salvar_dados amb fs arquivo dados = (Ok u, fs') ->
  gravavel amb dados = true /\ fs' = gravado fs arquivo dados.
Proof.
  unfold salvar_dados. destruct (json_dump amb dados) as [texto falha] eqn:E.
  destruct falha as [e|]; [discriminate|]. intros [= _ <-].
  assert (H : gravavel amb dados = true)
    by (apply json_dump_sem_falha; rewrite E; reflexivity).
  split; [exact H|].
  rewrite (json_dump_gravavel amb dados H) in E. injection E as <-.
  reflexivity.
Qed.

Lemma salvar_dados_falha (amb : Ambiente) (fs : FS) (arquivo : string)
    (dados : json) :
  gravavel amb dados = false ->
  exists e, fst (salvar_dados amb fs arquivo dados) = Raise e.
Proof.
  intros H. unfold salvar_dados.
  destruct (json_dump amb dados) as [texto falha] eqn:E.
  destruct falha as [e|]; [exists e; reflexivity|].
  rewrite json_dump_sem_falha in H by (rewrite E; reflexivity).
  discriminate.
Qed.

Lemma salvar_dados_outro_arquivo (amb : Ambiente) (fs : FS) (a b : string)
    (dados : json) :
  b <> a -> snd (salvar_dados amb fs a dados) !! b = fs !! b.
Proof.
  intros Hne. unfold salvar_dados. destruct (json_dump amb dados) as [t e].
  cbn [snd]. apply lookup_insert_ne. congruence.
Qed.

(** ** Round trip *)

Lemma carregar_dados_texto_valido
    (fs : FS) (arquivo texto : string) (default : option json) (v : json) :
  fs !! arquivo = Some texto ->
  utf8_valid texto = true ->
  json_loads texto = Ok v ->
  carregar_dados fs arquivo default = Ok v.
Proof.
  intros H Hu Hj. unfold carregar_dados, path_exists, json_load, read_text.
  rewrite H, Hu. cbn [negb rbind]. rewrite Hj. reflexivity.
Qed.

Lemma carregar_salvo
    (amb : Ambiente) (fs : FS) (arquivo : string) (dados : json)
    (default : option json) :
  dentro_dos_limites amb dados = true ->
  carregar_dados (gravado fs arquivo dados) arquivo default = Ok dados.
Proof.
  intros H. apply andb_prop in H as [Hg Hl].
  apply andb_prop in Hg as [Hg _]. apply andb_prop in Hg as [Hu _].
  apply andb_prop in Hl as [_ Hk].
  apply (carregar_dados_texto_valido _ _ (json_dumps dados)).
  - unfold gravado. apply lookup_insert_eq.
  - apply utf8_valid_encode. exact Hu.
  - apply json_loads_dumps. exact Hk.
Qed.

Lemma dentro_gravavel (amb : Ambiente) (v : json) :
  dentro_dos_limites amb v = true -> gravavel amb v = true.
Proof. intros H. apply andb_prop in H as [H _]. exact H. Qed.





(** * The writing routes *)

(** ** Creation *)

Lemma criar_tarefa_ok (amb : Ambiente) (fs : FS) (l : list json)
    (t : Tarefa.t) :
  carregar_dados fs TAREFAS_FILE None = Ok (JList l) ->
  gravavel amb (JList (l ++ [Tarefa.dict t])) = true ->
  criar_tarefa amb t fs
  = (Ok t, gravado fs TAREFAS_FILE (JList (l ++ [Tarefa.dict t]))).
Proof.
  intros H Hg. unfold criar_tarefa. rewrite H. cbn [py_append].
  rewrite (salvar_dados_ok amb fs _ _ Hg). reflexivity.
Qed.

Lemma criar_diagnostico_ok (amb : Ambiente) (fs : FS) (l : list json)
    (x : Diagnostico.t) :
  carregar_dados fs DIAGNOSTICOS_FILE None = Ok (JList l) ->
  gravavel amb (JList (l ++ [Diagnostico.dict x])) = true ->
  criar_diagnostico amb x fs
  = (Ok x, gravado fs DIAGNOSTICOS_FILE (JList (l ++ [Diagnostico.dict x]))).
Proof.
  intros H Hg. unfold criar_diagnostico. rewrite H. cbn [py_append].
  rewrite (salvar_dados_ok amb fs _ _ Hg). reflexivity.
Qed.

Lemma criar_correcao_ok (amb : Ambiente) (fs : FS) (l : list json)
    (x : Correcao.t) :
  carregar_dados fs CORRECOES_FILE None = Ok (JList l) ->
  gravavel amb (JList (l ++ [Correcao.dict x])) = true ->
  criar_correcao amb x fs
  = (Ok x, gravado fs CORRECOES_FILE (JList (l ++ [Correcao.dict x]))).
Proof.
  intros H Hg. unfold criar_correcao. rewrite H. cbn [py_append].
  rewrite (salvar_dados_ok amb fs _ _ Hg). reflexivity.
Qed.

Lemma criar_sugestao_ok (amb : Ambiente) (fs : FS) (l : list json)
    (x : Sugestao.t) :
  carregar_dados fs SUGESTOES_FILE None = Ok (JList l) ->
  gravavel amb (JList (l ++ [Sugestao.dict x])) = true ->
  criar_sugestao amb x fs
  = (Ok x, gravado fs SUGESTOES_FILE (JList (l ++ [Sugestao.dict x]))).
Proof.
  intros H Hg. unfold criar_sugestao. rewrite H. cbn [py_append].
  rewrite (salvar_dados_ok amb fs _ _ Hg). reflexivity.
Qed.

(** A task created with a [timestamp_criacao] in its body keeps it: the
    returned and the stored record carry the caller's value, not the
    server's clock. *)
Lemma criar_tarefa_usa_timestamp_do_corpo :
  let now := "2024-05-02T09:00:00" in
  let t := Tarefa.init "uuid-1" now
             (corpo_tarefa None (Some "1999-12-31T00:00:00")) in
  exists t' fs',
    criar_tarefa ambiente_ex t ∅ = (Ok t', fs')
    /\ Tarefa.timestamp_criacao t' = "1999-12-31T00:00:00"
    /\ Tarefa.timestamp_criacao t' <> now
    /\ exists l, carregar_dados fs' TAREFAS_FILE None = Ok (JList l)
                 /\ map (campo "timestamp_criacao") l
                    = [JStr "1999-12-31T00:00:00"].
Proof.
  cbv zeta.
  exists (Tarefa.init "uuid-1" "2024-05-02T09:00:00"
            (corpo_tarefa None (Some "1999-12-31T00:00:00"))),
    (snd (criar_tarefa ambiente_ex
            (Tarefa.init "uuid-1" "2024-05-02T09:00:00"
               (corpo_tarefa None (Some "1999-12-31T00:00:00"))) ∅)).
  split; [vm_compute; reflexivity|].
  split; [reflexivity|]. split; [discriminate|].
  exists [Tarefa.dict
            (Tarefa.init "uuid-1" "2024-05-02T09:00:00"
               (corpo_tarefa None (Some "1999-12-31T00:00:00")))].
  split; vm_compute; reflexivity.
Qed.

(** C5 (amended). For the four entity kinds alike, the creation timestamp
    is the one in the caller's body when the body has one and the server's
    clock otherwise; when the collection with the new record can be
    written, the route returns the record and appends it to the stored
    collection, both carrying that value. *)
Theorem timestamp_de_criacao
    (amb : Ambiente) (uuid now : string) (fs : FS) (lt ld lc ls : list json)
    (bt : Tarefa.body) (bd : Diagnostico.body)
    (bc : Correcao.body) (bs : Sugestao.body) :
  carregar_dados fs TAREFAS_FILE None = Ok (JList lt) ->
  carregar_dados fs DIAGNOSTICOS_FILE None = Ok (JList ld) ->
  carregar_dados fs CORRECOES_FILE None = Ok (JList lc) ->
  carregar_dados fs SUGESTOES_FILE None = Ok (JList ls) ->
  let t := Tarefa.init uuid now bt in
  let d := Diagnostico.init uuid now bd in
  let c := Correcao.init uuid now bc in
  let s := Sugestao.init uuid now bs in
  ((gravavel amb (JList (lt ++ [Tarefa.dict t])) = true ->
    criar_tarefa amb t fs
    = (Ok t, gravado fs TAREFAS_FILE (JList (lt ++ [Tarefa.dict t]))))
   /\ Tarefa.timestamp_criacao t
      = or_default (Tarefa.b_timestamp_criacao bt) now
   /\ campo "timestamp_criacao" (Tarefa.dict t)
      = JStr (or_default (Tarefa.b_timestamp_criacao bt) now))
  /\ ((gravavel amb (JList (ld ++ [Diagnostico.dict d])) = true ->
       criar_diagnostico amb d fs
       = (Ok d, gravado fs DIAGNOSTICOS_FILE
                  (JList (ld ++ [Diagnostico.dict d]))))
      /\ Diagnostico.timestamp d = or_default (Diagnostico.b_timestamp bd) now
      /\ campo "timestamp" (Diagnostico.dict d)
         = JStr (or_default (Diagnostico.b_timestamp bd) now))
  /\ ((gravavel amb (JList (lc ++ [Correcao.dict c])) = true ->
       criar_correcao amb c fs
       = (Ok c, gravado fs CORRECOES_FILE (JList (lc ++ [Correcao.dict c]))))
      /\ Correcao.timestamp c = or_default (Correcao.b_timestamp bc) now
      /\ campo "timestamp" (Correcao.dict c)
         = JStr (or_default (Correcao.b_timestamp bc) now))
  /\ ((gravavel amb (JList (ls ++ [Sugestao.dict s])) = true ->
       criar_sugestao amb s fs
       = (Ok s, gravado fs SUGESTOES_FILE (JList (ls ++ [Sugestao.dict s]))))
      /\ Sugestao.timestamp s = or_default (Sugestao.b_timestamp bs) now
      /\ campo "timestamp" (Sugestao.dict s)
         = JStr (or_default (Sugestao.b_timestamp bs) now)).
Proof.
  intros Ht Hd Hc Hs. cbv zeta.
  split; [|split; [|split]]; (split; [|split; reflexivity]); intros Hg.
  - exact (criar_tarefa_ok amb fs lt _ Ht Hg).
  - exact (criar_diagnostico_ok amb fs ld _ Hd Hg).
  - exact (criar_correcao_ok amb fs lc _ Hc Hg).
  - exact (criar_sugestao_ok amb fs ls _ Hs Hg).
Qed.

Lemma timestamp_de_criacao_witness :
  let t := Tarefa.init "uuid-2" "2024-05-03T08:00:00"
             (corpo_tarefa None (Some "1999-12-31T00:00:00")) in
  criar_tarefa ambiente_ex t fs_uma_tarefa
  = (Ok t, gravado fs_uma_tarefa TAREFAS_FILE
             (JList ([Tarefa.dict (tarefa_ex "t1")] ++ [Tarefa.dict t])))
  /\ Tarefa.timestamp_criacao t = "1999-12-31T00:00:00".
Proof.
  cbv zeta.
  assert (Ht : carregar_dados fs_uma_tarefa TAREFAS_FILE None
               = Ok (JList [Tarefa.dict (tarefa_ex "t1")]))
    by (vm_compute; reflexivity).
  assert (Hd : carregar_dados fs_uma_tarefa DIAGNOSTICOS_FILE None
               = Ok (JList [])) by (vm_compute; reflexivity).
  assert (Hc : carregar_dados fs_uma_tarefa CORRECOES_FILE None
               = Ok (JList [])) by (vm_compute; reflexivity).
  assert (Hs : carregar_dados fs_uma_tarefa SUGESTOES_FILE None
               = Ok (JList [])) by (vm_compute; reflexivity).
  assert (Hg : gravavel ambiente_ex
                 (JList ([Tarefa.dict (tarefa_ex "t1")]
                         ++ [Tarefa.dict
                               (Tarefa.init "uuid-2" "2024-05-03T08:00:00"
                                  (corpo_tarefa None
                                     (Some "1999-12-31T00:00:00")))]))
               = true)
    by (vm_compute; reflexivity).
  pose proof (timestamp_de_criacao ambiente_ex "uuid-2" "2024-05-03T08:00:00"
                fs_uma_tarefa [Tarefa.dict (tarefa_ex "t1")] [] [] []
                (corpo_tarefa None (Some "1999-12-31T00:00:00"))
                (Diagnostico.mk_body None "sistema" "d" None None None None)
                (Correcao.mk_body None None "c" None None None None)
                (Sugestao.mk_body None "otimizacao" "s" "s" None None None
                   None)
                Ht Hd Hc Hs) as H.
  cbv zeta in H.
  split; [exact (proj1 (proj1 H) Hg) | exact (proj1 (proj2 (proj1 H)))].
Defined.

(** ** Identifiers *)

(** Creating a task whose body repeats a stored id leaves two records with
    that id; a PATCH whose body has an [id] key renames the record. *)
Lemma id_repetido_e_id_alterado :
  (exists fs' l,
      criar_tarefa ambiente_ex (tarefa_ex "t1") fs_uma_tarefa
      = (Ok (tarefa_ex "t1"), fs')
      /\ carregar_dados fs' TAREFAS_FILE None = Ok (JList l)
      /\ map id_de l = [JStr "t1"; JStr "t1"])
  /\ (exists nova fs' l,
         atualizar_tarefa ambiente_ex "t1" [("id", JStr "t2")]
           "2024-05-04T07:00:00" fs_uma_tarefa = (Ok nova, fs')
         /\ id_de nova = JStr "t2"
         /\ carregar_dados fs' TAREFAS_FILE None = Ok (JList l)
         /\ map id_de l = [JStr "t2"]).
Proof.
  split.
  - exists (snd (criar_tarefa ambiente_ex (tarefa_ex "t1") fs_uma_tarefa)),
      [Tarefa.dict (tarefa_ex "t1"); Tarefa.dict (tarefa_ex "t1")].
    repeat split; vm_compute; reflexivity.
  - pose (nova := JDict (aplicar_atualizacao
                          [("id", JStr "t1"); ("titulo", JStr "backup");
                           ("descricao", JStr "copiar os dados");
                           ("estado", JStr "pendente");
                           ("agente_responsavel", JNull);
                           ("prioridade", JStr "normal");
                           ("timestamp_criacao", JStr "2024-05-02T09:00:00");
                           ("timestamp_atualizacao", JNull);
                           ("resultado", JNull); ("contexto", JNull)]
                          [("id", JStr "t2")] "2024-05-04T07:00:00")).
    exists nova,
      (snd (atualizar_tarefa ambiente_ex "t1" [("id", JStr "t2")]
              "2024-05-04T07:00:00" fs_uma_tarefa)),
      [nova].
    repeat split; vm_compute; reflexivity.
Qed.

(** The value of a successful answer ([None] for an exception). *)
Definition fst_ok (r : result json) : json :=
  match r with
  | Ok v => v
  | Raise _ => JNull
  end.

Lemma NoDup_snoc {A} (l : list A) (x : A) :
  NoDup l -> x ∉ l -> NoDup (l ++ [x]).
Proof.
  intros Hl Hx. apply NoDup_app. repeat split; auto.
  - intros y Hy Hy'. apply list_elem_of_singleton in Hy'. subst. contradiction.
  - apply NoDup_singleton.
Qed.

(** What [atualizar_tarefa] did when it answers: the first record with the
    id was merged, and the collection with that record replaced could be
    written and is what the file holds. *)
Lemma atualizar_tarefa_inv
    (amb : Ambiente) (fs fs' : FS) (l : list json) (tarefa_id : string)
    (u : list (string * json)) (now : string) (nova : json) :
  carregar_dados fs TAREFAS_FILE None = Ok (JList l) ->
  atualizar_tarefa amb tarefa_id u now fs = (Ok nova, fs') ->
  exists l',
    atualizar_primeira tarefa_id u now l = Ok (Some (l', nova))
    /\ gravavel amb (JList l') = true
    /\ fs' = gravado fs TAREFAS_FILE (JList l').
Proof.
  intros Hload H. unfold atualizar_tarefa in H. rewrite Hload in H.
  cbn [py_iter] in H.
  destruct (atualizar_primeira tarefa_id u now l) as [[[l' n]|]|] eqn:E;
    try discriminate.
  destruct (salvar_dados amb fs TAREFAS_FILE (JList l')) as [[[]|e] fs1] eqn:Es;
    [|discriminate].
  injection H as <- <-.
  apply salvar_dados_inv in Es as [Hg ->].
  exists l'. auto.
Qed.

Lemma atualizar_tarefa_match
    (amb : Ambiente) (fs : FS) (pre post : list json)
    (d u : list (string * json)) (tarefa_id now : string) :
  carregar_dados fs TAREFAS_FILE None = Ok (JList (pre ++ JDict d :: post)) ->
  Forall (sem_id tarefa_id) pre ->
  id_de (JDict d) = JStr tarefa_id ->
  gravavel amb (JList (pre ++ JDict (aplicar_atualizacao d u now) :: post))
  = true ->
  atualizar_tarefa amb tarefa_id u now fs
  = (Ok (JDict (aplicar_atualizacao d u now)),
     gravado fs TAREFAS_FILE
       (JList (pre ++ JDict (aplicar_atualizacao d u now) :: post))).
Proof.
  intros Hload Hpre Hid Hg. unfold atualizar_tarefa. rewrite Hload.
  cbn [py_iter].
  rewrite (atualizar_primeira_match tarefa_id u now pre post d Hpre)
    by (rewrite Hid; apply py_eq_str_refl).
  rewrite (salvar_dados_ok amb fs _ _ Hg). reflexivity.
Qed.

(** C2 (amended). The routes perform no uniqueness check.  A created task
    carries the id of the caller's body when it has one and the generated
    uuid otherwise; if the stored ids are pairwise distinct and that id is
    not among them, and the collection with the new record can be written,
    the task is created and the ids stay pairwise distinct.  An update that
    answers and whose body has no [id] key leaves the id of the matched
    record, and of every other record, as it was. *)
Theorem id_unico_se_novo_e_estavel_sem_chave_id
    (amb : Ambiente) (fs : FS) (l : list json) :
  carregar_dados fs TAREFAS_FILE None = Ok (JList l) ->
  (forall (uuid now : string) (b : Tarefa.body),
      let t := Tarefa.init uuid now b in
      NoDup (map id_de l) ->
      JStr (or_default (Tarefa.b_id b) uuid) ∉ map id_de l ->
      gravavel amb (JList (l ++ [Tarefa.dict t])) = true ->
      criar_tarefa amb t fs
      = (Ok t, gravado fs TAREFAS_FILE (JList (l ++ [Tarefa.dict t])))
      /\ id_de (Tarefa.dict t) = JStr (or_default (Tarefa.b_id b) uuid)
      /\ NoDup (map id_de (l ++ [Tarefa.dict t])))
  /\ (forall (tarefa_id : string) (u : list (string * json)) (now : string)
             (nova : json) (fs' : FS),
         dict_get u "id" = None ->
         atualizar_tarefa amb tarefa_id u now fs = (Ok nova, fs') ->
         exists l',
           fs' = gravado fs TAREFAS_FILE (JList l')
           /\ map id_de l' = map id_de l
           /\ id_de nova = JStr tarefa_id).
Proof.
  intros Hload. split.
  - intros uuid now b t Hnd Hnotin Hg. split; [|split].
    + apply criar_tarefa_ok; assumption.
    + reflexivity.
    + rewrite map_app. apply NoDup_snoc; assumption.
  - intros tarefa_id u now nova fs' Hu H.
    destruct (atualizar_tarefa_inv amb fs fs' l tarefa_id u now nova Hload H)
      as (l' & E & _ & ->).
    apply atualizar_primeira_inv in E
      as (pre & d & post & -> & -> & -> & Hid & _).
    eexists. split; [reflexivity|].
    rewrite !map_app. simpl.
    rewrite (id_de_aplicar_atualizacao d u now Hu). split; [reflexivity|].
    exact Hid.
Qed.

Lemma id_unico_se_novo_e_estavel_sem_chave_id_witness :
  NoDup (map id_de [Tarefa.dict (tarefa_ex "t1"); Tarefa.dict (tarefa_ex "t2")])
  /\ exists l',
       snd (atualizar_tarefa ambiente_ex "t1" [("estado", JStr "concluida")]
              "2024-05-04T07:00:00" fs_uma_tarefa)
       = gravado fs_uma_tarefa TAREFAS_FILE (JList l')
       /\ map id_de l' = map id_de [Tarefa.dict (tarefa_ex "t1")].
Proof.
  assert (Hload : carregar_dados fs_uma_tarefa TAREFAS_FILE None
                  = Ok (JList [Tarefa.dict (tarefa_ex "t1")]))
    by (vm_compute; reflexivity).
  pose proof (id_unico_se_novo_e_estavel_sem_chave_id ambiente_ex
                fs_uma_tarefa _ Hload) as [Hc Hu].
  split.
  - refine (proj2 (proj2 (Hc "uuid-1" "2024-05-02T09:00:00"
                            (corpo_tarefa (Some "t2") None) _ _ _))).
    + vm_compute. apply NoDup_singleton.
    + vm_compute. intros H. apply list_elem_of_singleton in H. discriminate.
    + vm_compute. reflexivity.
  - destruct (Hu "t1" [("estado", JStr "concluida")] "2024-05-04T07:00:00"
                (fst_ok (fst (atualizar_tarefa ambiente_ex "t1"
                                [("estado", JStr "concluida")]
                                "2024-05-04T07:00:00" fs_uma_tarefa)))
                (snd (atualizar_tarefa ambiente_ex "t1"
                        [("estado", JStr "concluida")]
                        "2024-05-04T07:00:00" fs_uma_tarefa)))
      as (l' & H1 & H2 & H3).
    + reflexivity.
    + vm_compute. reflexivity.
    + exists l'. split; [exact H1 | exact H2].
Defined.

(** ** Updating a task: what is merged, and when it is stored *)

(** A PATCH of a stored task whose body carries a lone surrogate: the
    answer is neither the merged record nor 404.  The route raises
    [UnicodeEncodeError] in the write, after the file was emptied; the file
    is left with the chunks written before the string, and the collection
    that loads from it is empty. *)
Lemma atualizar_tarefa_corpo_que_nao_se_grava :
  fst (atualizar_tarefa ambiente_ex "t1"
         [("resultado", JStr substituto_isolado)] "2024-05-04T07:00:00"
         fs_uma_tarefa)
  = Raise UnicodeEncodeError
  /\ carregar_dados
       (snd (atualizar_tarefa ambiente_ex "t1"
               [("resultado", JStr substituto_isolado)] "2024-05-04T07:00:00"
               fs_uma_tarefa))
       TAREFAS_FILE None
     = Ok (JList []).
Proof. split; vm_compute; reflexivity. Qed.

(** C6 (amended). Updating a task.  When every stored record has another id
    the route raises 404 and leaves the store as it was.  Otherwise the
    first record with the id is replaced by its shallow merge with the body:
    the keys of the body take the body's values, [timestamp_atualizacao]
    becomes the current time, every other key keeps its value; when the
    collection with that one record replaced can be written, it is written
    back whole and the merged record is returned; when it cannot, the route
    raises. *)
Theorem atualizar_tarefa_merge_ou_404
    (amb : Ambiente) (fs : FS) (l : list json) (tarefa_id : string)
    (u : list (string * json)) (now : string) :
  carregar_dados fs TAREFAS_FILE None = Ok (JList l) ->
  NoDup (map fst u) ->
  (Forall (sem_id tarefa_id) l ->
   atualizar_tarefa amb tarefa_id u now fs
   = (Raise (nao_encontrada tarefa_id), fs))
  /\ (forall (pre post : list json) (d : list (string * json)),
         l = (pre ++ JDict d :: post)%list ->
         Forall (sem_id tarefa_id) pre ->
         id_de (JDict d) = JStr tarefa_id ->
         let nova := aplicar_atualizacao d u now in
         (gravavel amb (JList (pre ++ JDict nova :: post)) = true ->
          atualizar_tarefa amb tarefa_id u now fs
          = (Ok (JDict nova),
             gravado fs TAREFAS_FILE (JList (pre ++ JDict nova :: post))))
         /\ (gravavel amb (JList (pre ++ JDict nova :: post)) = false ->
             exists e, fst (atualizar_tarefa amb tarefa_id u now fs) = Raise e)
         /\ dict_get nova "timestamp_atualizacao" = Some (JStr now)
         /\ (forall k v, k <> "timestamp_atualizacao" ->
                         dict_get u k = Some v -> dict_get nova k = Some v)
         /\ (forall k, k <> "timestamp_atualizacao" ->
                       dict_get u k = None -> dict_get nova k = dict_get d k)).
Proof.
  intros Hload Hnd. split.
  - intros Hno. unfold atualizar_tarefa. rewrite Hload. simpl.
    rewrite (atualizar_primeira_sem_match _ _ _ _ Hno). reflexivity.
  - intros pre post d -> Hpre Hid nova. split; [|split; [|split; [|split]]].
    + intros Hg.
      exact (atualizar_tarefa_match amb fs pre post d u tarefa_id now
               Hload Hpre Hid Hg).
    + intros Hg. unfold atualizar_tarefa. rewrite Hload. cbn [py_iter].
      rewrite (atualizar_primeira_match tarefa_id u now pre post d Hpre)
        by (rewrite Hid; apply py_eq_str_refl).
      destruct (salvar_dados_falha amb fs TAREFAS_FILE _ Hg) as [e He].
      fold nova.
      destruct (salvar_dados amb fs TAREFAS_FILE
                  (JList (pre ++ JDict nova :: post))) as [[[]|e'] fs1];
        [discriminate He|].
      exists e'. reflexivity.
    + apply dict_get_set_eq.
    + intros k v Hk Hu. unfold nova, aplicar_atualizacao.
      rewrite dict_get_set_ne by congruence.
      apply dict_get_update_some; assumption.
    + intros k Hk Hu. unfold nova, aplicar_atualizacao.
      rewrite dict_get_set_ne by congruence.
      apply dict_get_update_none; assumption.
Qed.

Lemma atualizar_tarefa_merge_ou_404_witness :
  atualizar_tarefa ambiente_ex "t9" [("estado", JStr "concluida")]
    "2024-05-04T07:00:00" fs_uma_tarefa
  = (Raise (nao_encontrada "t9"), fs_uma_tarefa)
  /\ exists nova,
       fst (atualizar_tarefa ambiente_ex "t1" [("estado", JStr "concluida")]
              "2024-05-04T07:00:00" fs_uma_tarefa) = Ok (JDict nova)
       /\ dict_get nova "estado" = Some (JStr "concluida")
       /\ dict_get nova "timestamp_atualizacao"
          = Some (JStr "2024-05-04T07:00:00")
       /\ dict_get nova "titulo" = Some (JStr "backup").
Proof.
  assert (Hload : carregar_dados fs_uma_tarefa TAREFAS_FILE None
                  = Ok (JList [Tarefa.dict (tarefa_ex "t1")]))
    by (vm_compute; reflexivity).
  assert (Hnd : NoDup (map fst [("estado", JStr "concluida")]))
    by apply NoDup_singleton.
  split.
  - refine (proj1 (atualizar_tarefa_merge_ou_404 ambiente_ex fs_uma_tarefa _
                     "t9" _ "2024-05-04T07:00:00" Hload Hnd) _).
    repeat constructor.
  - destruct (proj2 (atualizar_tarefa_merge_ou_404 ambiente_ex fs_uma_tarefa _
                       "t1" _ "2024-05-04T07:00:00" Hload Hnd)
                [] [] _ eq_refl (List.Forall_nil _) eq_refl)
      as (H1 & _ & H2 & H3 & H4).
    eexists. split; [rewrite H1; [reflexivity | vm_compute; reflexivity]|].
    split; [apply H3; [discriminate | reflexivity]|].
    split; [exact H2|]. reflexivity.
Defined.

(** * Further properties of the routes *)

(** ** Loading: what never reaches the caller *)

(** The default that [carregar_dados] answers with: the empty list when the
    argument is absent or is [None], the argument otherwise. *)
Definition default_efetivo (default : option json) : json :=
  match default with
  | None | Some JNull => JList []
  | Some d => d
  end.

(** Whatever the store holds, [carregar_dados] raises neither
    [JSONDecodeError] nor [FileNotFoundError]: a missing file and a text
    that is not JSON both give the default, which is the empty list when no
    default, or [None], is passed. *)
Theorem carregar_dados_trata_ausente_e_ilegivel
    (fs : FS) (arquivo : string) (default : option json) :
  carregar_dados fs arquivo default <> Raise JSONDecodeError
  /\ carregar_dados fs arquivo default <> Raise FileNotFoundError
  /\ (fs !! arquivo = None ->
      carregar_dados fs arquivo default = Ok (default_efetivo default))
  /\ (forall texto,
         fs !! arquivo = Some texto ->
         utf8_valid texto = true ->
         json_loads texto = Raise JSONDecodeError ->
         carregar_dados fs arquivo default = Ok (default_efetivo default)).
Proof.
  unfold carregar_dados, path_exists, json_load, read_text.
  fold (default_efetivo default).
  destruct (fs !! arquivo) as [texto|] eqn:E; cbn [negb rbind].
  - destruct (utf8_valid texto) eqn:Hu; cbn [rbind].
    + destruct (json_loads texto) as [v|e] eqn:Hj.
      * repeat split; try discriminate.
        intros t Ht _ Hl. injection Ht as <-. rewrite Hj in Hl. discriminate.
      * destruct e; repeat split; try discriminate;
          try (intros t Ht _ Hl; injection Ht as <-;
               rewrite Hj in Hl; discriminate);
          intros; reflexivity.
    + repeat split; try discriminate.
      intros t Ht Hl. injection Ht as <-. rewrite Hu in Hl. discriminate.
  - repeat split; try discriminate; intros; reflexivity.
Qed.

Lemma carregar_dados_trata_ausente_e_ilegivel_witness :
  carregar_dados ∅ TAREFAS_FILE None = Ok (JList [])
  /\ carregar_dados ∅ TAREFAS_FILE (Some JNull) = Ok (JList [])
  /\ carregar_dados (<[TAREFAS_FILE := "[1, 2"]> ∅) TAREFAS_FILE
       (Some (JDict []))
     = Ok (JDict []).
Proof.
  split; [|split].
  - apply (proj1 (proj2 (proj2 (carregar_dados_trata_ausente_e_ilegivel
                                  ∅ TAREFAS_FILE None)))).
    reflexivity.
  - apply (proj1 (proj2 (proj2 (carregar_dados_trata_ausente_e_ilegivel
                                  ∅ TAREFAS_FILE (Some JNull))))).
    reflexivity.
  - apply (proj2 (proj2 (proj2 (carregar_dados_trata_ausente_e_ilegivel
                                  (<[TAREFAS_FILE := "[1, 2"]> ∅)
                                  TAREFAS_FILE (Some (JDict []))))) "[1, 2");
      vm_compute; reflexivity.
Defined.

(** ** Writes stay in their own collection *)

Lemma carregar_dados_mesmo_arquivo
    (fs fs' : FS) (arquivo : string) (default : option json) :
  fs' !! arquivo = fs !! arquivo ->
  carregar_dados fs' arquivo default = carregar_dados fs arquivo default.
Proof.
  intros H. unfold carregar_dados, path_exists, json_load, read_text.
  rewrite H. reflexivity.
Qed.

(** A store that differs from [fs] at most in the file [proprio]. *)
Definition so_muda (proprio : string) (fs fs' : FS) : Prop :=
  forall arquivo, arquivo <> proprio -> fs' !! arquivo = fs !! arquivo.

Lemma so_muda_refl (proprio : string) (fs : FS) : so_muda proprio fs fs.
Proof. intros arquivo _. reflexivity. Qed.

Lemma so_muda_salvar (amb : Ambiente) (fs : FS) (proprio : string)
    (dados : json) :
  so_muda proprio fs (snd (salvar_dados amb fs proprio dados)).
Proof. intros arquivo Hne. apply salvar_dados_outro_arquivo. exact Hne. Qed.

Lemma criar_tarefa_escreve (amb : Ambiente) (t : Tarefa.t) (fs : FS) :
  so_muda TAREFAS_FILE fs (snd (criar_tarefa amb t fs)).
Proof.
  unfold criar_tarefa.
  destruct (carregar_dados fs TAREFAS_FILE None) as [v|];
    [|apply so_muda_refl].
  destruct (py_append v (Tarefa.dict t)) as [v'|]; [|apply so_muda_refl].
  pose proof (so_muda_salvar amb fs TAREFAS_FILE v') as H.
  destruct (salvar_dados amb fs TAREFAS_FILE v') as [[u|e] fs1]; exact H.
Qed.

Lemma atualizar_tarefa_escreve
    (amb : Ambiente) (tarefa_id : string) (u : list (string * json))
    (now : string) (fs : FS) :
  so_muda TAREFAS_FILE fs (snd (atualizar_tarefa amb tarefa_id u now fs)).
Proof.
  unfold atualizar_tarefa.
  destruct (carregar_dados fs TAREFAS_FILE None) as [v|];
    [|apply so_muda_refl].
  destruct (py_iter v) as [l|]; [|apply so_muda_refl].
  destruct (atualizar_primeira tarefa_id u now l) as [[[l' nova]|]|];
    try apply so_muda_refl.
  pose proof (so_muda_salvar amb fs TAREFAS_FILE (JList l')) as H.
  destruct (salvar_dados amb fs TAREFAS_FILE (JList l')) as [[u0|e] fs1];
    exact H.
Qed.

Lemma criar_diagnostico_escreve (amb : Ambiente) (d : Diagnostico.t) (fs : FS) :
  so_muda DIAGNOSTICOS_FILE fs (snd (criar_diagnostico amb d fs)).
Proof.
  unfold criar_diagnostico.
  destruct (carregar_dados fs DIAGNOSTICOS_FILE None) as [v|];
    [|apply so_muda_refl].
  destruct (py_append v (Diagnostico.dict d)) as [v'|]; [|apply so_muda_refl].
  pose proof (so_muda_salvar amb fs DIAGNOSTICOS_FILE v') as H.
  destruct (salvar_dados amb fs DIAGNOSTICOS_FILE v') as [[u|e] fs1]; exact H.
Qed.

Lemma criar_correcao_escreve (amb : Ambiente) (c : Correcao.t) (fs : FS) :
  so_muda CORRECOES_FILE fs (snd (criar_correcao amb c fs)).
Proof.
  unfold criar_correcao.
  destruct (carregar_dados fs CORRECOES_FILE None) as [v|];
    [|apply so_muda_refl].
  destruct (py_append v (Correcao.dict c)) as [v'|]; [|apply so_muda_refl].
  pose proof (so_muda_salvar amb fs CORRECOES_FILE v') as H.
  destruct (salvar_dados amb fs CORRECOES_FILE v') as [[u|e] fs1]; exact H.
Qed.

Lemma criar_sugestao_escreve (amb : Ambiente) (s : Sugestao.t) (fs : FS) :
  so_muda SUGESTOES_FILE fs (snd (criar_sugestao amb s fs)).
Proof.
  unfold criar_sugestao.
  destruct (carregar_dados fs SUGESTOES_FILE None) as [v|];
    [|apply so_muda_refl].
  destruct (py_append v (Sugestao.dict s)) as [v'|]; [|apply so_muda_refl].
  pose proof (so_muda_salvar amb fs SUGESTOES_FILE v') as H.
  destruct (salvar_dados amb fs SUGESTOES_FILE v') as [[u|e] fs1]; exact H.
Qed.

(** The five writing routes touch no file but their own collection's: after
    a create or an update, whether it answered or raised, every other file
    holds the bytes it held before, so the other collections load as
    before. *)
Theorem escrita_preserva_outros_arquivos
    (amb : Ambiente) (fs : FS) (arquivo : string) (t : Tarefa.t)
    (d : Diagnostico.t) (c : Correcao.t) (s : Sugestao.t)
    (tarefa_id : string) (u : list (string * json)) (now : string) :
  (arquivo <> TAREFAS_FILE ->
   snd (criar_tarefa amb t fs) !! arquivo = fs !! arquivo
   /\ snd (atualizar_tarefa amb tarefa_id u now fs) !! arquivo = fs !! arquivo)
  /\ (arquivo <> DIAGNOSTICOS_FILE ->
      snd (criar_diagnostico amb d fs) !! arquivo = fs !! arquivo)
  /\ (arquivo <> CORRECOES_FILE ->
      snd (criar_correcao amb c fs) !! arquivo = fs !! arquivo)
  /\ (arquivo <> SUGESTOES_FILE ->
      snd (criar_sugestao amb s fs) !! arquivo = fs !! arquivo).
Proof.
  split; [intros Hne; split | split; [|split]; intros Hne].
  - exact (criar_tarefa_escreve amb t fs arquivo Hne).
  - exact (atualizar_tarefa_escreve amb tarefa_id u now fs arquivo Hne).
  - exact (criar_diagnostico_escreve amb d fs arquivo Hne).
  - exact (criar_correcao_escreve amb c fs arquivo Hne).
  - exact (criar_sugestao_escreve amb s fs arquivo Hne).
Qed.

Lemma escrita_preserva_outros_arquivos_witness :
  snd (criar_tarefa ambiente_ex (tarefa_ex "t2") fs_ex) !! DIAGNOSTICOS_FILE
  = fs_ex !! DIAGNOSTICOS_FILE.
Proof.
  apply (proj1 (escrita_preserva_outros_arquivos
                  ambiente_ex fs_ex DIAGNOSTICOS_FILE (tarefa_ex "t2")
                  (Diagnostico.mk "d" "sistema" "x" "info" "t" None None)
                  (Correcao.init "u" "n"
                     (Correcao.mk_body None None "x" None None None None))
                  (Sugestao.init "u" "n"
                     (Sugestao.mk_body None "t" "x" "y" None None None None))
                  "t1" [] "2024-05-04T07:00:00")).
  discriminate.
Defined.

(** A list route reads its own collection only: a write to the tasks leaves
    the three other listings and every filter of them as they were. *)
Theorem escrita_de_tarefa_preserva_listagens
    (amb : Ambiente) (fs : FS) (t : Tarefa.t)
    (tarefa_id : string) (u : list (string * json)) (now : string)
    (a b : option string) (c : option bool) (limite : option Z) :
  let fs1 := snd (criar_tarefa amb t fs) in
  let fs2 := snd (atualizar_tarefa amb tarefa_id u now fs) in
  (listar_diagnosticos a b limite fs1 = listar_diagnosticos a b limite fs
   /\ listar_correcoes c a limite fs1 = listar_correcoes c a limite fs
   /\ listar_sugestoes a b c limite fs1 = listar_sugestoes a b c limite fs)
  /\ (listar_diagnosticos a b limite fs2 = listar_diagnosticos a b limite fs
      /\ listar_correcoes c a limite fs2 = listar_correcoes c a limite fs
      /\ listar_sugestoes a b c limite fs2 = listar_sugestoes a b c limite fs).
Proof.
  intros fs1 fs2.
  assert (H1 : forall arquivo, arquivo <> TAREFAS_FILE ->
                 carregar_dados fs1 arquivo None = carregar_dados fs arquivo None).
  { intros arquivo Hne. apply carregar_dados_mesmo_arquivo.
    exact (criar_tarefa_escreve amb t fs arquivo Hne). }
  assert (H2 : forall arquivo, arquivo <> TAREFAS_FILE ->
                 carregar_dados fs2 arquivo None = carregar_dados fs arquivo None).
  { intros arquivo Hne. apply carregar_dados_mesmo_arquivo.
    exact (atualizar_tarefa_escreve amb tarefa_id u now fs arquivo Hne). }
  unfold listar_diagnosticos, listar_correcoes, listar_sugestoes.
  rewrite !H1, !H2 by discriminate. repeat split; reflexivity.
Qed.

(** ** Reading one task *)

Lemma buscar_tarefa_sem_match (tarefa_id : string) (l : list json) :
  Forall (sem_id tarefa_id) l -> buscar_tarefa tarefa_id l = Ok None.
Proof.
  induction 1 as [|x l [Hd Hx] _ IH]; [reflexivity|].
  destruct x; try discriminate.
  cbn [buscar_tarefa]. rewrite py_get_dict. cbn [rbind].
  change (campo "id" (JDict kvs)) with (id_de (JDict kvs)).
  rewrite Hx. exact IH.
Qed.

Lemma buscar_tarefa_prefixo
    (tarefa_id : string) (pre : list json) (resto : list json) :
  Forall (sem_id tarefa_id) pre ->
  buscar_tarefa tarefa_id (pre ++ resto) = buscar_tarefa tarefa_id resto.
Proof.
  induction 1 as [|x l [Hd Hx] _ IH]; [reflexivity|].
  destruct x; try discriminate.
  change ((JDict kvs :: l) ++ resto)%list with (JDict kvs :: (l ++ resto))%list.
  cbn [buscar_tarefa]. rewrite py_get_dict. cbn [rbind].
  change (campo "id" (JDict kvs)) with (id_de (JDict kvs)).
  rewrite Hx. exact IH.
Qed.

(** [obter_tarefa] on a stored list: when no record has the id it raises
    404; otherwise it returns the first record with the id, as stored,
    whatever follows it; a stored item that is not a dict and comes before
    any match makes the route raise [AttributeError] instead. *)
Theorem obter_tarefa_primeira_ou_404
    (fs : FS) (l : list json) (tarefa_id : string) :
  carregar_dados fs TAREFAS_FILE None = Ok (JList l) ->
  (Forall (sem_id tarefa_id) l ->
   obter_tarefa tarefa_id fs = Raise (nao_encontrada tarefa_id))
  /\ (forall (pre post : list json) (x : json),
         l = (pre ++ x :: post)%list ->
         Forall (sem_id tarefa_id) pre ->
         (is_dict x = true -> id_de x = JStr tarefa_id ->
          obter_tarefa tarefa_id fs = Ok x)
         /\ (is_dict x = false ->
             obter_tarefa tarefa_id fs = Raise AttributeError)).
Proof.
  intros Hload. split.
  - intros Hno. unfold obter_tarefa. rewrite Hload. cbn [rbind py_iter].
    rewrite (buscar_tarefa_sem_match _ _ Hno). reflexivity.
  - intros pre post x -> Hpre. split.
    + intros Hd Hid. unfold obter_tarefa. rewrite Hload. cbn [rbind py_iter].
      rewrite (buscar_tarefa_prefixo _ _ _ Hpre).
      destruct x; try discriminate.
      cbn [buscar_tarefa]. rewrite py_get_dict. cbn [rbind].
      change (campo "id" (JDict kvs)) with (id_de (JDict kvs)).
      rewrite Hid, py_eq_str_refl. reflexivity.
    + intros Hd. unfold obter_tarefa. rewrite Hload. cbn [rbind py_iter].
      rewrite (buscar_tarefa_prefixo _ _ _ Hpre).
      destruct x; try discriminate; reflexivity.
Qed.

Lemma obter_tarefa_primeira_ou_404_witness :
  obter_tarefa "t9" fs_uma_tarefa = Raise (nao_encontrada "t9")
  /\ obter_tarefa "t1" fs_uma_tarefa = Ok (Tarefa.dict (tarefa_ex "t1")).
Proof.
  assert (Hload : carregar_dados fs_uma_tarefa TAREFAS_FILE None
                  = Ok (JList [Tarefa.dict (tarefa_ex "t1")]))
    by (vm_compute; reflexivity).
  split.
  - apply (proj1 (obter_tarefa_primeira_ou_404 fs_uma_tarefa _ "t9" Hload)).
    constructor; [split; vm_compute; reflexivity | constructor].
  - apply (proj1 (proj2 (obter_tarefa_primeira_ou_404 fs_uma_tarefa _ "t1" Hload)
                    [] [] (Tarefa.dict (tarefa_ex "t1")) eq_refl
                    (List.Forall_nil _)));
      vm_compute; reflexivity.
Defined.

(** ** Creating over a damaged collection *)

(** A file that holds text the decoder rejects. *)
Definition ilegivel (fs : FS) (arquivo : string) : Prop :=
  exists texto,
    fs !! arquivo = Some texto
    /\ utf8_valid texto = true
    /\ json_loads texto = Raise JSONDecodeError.

Lemma carregar_dados_de_ilegivel (fs : FS) (arquivo : string) :
  ilegivel fs arquivo -> carregar_dados fs arquivo None = Ok (JList []).
Proof.
  intros (texto & H & Hu & Hj).
  exact (carregar_dados_ilegivel fs arquivo texto H Hu Hj).
Qed.

(** Creating a record that can be written, when the collection's file holds
    text that is not JSON, succeeds and replaces the file by a collection of
    that one record: what the file held is lost. *)
Theorem criar_sobre_arquivo_ilegivel
    (amb : Ambiente) (fs : FS) (t : Tarefa.t) (d : Diagnostico.t)
    (c : Correcao.t) (s : Sugestao.t) :
  (ilegivel fs TAREFAS_FILE ->
   gravavel amb (JList [Tarefa.dict t]) = true ->
   criar_tarefa amb t fs
   = (Ok t, <[TAREFAS_FILE := json_dumps (JList [Tarefa.dict t])]> fs))
  /\ (ilegivel fs DIAGNOSTICOS_FILE ->
      gravavel amb (JList [Diagnostico.dict d]) = true ->
      criar_diagnostico amb d fs
      = (Ok d,
         <[DIAGNOSTICOS_FILE := json_dumps (JList [Diagnostico.dict d])]> fs))
  /\ (ilegivel fs CORRECOES_FILE ->
      gravavel amb (JList [Correcao.dict c]) = true ->
      criar_correcao amb c fs
      = (Ok c, <[CORRECOES_FILE := json_dumps (JList [Correcao.dict c])]> fs))
  /\ (ilegivel fs SUGESTOES_FILE ->
      gravavel amb (JList [Sugestao.dict s]) = true ->
      criar_sugestao amb s fs
      = (Ok s, <[SUGESTOES_FILE := json_dumps (JList [Sugestao.dict s])]> fs)).
Proof.
  split; [|split; [|split]]; intros H Hg;
    apply carregar_dados_de_ilegivel in H.
  - exact (criar_tarefa_ok amb fs [] t H Hg).
  - exact (criar_diagnostico_ok amb fs [] d H Hg).
  - exact (criar_correcao_ok amb fs [] c H Hg).
  - exact (criar_sugestao_ok amb fs [] s H Hg).
Qed.

Lemma criar_sobre_arquivo_ilegivel_witness :
  criar_tarefa ambiente_ex (tarefa_ex "t1") (<[TAREFAS_FILE := "[1, 2"]> ∅)
  = (Ok (tarefa_ex "t1"),
     <[TAREFAS_FILE := json_dumps (JList [Tarefa.dict (tarefa_ex "t1")])]>
       (<[TAREFAS_FILE := "[1, 2"]> ∅)).
Proof.
  assert (Hi : ilegivel (<[TAREFAS_FILE := "[1, 2"]> ∅) TAREFAS_FILE)
    by (exists "[1, 2"; repeat split; vm_compute; reflexivity).
  assert (Hg : gravavel ambiente_ex (JList [Tarefa.dict (tarefa_ex "t1")])
               = true) by (vm_compute; reflexivity).
  exact (proj1 (criar_sobre_arquivo_ilegivel ambiente_ex
                  (<[TAREFAS_FILE := "[1, 2"]> ∅) (tarefa_ex "t1")
                  (Diagnostico.mk "d" "sistema" "x" "info" "t" None None)
                  (Correcao.init "u" "n"
                     (Correcao.mk_body None None "x" None None None None))
                  (Sugestao.init "u" "n"
                     (Sugestao.mk_body None "t" "x" "y" None None None None)))
           Hi Hg).
Defined.

(** ** What a write route leaves when it raises *)





(** ** The order of a listing *)

(** *** Insertion sort orders its input

    [lt] is the comparison the sort uses, [P] the keys it is run on.  On
    such keys [lt] must behave as a strict weak order; [nao_depois a b],
    that [b < a] is false, is then the order of the result. *)

Section SortOrder.
Context {K : Type} (lt : K -> K -> result bool) (P : K -> Prop).

Definition nao_depois (a b : K) : Prop := ltb_key lt b a = false.

Definition por_chave (R : K -> K -> Prop) (x y : K * json) : Prop :=
  R (fst x) (fst y).

Hypothesis lt_assimetrica :
  forall a b, P a -> P b -> ltb_key lt a b = true -> ltb_key lt b a = false.
Hypothesis nao_depois_trans :
  forall a b c, P a -> P b -> P c ->
                nao_depois a b -> nao_depois b c -> nao_depois a c.

Lemma insert_sorted_ordenado (x : K * json) (l : list (K * json)) :
  P (fst x) ->
  Forall (fun y => P (fst y)) l ->
  StronglySorted (por_chave nao_depois) l ->
  StronglySorted (por_chave nao_depois) (insert_sorted lt x l).
Proof.
  intros Hx Hl Hs. induction l as [|y l IH]; cbn [insert_sorted].
  - constructor; constructor.
  - apply StronglySorted_inv in Hs as [Hs Hy].
    pose proof (List.Forall_inv Hl) as Py.
    pose proof (List.Forall_inv_tail Hl) as Pl.
    destruct (ltb_key lt (fst y) (fst x)) eqn:E.
    + constructor; [apply IH; assumption|].
      apply (Forall_perm _ _ (x :: l) (insert_sorted_perm lt x l)).
      constructor; [|exact Hy].
      unfold por_chave, nao_depois. apply lt_assimetrica; assumption.
    + constructor; [constructor; assumption|].
      constructor; [exact E|].
      rewrite List.Forall_forall in *. intros z Hz.
      apply (nao_depois_trans (fst x) (fst y) (fst z));
        [exact Hx | exact Py | apply Pl, Hz | exact E | apply Hy, Hz].
Qed.

Lemma stable_sort_ordenado (l : list (K * json)) :
  Forall (fun y => P (fst y)) l ->
  StronglySorted (por_chave nao_depois) (stable_sort lt l).
Proof.
  induction 1 as [|x l Hx Hl IH]; cbn [stable_sort fold_right];
    [constructor|].
  apply insert_sorted_ordenado; [exact Hx | | exact IH].
  apply (Forall_perm _ _ l (stable_sort_perm lt l)). exact Hl.
Qed.
End SortOrder.

(** *** Sorted lists: reversal, prefixes, change of relation *)

Lemma StronglySorted_snoc {A} (R : A -> A -> Prop) (l : list A) (a : A) :
  StronglySorted R l -> Forall (fun x => R x a) l ->
  StronglySorted R (l ++ [a])%list.
Proof.
  induction 1 as [|x l Hs IH Hx]; intros Ha; cbn [app].
  - constructor; constructor.
  - constructor.
    + apply IH. exact (List.Forall_inv_tail Ha).
    + apply List.Forall_app. split; [exact Hx|].
      constructor; [exact (List.Forall_inv Ha) | constructor].
Qed.

Lemma StronglySorted_rev {A} (R : A -> A -> Prop) (l : list A) :
  StronglySorted R l -> StronglySorted (fun x y => R y x) (rev l).
Proof.
  induction 1 as [|x l Hs IH Hx]; cbn [rev]; [constructor|].
  apply StronglySorted_snoc; [exact IH|].
  rewrite List.Forall_forall in *. intros z Hz. apply Hx.
  apply List.in_rev. exact Hz.
Qed.

Lemma StronglySorted_firstn {A} (R : A -> A -> Prop) (n : nat) (l : list A) :
  StronglySorted R l -> StronglySorted R (firstn n l).
Proof.
  intros H. revert n. induction H as [|x l Hs IH Hx]; intros [|n];
    cbn [firstn]; try constructor.
  - apply IH.
  - apply Forall_firstn. exact Hx.
Qed.

Lemma StronglySorted_troca {A} (R R' : A -> A -> Prop) (Q : A -> Prop)
    (l : list A) :
  (forall x y, Q x -> Q y -> R x y -> R' x y) ->
  Forall Q l -> StronglySorted R l -> StronglySorted R' l.
Proof.
  intros HR Hq Hs. induction Hs as [|x l Hs IH Hx]; [constructor|].
  pose proof (List.Forall_inv Hq) as Qx.
  pose proof (List.Forall_inv_tail Hq) as Ql.
  constructor; [apply IH; exact Ql|].
  rewrite List.Forall_forall in *. intros z Hz.
  apply HR; [exact Qx | apply Ql, Hz | apply Hx, Hz].
Qed.

(** *** From decorated pairs to records *)

(** [x] and [y] have keys, and the keys are related by [R]. *)
Definition ordem {K} (key : json -> result K) (R : K -> K -> Prop)
    (x y : json) : Prop :=
  exists kx ky, key x = Ok kx /\ key y = Ok ky /\ R kx ky.

Definition decorado {K} (key : json -> result K) (p : K * json) : Prop :=
  key (snd p) = Ok (fst p).

Lemma combine_decorado {K} (key : json -> result K) (l : list json)
    (ks : list K) :
  rmap key l = Ok ks ->
  Forall (decorado key) (combine ks l) /\ map fst (combine ks l) = ks.
Proof.
  revert ks. induction l as [|x l IH]; intros ks H; cbn [rmap] in H.
  - injection H as <-. split; [constructor | reflexivity].
  - destruct (key x) as [k|] eqn:Ek; [|discriminate].
    destruct (rmap key l) as [ks'|]; [|discriminate].
    injection H as <-. destruct (IH ks' eq_refl) as [Hd Hf].
    cbn [combine map fst]. split; [|rewrite Hf; reflexivity].
    constructor; [exact Ek | exact Hd].
Qed.

Lemma ordem_dos_decorados {K} (key : json -> result K) (R : K -> K -> Prop)
    (dec : list (K * json)) :
  Forall (decorado key) dec ->
  StronglySorted (fun x y => R (fst x) (fst y)) dec ->
  StronglySorted (ordem key R) (map snd dec).
Proof.
  intros Hd Hs. induction Hs as [|p dec Hs IH Hp]; cbn [map]; [constructor|].
  pose proof (List.Forall_inv Hd) as Dp.
  pose proof (List.Forall_inv_tail Hd) as Dl.
  constructor; [apply IH; exact Dl|].
  apply List.Forall_map. rewrite List.Forall_forall in *. intros q Hq.
  exists (fst p), (fst q). repeat split; [exact Dp | apply Dl, Hq | apply Hp, Hq].
Qed.

(** The direction of a listing: with [reverse=True] each record comes
    before the records that are not after it in the order. *)
Definition sentido {A} (reverse : bool) (R : A -> A -> Prop) (x y : A) : Prop :=
  if reverse then R y x else R x y.

Section ListSortOrder.
Context {K : Type} (lt : K -> K -> result bool) (P : K -> Prop)
        (R : K -> K -> Prop).
Hypothesis lt_assimetrica :
  forall a b, P a -> P b -> ltb_key lt a b = true -> ltb_key lt b a = false.
Hypothesis nao_depois_trans :
  forall a b c, P a -> P b -> P c ->
                nao_depois lt a b -> nao_depois lt b c -> nao_depois lt a c.
Hypothesis nao_depois_R :
  forall a b, P a -> P b -> nao_depois lt a b -> R a b.

Lemma list_sort_ordenado (key : json -> result K) (reverse : bool)
    (l s : list json) (ks : list K) :
  rmap key l = Ok ks ->
  Forall P ks ->
  list_sort lt key reverse l = Ok s ->
  StronglySorted (sentido reverse (ordem key R)) s.
Proof.
  intros Hk HP Hs. unfold list_sort in Hs. rewrite Hk in Hs. cbn [rbind] in Hs.
  destruct (pairwise_comparable lt ks); [|discriminate].
  injection Hs as <-.
  destruct (combine_decorado key l ks Hk) as [Hd Hf].
  assert (HPd : Forall (fun y => P (fst y)) (combine ks l)).
  { apply List.Forall_map. rewrite Hf. exact HP. }
  destruct reverse; unfold sentido.
  - rewrite List.map_rev.
    apply (StronglySorted_rev (ordem key R)).
    apply ordem_dos_decorados.
    + apply (Forall_perm _ _ (rev (combine ks l)) (stable_sort_perm lt _)).
      apply (Forall_perm _ _ (combine ks l));
        [symmetry; apply Permutation_rev | exact Hd].
    + apply (StronglySorted_troca (por_chave (nao_depois lt)) _
               (fun y => P (fst y))).
      * intros x y Px Py. apply nao_depois_R; assumption.
      * apply (Forall_perm _ _ (rev (combine ks l)) (stable_sort_perm lt _)).
        apply (Forall_perm _ _ (combine ks l));
          [symmetry; apply Permutation_rev | exact HPd].
      * apply (stable_sort_ordenado lt P lt_assimetrica nao_depois_trans).
        apply (Forall_perm _ _ (combine ks l));
          [symmetry; apply Permutation_rev | exact HPd].
  - apply ordem_dos_decorados.
    + apply (Forall_perm _ _ (combine ks l) (stable_sort_perm lt _)). exact Hd.
    + apply (StronglySorted_troca (por_chave (nao_depois lt)) _
               (fun y => P (fst y))).
      * intros x y Px Py. apply nao_depois_R; assumption.
      * apply (Forall_perm _ _ (combine ks l) (stable_sort_perm lt _)).
        exact HPd.
      * apply (stable_sort_ordenado lt P lt_assimetrica nao_depois_trans).
        exact HPd.
Qed.
End ListSortOrder.

(** *** The order of strings and of (rank, timestamp) keys *)

Lemma str_compare_refl (s : string) : String.compare s s = Eq.
Proof. apply OrderedTypeEx.String_as_OT.cmp_eq. reflexivity. Qed.

Lemma str_ltb_assimetrica (s t : string) :
  String.ltb s t = true -> String.ltb t s = false.
Proof.
  unfold String.ltb. rewrite (String.compare_antisym t s).
  destruct (String.compare s t); simpl; congruence.
Qed.

Lemma str_ltb_leb (s t : string) :
  String.ltb t s = false <-> String.leb s t = true.
Proof.
  unfold String.ltb, String.leb. rewrite (String.compare_antisym t s).
  destruct (String.compare s t); simpl; split; congruence.
Qed.

Lemma str_leb_trans (s t u : string) :
  String.leb s t = true -> String.leb t u = true -> String.leb s u = true.
Proof.
  unfold String.leb.
  destruct (String.compare s t) eqn:E1; try discriminate;
    destruct (String.compare t u) eqn:E2; try discriminate; intros _ _.
  - apply String.compare_eq_iff in E1. subst. rewrite E2. reflexivity.
  - apply String.compare_eq_iff in E1. subst. rewrite E2. reflexivity.
  - apply String.compare_eq_iff in E2. subst. rewrite E1. reflexivity.
  - apply OrderedTypeEx.String_as_OT.cmp_lt in E1, E2.
    pose proof (OrderedTypeEx.String_as_OT.lt_trans _ _ _ E1 E2) as H.
    apply OrderedTypeEx.String_as_OT.cmp_lt in H.
    unfold OrderedTypeEx.String_as_OT.cmp in H. rewrite H. reflexivity.
Qed.

Lemma py_eq_strs (s t : string) : py_eq (JStr s) (JStr t) = String.eqb s t.
Proof. reflexivity. Qed.

(** The lexicographic order of the keys of the ranked listings: by rank,
    then by timestamp as text. *)
Definition chave_le (a b : Z * json) : Prop :=
  fst a < fst b
  \/ (fst a = fst b
      /\ exists s t, snd a = JStr s /\ snd b = JStr t
                     /\ String.leb s t = true).

(** The order of the keys of [listar_correcoes]: timestamps as text. *)
Definition texto_le (a b : json) : Prop :=
  exists s t, a = JStr s /\ b = JStr t /\ String.leb s t = true.

Definition chave_str (k : Z * json) : Prop := is_str (snd k) = true.
Definition e_str (k : json) : Prop := is_str k = true.

Lemma ltb_key_tuple (r1 r2 : Z) (s1 s2 : string) :
  ltb_key tuple_lt (r1, JStr s1) (r2, JStr s2)
  = if r1 =? r2 then String.ltb s1 s2 else r1 <? r2.
Proof.
  unfold ltb_key, tuple_lt. cbn [fst snd]. rewrite py_eq_strs.
  destruct (r1 =? r2); cbn [negb]; [|reflexivity].
  destruct (String.eqb_spec s1 s2) as [->|Hne]; [|reflexivity].
  unfold String.ltb. rewrite str_compare_refl. reflexivity.
Qed.

Lemma nao_depois_chave_le (a b : Z * json) :
  chave_str a -> chave_str b ->
  (nao_depois tuple_lt a b <-> chave_le a b).
Proof.
  destruct a as [r1 t1], b as [r2 t2]. unfold chave_str, nao_depois, chave_le.
  cbn [fst snd]. destruct t1 as [| | |s1| |]; try discriminate.
  destruct t2 as [| | |s2| |]; try discriminate. intros _ _.
  rewrite ltb_key_tuple. destruct (Z.eqb_spec r2 r1) as [->|Hne].
  - rewrite str_ltb_leb. split.
    + intros H. right. split; [reflexivity|]. exists s1, s2. auto.
    + intros [H|[_ (s & t & [= ->] & [= ->] & H)]]; [lia | exact H].
  - rewrite Z.ltb_ge. split.
    + intros H. left. lia.
    + intros [H|[H _]]; lia.
Qed.

Lemma chave_le_trans (a b c : Z * json) :
  chave_le a b -> chave_le b c -> chave_le a c.
Proof.
  unfold chave_le.
  intros [H1|[E1 (s1 & t1 & Ha & Hb & L1)]] [H2|[E2 (s2 & t2 & Hb' & Hc & L2)]];
    try (left; lia).
  right. split; [lia|]. exists s1, t2. repeat split; try assumption.
  rewrite Hb in Hb'. injection Hb' as ->.
  exact (str_leb_trans _ _ _ L1 L2).
Qed.

Lemma tuple_lt_assimetrica (a b : Z * json) :
  chave_str a -> chave_str b ->
  ltb_key tuple_lt a b = true -> ltb_key tuple_lt b a = false.
Proof.
  destruct a as [r1 t1], b as [r2 t2]. unfold chave_str. cbn [fst snd].
  destruct t1 as [| | |s1| |]; try discriminate.
  destruct t2 as [| | |s2| |]; try discriminate. intros _ _.
  rewrite !ltb_key_tuple.
  destruct (Z.eqb_spec r1 r2) as [->|Hne].
  - rewrite Z.eqb_refl. apply str_ltb_assimetrica.
  - destruct (Z.eqb_spec r2 r1) as [->|_]; [congruence|].
    rewrite Z.ltb_lt, Z.ltb_ge. lia.
Qed.

Lemma tuple_nao_depois_trans (a b c : Z * json) :
  chave_str a -> chave_str b -> chave_str c ->
  nao_depois tuple_lt a b -> nao_depois tuple_lt b c ->
  nao_depois tuple_lt a c.
Proof.
  intros Pa Pb Pc H1 H2.
  apply nao_depois_chave_le in H1, H2; try assumption.
  apply nao_depois_chave_le; try assumption.
  exact (chave_le_trans _ _ _ H1 H2).
Qed.

Lemma nao_depois_texto_le (a b : json) :
  e_str a -> e_str b -> (nao_depois py_lt a b <-> texto_le a b).
Proof.
  unfold e_str, nao_depois, texto_le.
  destruct a as [| | |s1| |]; try discriminate.
  destruct b as [| | |s2| |]; try discriminate. intros _ _.
  change (ltb_key py_lt (JStr s2) (JStr s1)) with (String.ltb s2 s1).
  rewrite str_ltb_leb. split.
  - intros H. exists s1, s2. auto.
  - intros (s & t & [= ->] & [= ->] & H). exact H.
Qed.

Lemma py_lt_assimetrica (a b : json) :
  e_str a -> e_str b ->
  ltb_key py_lt a b = true -> ltb_key py_lt b a = false.
Proof.
  unfold e_str.
  destruct a as [| | |s1| |]; try discriminate.
  destruct b as [| | |s2| |]; try discriminate. intros _ _.
  apply str_ltb_assimetrica.
Qed.

Lemma py_lt_nao_depois_trans (a b c : json) :
  e_str a -> e_str b -> e_str c ->
  nao_depois py_lt a b -> nao_depois py_lt b c -> nao_depois py_lt a c.
Proof.
  intros Pa Pb Pc H1 H2.
  apply nao_depois_texto_le in H1, H2; try assumption.
  apply nao_depois_texto_le; try assumption.
  destruct H1 as (s1 & t1 & -> & -> & L1), H2 as (s2 & t2 & [= <-] & -> & L2).
  exists s1, t2. repeat split. exact (str_leb_trans _ _ _ L1 L2).
Qed.

(** *** The four listings are ordered *)

Lemma py_sort_rank_ordenado (cr dv : string) (tabela : list (string * Z))
    (dr : Z) (ct : string) (reverse : bool) (l s : list json) :
  Forall (fun x => ordenavel cr ct x = true) l ->
  py_sort tuple_lt (chave_rank cr dv tabela dr ct) reverse (JList l) = Ok s ->
  StronglySorted
    (sentido reverse (ordem (chave_rank cr dv tabela dr ct) chave_le)) s.
Proof.
  intros Hl Hs.
  destruct (rmap_chave_rank cr dv tabela dr ct l Hl) as (ks & Hks & Fks).
  exact (list_sort_ordenado tuple_lt chave_str chave_le
           tuple_lt_assimetrica tuple_nao_depois_trans
           (fun a b Pa Pb => proj1 (nao_depois_chave_le a b Pa Pb))
           _ reverse l s ks Hks Fks Hs).
Qed.

Lemma py_sort_correcoes_ordenado (l s : list json) :
  Forall (fun x => ordenavel_ts "timestamp" x = true) l ->
  py_sort py_lt chave_correcao true (JList l) = Ok s ->
  StronglySorted (sentido true (ordem chave_correcao texto_le)) s.
Proof.
  intros Hl Hs.
  destruct (rmap_chave_correcao l Hl) as (ks & Hks & Fks).
  exact (list_sort_ordenado py_lt e_str texto_le
           py_lt_assimetrica py_lt_nao_depois_trans
           (fun a b Pa Pb => proj1 (nao_depois_texto_le a b Pa Pb))
           _ true l s ks Hks Fks Hs).
Qed.

(** ** Filter, sort, truncate *)

(** C9. On a stored collection of records, every list route, for every
    combination of filters and every [limite] between 1 and 1000 (100 when
    absent), keeps the records that match all the supplied filters, sorts
    them, and returns the first [limite] of them: at most [limite] records.
    The sorted records are a permutation of the retained ones and are in
    the order of the route: ascending in (priority rank, timestamp) for
    tasks and suggestions, descending in (severity rank, timestamp) for
    diagnostics, descending in the timestamp for fixes.  A route is a
    function of its arguments and of the store, which it does not change,
    so equal calls give equal answers. *)
Theorem listar_filtra_ordena_trunca
    (fs : FS) (ts ds cs ss : list json) (limite : option Z) :
  carregar_dados fs TAREFAS_FILE None = Ok (JList ts) ->
  carregar_dados fs DIAGNOSTICOS_FILE None = Ok (JList ds) ->
  carregar_dados fs CORRECOES_FILE None = Ok (JList cs) ->
  carregar_dados fs SUGESTOES_FILE None = Ok (JList ss) ->
  Forall (fun x => ordenavel "prioridade" "timestamp_criacao" x = true) ts ->
  Forall (fun x => ordenavel "severidade" "timestamp" x = true) ds ->
  Forall (fun x => ordenavel_ts "timestamp" x = true) cs ->
  Forall (fun x => ordenavel "prioridade" "timestamp" x = true) ss ->
  limite_valido limite ->
  let n := or_default limite 100 in
  (forall estado agente prioridade,
      filtra_ordena_trunca
        (sentido false (ordem chave_tarefa chave_le))
        (listar_tarefas estado agente prioridade limite fs)
        (py_sort tuple_lt chave_tarefa false
           (JList (tarefas_filtradas estado agente prioridade ts)))
        (tarefas_filtradas estado agente prioridade ts) n)
  /\ (forall tipo severidade,
         filtra_ordena_trunca
           (sentido true (ordem chave_diagnostico chave_le))
           (listar_diagnosticos tipo severidade limite fs)
           (py_sort tuple_lt chave_diagnostico true
              (JList (diagnosticos_filtrados tipo severidade ds)))
           (diagnosticos_filtrados tipo severidade ds) n)
  /\ (forall aplicada diagnostico_id,
         filtra_ordena_trunca
           (sentido true (ordem chave_correcao texto_le))
           (listar_correcoes aplicada diagnostico_id limite fs)
           (py_sort py_lt chave_correcao true
              (JList (correcoes_filtradas aplicada diagnostico_id cs)))
           (correcoes_filtradas aplicada diagnostico_id cs) n)
  /\ (forall tipo prioridade implementada,
         filtra_ordena_trunca
           (sentido false (ordem chave_sugestao chave_le))
           (listar_sugestoes tipo prioridade implementada limite fs)
           (py_sort tuple_lt chave_sugestao false
              (JList (sugestoes_filtradas tipo prioridade implementada ss)))
           (sugestoes_filtradas tipo prioridade implementada ss) n).
Proof.
  intros Ht Hd Hc Hs Fts Fds Fcs Fss Hlim n.
  pose proof (proj2 (query_int_valido limite Hlim)) as [Hn _].
  split; [|split; [|split]]; intros.
  - destruct (listar_tarefas_forma fs ts estado agente prioridade limite
                Ht Fts Hlim) as (s & H1 & H2 & H3).
    exists s. repeat split; auto using firstn_limite.
    apply (py_sort_rank_ordenado "prioridade" "normal" prioridade_tarefa 2
             "timestamp_criacao" false
             (tarefas_filtradas estado agente prioridade ts) s); [|exact H1].
    unfold tarefas_filtradas. repeat apply Forall_filter_bool. exact Fts.
  - destruct (listar_diagnosticos_forma fs ds tipo severidade limite
                Hd Fds Hlim) as (s & H1 & H2 & H3).
    exists s. repeat split; auto using firstn_limite.
    apply (py_sort_rank_ordenado "severidade" "info" rank_severidade 3
             "timestamp" true (diagnosticos_filtrados tipo severidade ds) s);
      [|exact H1].
    unfold diagnosticos_filtrados. repeat apply Forall_filter_bool. exact Fds.
  - destruct (listar_correcoes_forma fs cs aplicada diagnostico_id limite
                Hc Fcs Hlim) as (s & H1 & H2 & H3).
    exists s. repeat split; auto using firstn_limite.
    apply (py_sort_correcoes_ordenado
             (correcoes_filtradas aplicada diagnostico_id cs) s); [|exact H1].
    unfold correcoes_filtradas. repeat apply Forall_filter_bool. exact Fcs.
  - destruct (listar_sugestoes_forma fs ss tipo prioridade implementada limite
                Hs Fss Hlim) as (s & H1 & H2 & H3).
    exists s. repeat split; auto using firstn_limite.
    apply (py_sort_rank_ordenado "prioridade" "media" prioridade_sugestao 1
             "timestamp" false
             (sugestoes_filtradas tipo prioridade implementada ss) s);
      [|exact H1].
    unfold sugestoes_filtradas. repeat apply Forall_filter_bool. exact Fss.
Qed.

(** Of the five stored tasks the four pending ones are kept, the sort moves
    [t3] to the front, and [limite=3] cuts [t5] off; the four diagnostics
    are sorted from rank 3 down, and [limite=3] cuts [e2] off. *)
Lemma listar_filtra_ordena_trunca_witness :
  (filtra_ordena_trunca
     (sentido false (ordem chave_tarefa chave_le))
     (listar_tarefas (Some "pendente") None None (Some 3) fs_listagem)
     (py_sort tuple_lt chave_tarefa false
        (JList (tarefas_filtradas (Some "pendente") None None
                  tarefas_listagem)))
     (tarefas_filtradas (Some "pendente") None None tarefas_listagem) 3
   /\ listar_tarefas (Some "pendente") None None (Some 3) fs_listagem
      = Ok [tarefa_de "t3" "pendente" "critica" "2024-05-02T11:00:00";
            tarefa_de "t1" "pendente" "normal" "2024-05-02T09:00:00";
            tarefa_de "t4" "pendente" "normal" "2024-05-02T09:00:00"])
  /\ (filtra_ordena_trunca
        (sentido true (ordem chave_diagnostico chave_le))
        (listar_diagnosticos None None (Some 3) fs_listagem)
        (py_sort tuple_lt chave_diagnostico true
           (JList (diagnosticos_filtrados None None diagnosticos_listagem)))
        (diagnosticos_filtrados None None diagnosticos_listagem) 3
      /\ listar_diagnosticos None None (Some 3) fs_listagem
         = Ok [diagnostico_ex "e4" "info" "2024-05-01T10:00:00";
               diagnostico_ex "e1" "erro" "2024-05-01T12:00:00";
               diagnostico_ex "e3" "erro" "2024-05-01T12:00:00"]).
Proof.
  assert (Ht : carregar_dados fs_listagem TAREFAS_FILE None
               = Ok (JList tarefas_listagem)) by (vm_compute; reflexivity).
  assert (Hd : carregar_dados fs_listagem DIAGNOSTICOS_FILE None
               = Ok (JList diagnosticos_listagem))
    by (vm_compute; reflexivity).
  assert (Hc : carregar_dados fs_listagem CORRECOES_FILE None = Ok (JList []))
    by (vm_compute; reflexivity).
  assert (Hs : carregar_dados fs_listagem SUGESTOES_FILE None = Ok (JList []))
    by (vm_compute; reflexivity).
  assert (Fts : Forall (fun x => ordenavel "prioridade" "timestamp_criacao" x
                                 = true) tarefas_listagem)
    by (repeat constructor).
  assert (Fds : Forall (fun x => ordenavel "severidade" "timestamp" x = true)
                  diagnosticos_listagem)
    by (repeat constructor).
  assert (Hlim : limite_valido (Some 3)) by (simpl; lia).
  destruct (listar_filtra_ordena_trunca fs_listagem tarefas_listagem
              diagnosticos_listagem [] [] (Some 3) Ht Hd Hc Hs Fts Fds
              (List.Forall_nil _) (List.Forall_nil _) Hlim)
    as (H1 & H2 & _).
  split; (split; [|vm_compute; reflexivity]).
  - exact (H1 (Some "pendente") None None).
  - exact (H2 None None).
Defined.

(** [listar_tarefas] answers in ascending order of (priority rank,
    [timestamp_criacao]): in the answer no record comes before a record of
    smaller rank, nor before one of the same rank and an earlier timestamp,
    timestamps compared as text. *)
Theorem listar_tarefas_ordenada (fs : FS) (l : list json)
    (estado agente prioridade : option string) (limite : option Z) :
  carregar_dados fs TAREFAS_FILE None = Ok (JList l) ->
  Forall (fun x => ordenavel "prioridade" "timestamp_criacao" x = true) l ->
  limite_valido limite ->
  exists s,
    listar_tarefas estado agente prioridade limite fs = Ok s
    /\ StronglySorted (ordem chave_tarefa chave_le) s.
Proof.
  intros Hload Hl Hlim.
  destruct (listar_tarefas_forma fs l estado agente prioridade limite
              Hload Hl Hlim) as (s & Hs & _ & Hr).
  eexists. split; [exact Hr|]. apply StronglySorted_firstn.
  apply (py_sort_rank_ordenado "prioridade" "normal" prioridade_tarefa 2
           "timestamp_criacao" false
           (tarefas_filtradas estado agente prioridade l) s); [|exact Hs].
  unfold tarefas_filtradas. repeat apply Forall_filter_bool. exact Hl.
Qed.

Lemma listar_tarefas_ordenada_witness :
  exists s,
    listar_tarefas None None None None fs_ex = Ok s
    /\ StronglySorted (ordem chave_tarefa chave_le) s.
Proof.
  apply (listar_tarefas_ordenada fs_ex tarefas_ex None None None None).
  - vm_compute. reflexivity.
  - repeat constructor.
  - exact I.
Defined.

(** [listar_diagnosticos] answers in descending order of (severity rank,
    [timestamp]): every record is followed only by records whose rank is
    smaller, or equal with a timestamp that is not later.  With the ranks of
    the source, [info] (rank 3) comes first and [critico] (rank 0) last. *)
Theorem listar_diagnosticos_ordenada (fs : FS) (l : list json)
    (tipo severidade : option string) (limite : option Z) :
  carregar_dados fs DIAGNOSTICOS_FILE None = Ok (JList l) ->
  Forall (fun x => ordenavel "severidade" "timestamp" x = true) l ->
  limite_valido limite ->
  exists s,
    listar_diagnosticos tipo severidade limite fs = Ok s
    /\ StronglySorted (fun x y => ordem chave_diagnostico chave_le y x) s.
Proof.
  intros Hload Hl Hlim.
  destruct (listar_diagnosticos_forma fs l tipo severidade limite
              Hload Hl Hlim) as (s & Hs & _ & Hr).
  eexists. split; [exact Hr|]. apply StronglySorted_firstn.
  apply (py_sort_rank_ordenado "severidade" "info" rank_severidade 3
           "timestamp" true (diagnosticos_filtrados tipo severidade l) s);
    [|exact Hs].
  unfold diagnosticos_filtrados. repeat apply Forall_filter_bool. exact Hl.
Qed.

Lemma listar_diagnosticos_ordenada_witness :
  exists s,
    listar_diagnosticos None None None fs_ex = Ok s
    /\ StronglySorted (fun x y => ordem chave_diagnostico chave_le y x) s.
Proof.
  apply (listar_diagnosticos_ordenada fs_ex [d_info; d_critico; d_erro]
           None None None).
  - vm_compute. reflexivity.
  - repeat constructor.
  - exact I.
Defined.

(** [listar_correcoes] answers newest first: every record is followed only
    by records whose [timestamp], as text, is not later. *)
Theorem listar_correcoes_ordenada (fs : FS) (l : list json)
    (aplicada : option bool) (diagnostico_id : option string)
    (limite : option Z) :
  carregar_dados fs CORRECOES_FILE None = Ok (JList l) ->
  Forall (fun x => ordenavel_ts "timestamp" x = true) l ->
  limite_valido limite ->
  exists s,
    listar_correcoes aplicada diagnostico_id limite fs = Ok s
    /\ StronglySorted (fun x y => ordem chave_correcao texto_le y x) s.
Proof.
  intros Hload Hl Hlim.
  destruct (listar_correcoes_forma fs l aplicada diagnostico_id limite
              Hload Hl Hlim) as (s & Hs & _ & Hr).
  eexists. split; [exact Hr|]. apply StronglySorted_firstn.
  apply (py_sort_correcoes_ordenado
           (correcoes_filtradas aplicada diagnostico_id l) s); [|exact Hs].
  unfold correcoes_filtradas. repeat apply Forall_filter_bool. exact Hl.
Qed.

Lemma listar_correcoes_ordenada_witness :
  exists s,
    listar_correcoes None None None fs_ex = Ok s
    /\ StronglySorted (fun x y => ordem chave_correcao texto_le y x) s.
Proof.
  apply (listar_correcoes_ordenada fs_ex correcoes_ex None None None).
  - vm_compute. reflexivity.
  - repeat constructor.
  - exact I.
Defined.

(** [listar_sugestoes] answers in ascending order of (priority rank,
    [timestamp]). *)
Theorem listar_sugestoes_ordenada (fs : FS) (l : list json)
    (tipo prioridade : option string) (implementada : option bool)
    (limite : option Z) :
  carregar_dados fs SUGESTOES_FILE None = Ok (JList l) ->
  Forall (fun x => ordenavel "prioridade" "timestamp" x = true) l ->
  limite_valido limite ->
  exists s,
    listar_sugestoes tipo prioridade implementada limite fs = Ok s
    /\ StronglySorted (ordem chave_sugestao chave_le) s.
Proof.
  intros Hload Hl Hlim.
  destruct (listar_sugestoes_forma fs l tipo prioridade implementada limite
              Hload Hl Hlim) as (s & Hs & _ & Hr).
  eexists. split; [exact Hr|]. apply StronglySorted_firstn.
  apply (py_sort_rank_ordenado "prioridade" "media" prioridade_sugestao 1
           "timestamp" false
           (sugestoes_filtradas tipo prioridade implementada l) s);
    [|exact Hs].
  unfold sugestoes_filtradas. repeat apply Forall_filter_bool. exact Hl.
Qed.

Lemma listar_sugestoes_ordenada_witness :
  exists s,
    listar_sugestoes None None None None fs_ex = Ok s
    /\ StronglySorted (ordem chave_sugestao chave_le) s.
Proof.
  apply (listar_sugestoes_ordenada fs_ex sugestoes_ex None None None None).
  - vm_compute. reflexivity.
  - repeat constructor.
  - exact I.
Defined.

(** ** Writing, then reading *)

Lemma obter_tarefa_match (fs : FS) (pre post : list json) (x : json)
    (tarefa_id : string) :
  carregar_dados fs TAREFAS_FILE None = Ok (JList (pre ++ x :: post)) ->
  Forall (sem_id tarefa_id) pre ->
  is_dict x = true ->
  id_de x = JStr tarefa_id ->
  obter_tarefa tarefa_id fs = Ok x.
Proof.
  intros Hload Hpre Hd Hid. unfold obter_tarefa. rewrite Hload.
  cbn [rbind py_iter]. rewrite (buscar_tarefa_prefixo _ _ _ Hpre).
  destruct x; try discriminate.
  cbn [buscar_tarefa]. rewrite py_get_dict. cbn [rbind].
  change (campo "id" (JDict kvs)) with (id_de (JDict kvs)).
  rewrite Hid, py_eq_str_refl. reflexivity.
Qed.

(** POST then GET: after [criar_tarefa] stores a task whose id no stored
    record has, and the collection with the new record is within the limits
    of the interpreter (valid text, integers and nesting within the bounds of
    the encoder and of the decoder, no repeated key), [obter_tarefa] with
    that id returns the record that was created, with every field as
    [criar_tarefa] returned it. *)
Theorem criar_depois_obter
    (amb : Ambiente) (fs : FS) (l : list json) (t : Tarefa.t) :
  carregar_dados fs TAREFAS_FILE None = Ok (JList l) ->
  Forall (sem_id (Tarefa.id t)) l ->
  dentro_dos_limites amb (JList (l ++ [Tarefa.dict t])) = true ->
  fst (criar_tarefa amb t fs) = Ok t
  /\ obter_tarefa (Tarefa.id t) (snd (criar_tarefa amb t fs))
     = Ok (Tarefa.dict t).
Proof.
  intros Hload Hl Hb.
  rewrite (criar_tarefa_ok amb fs l t Hload (dentro_gravavel _ _ Hb)).
  cbn [fst snd]. split; [reflexivity|].
  apply (obter_tarefa_match _ l [] (Tarefa.dict t) (Tarefa.id t));
    [|exact Hl | reflexivity | reflexivity].
  apply (carregar_salvo amb). exact Hb.
Qed.

Lemma criar_depois_obter_witness :
  obter_tarefa "t2"
    (snd (criar_tarefa ambiente_ex (tarefa_ex "t2") fs_uma_tarefa))
  = Ok (Tarefa.dict (tarefa_ex "t2")).
Proof.
  assert (Hload : carregar_dados fs_uma_tarefa TAREFAS_FILE None
                  = Ok (JList [Tarefa.dict (tarefa_ex "t1")]))
    by (vm_compute; reflexivity).
  assert (Hl : Forall (sem_id (Tarefa.id (tarefa_ex "t2")))
                 [Tarefa.dict (tarefa_ex "t1")])
    by (constructor; [split; vm_compute; reflexivity | constructor]).
  assert (Hb : dentro_dos_limites ambiente_ex
                 (JList ([Tarefa.dict (tarefa_ex "t1")]
                         ++ [Tarefa.dict (tarefa_ex "t2")])) = true)
    by (vm_compute; reflexivity).
  exact (proj2 (criar_depois_obter ambiente_ex fs_uma_tarefa
                  [Tarefa.dict (tarefa_ex "t1")] (tarefa_ex "t2")
                  Hload Hl Hb)).
Defined.

(** PATCH then GET: after [atualizar_tarefa] merged a body without an [id]
    key into the first record with the id, and the collection with the
    merged record is within the limits of the interpreter, [obter_tarefa]
    with that id returns the merged record, the one [atualizar_tarefa]
    returned. *)
Theorem atualizar_depois_obter
    (amb : Ambiente) (fs : FS) (pre post : list json)
    (d u : list (string * json)) (tarefa_id now : string) :
  carregar_dados fs TAREFAS_FILE None = Ok (JList (pre ++ JDict d :: post)) ->
  Forall (sem_id tarefa_id) pre ->
  id_de (JDict d) = JStr tarefa_id ->
  dict_get u "id" = None ->
  dentro_dos_limites amb
    (JList (pre ++ JDict (aplicar_atualizacao d u now) :: post)) = true ->
  fst (atualizar_tarefa amb tarefa_id u now fs)
  = Ok (JDict (aplicar_atualizacao d u now))
  /\ obter_tarefa tarefa_id (snd (atualizar_tarefa amb tarefa_id u now fs))
     = Ok (JDict (aplicar_atualizacao d u now)).
Proof.
  intros Hload Hpre Hid Hu Hb.
  rewrite (atualizar_tarefa_match amb fs pre post d u tarefa_id now
             Hload Hpre Hid (dentro_gravavel _ _ Hb)).
  cbn [fst snd]. split; [reflexivity|].
  apply (obter_tarefa_match _ pre post _ tarefa_id);
    [|exact Hpre | reflexivity|].
  - apply (carregar_salvo amb). exact Hb.
  - rewrite (id_de_aplicar_atualizacao d u now Hu). exact Hid.
Qed.

Lemma atualizar_depois_obter_witness :
  obter_tarefa "t1"
    (snd (atualizar_tarefa ambiente_ex "t1" [("estado", JStr "concluida")]
            "2024-05-04T07:00:00"
            (gravado ∅ TAREFAS_FILE
               (JList [JDict [("id", JStr "t1");
                              ("estado", JStr "pendente")]]))))
  = Ok (JDict [("id", JStr "t1"); ("estado", JStr "concluida");
               ("timestamp_atualizacao", JStr "2024-05-04T07:00:00")]).
Proof.
  assert (Hload : carregar_dados
                    (gravado ∅ TAREFAS_FILE
                       (JList [JDict [("id", JStr "t1");
                                      ("estado", JStr "pendente")]]))
                    TAREFAS_FILE None
                  = Ok (JList ([] ++ JDict [("id", JStr "t1");
                                            ("estado", JStr "pendente")]
                               :: [])))
    by (vm_compute; reflexivity).
  assert (Hb : dentro_dos_limites ambiente_ex
                 (JList ([] ++ JDict (aplicar_atualizacao
                                        [("id", JStr "t1");
                                         ("estado", JStr "pendente")]
                                        [("estado", JStr "concluida")]
                                        "2024-05-04T07:00:00") :: []))
               = true)
    by (vm_compute; reflexivity).
  exact (proj2 (atualizar_depois_obter ambiente_ex
                  (gravado ∅ TAREFAS_FILE
                     (JList [JDict [("id", JStr "t1");
                                    ("estado", JStr "pendente")]]))
                  [] [] [("id", JStr "t1"); ("estado", JStr "pendente")]
                  [("estado", JStr "concluida")] "t1" "2024-05-04T07:00:00"
                  Hload (List.Forall_nil _) eq_refl eq_refl Hb)).
Defined.

(** ** Creating, then asking for the status *)

Lemma obter_status_forma (now : string) (fs : FS) (ts ds cs ss : list json)
    (pe ps : list (json * Z)) (na ni : Z) :
  carregar_dados fs TAREFAS_FILE None = Ok (JList ts) ->
  carregar_dados fs DIAGNOSTICOS_FILE None = Ok (JList ds) ->
  carregar_dados fs CORRECOES_FILE None = Ok (JList cs) ->
  carregar_dados fs SUGESTOES_FILE None = Ok (JList ss) ->
  contar_por "estado" (JStr "pendente") ts [] = Ok pe ->
  contar_por "severidade" (JStr "info") ds [] = Ok ps ->
  contar_se "aplicada" cs = Ok na ->
  contar_se "implementada" ss = Ok ni ->
  obter_status now fs
  = Ok {| status := "online";
          timestamp := now;
          tarefas_total := Z.of_nat (List.length ts);
          tarefas_por_estado := pe;
          diagnosticos_total := Z.of_nat (List.length ds);
          diagnosticos_por_severidade := ps;
          correcoes_total := Z.of_nat (List.length cs);
          correcoes_aplicadas := na;
          correcoes_pendentes := Z.of_nat (List.length cs) - na;
          sugestoes_total := Z.of_nat (List.length ss);
          sugestoes_implementadas := ni;
          sugestoes_pendentes := Z.of_nat (List.length ss) - ni |}.
Proof.
  intros Ht Hd Hc Hs Hpe Hps Hna Hni.
  unfold obter_status. rewrite Ht, Hd, Hc, Hs. cbn [rbind py_iter py_len].
  rewrite Hpe, Hps, Hna, Hni. reflexivity.
Qed.

(** After [criar_tarefa] stored a task, the collection with it being within
    the limits of the interpreter, [obter_status] counts one task more, and
    its figures for diagnostics, fixes and suggestions are the figures it
    gave before. *)
Theorem criar_tarefa_depois_status
    (amb : Ambiente) (now now' : string) (fs : FS) (ts ds cs ss : list json)
    (t : Tarefa.t) :
  carregar_dados fs TAREFAS_FILE None = Ok (JList ts) ->
  carregar_dados fs DIAGNOSTICOS_FILE None = Ok (JList ds) ->
  carregar_dados fs CORRECOES_FILE None = Ok (JList cs) ->
  carregar_dados fs SUGESTOES_FILE None = Ok (JList ss) ->
  Forall (fun x => contavel "estado" x = true) ts ->
  Forall (fun x => contavel "severidade" x = true) ds ->
  Forall (fun x => is_dict x = true) cs ->
  Forall (fun x => is_dict x = true) ss ->
  dentro_dos_limites amb (JList (ts ++ [Tarefa.dict t])) = true ->
  exists st st',
    obter_status now fs = Ok st
    /\ obter_status now' (snd (criar_tarefa amb t fs)) = Ok st'
    /\ tarefas_total st' = tarefas_total st + 1
    /\ soma_contagem (tarefas_por_estado st')
       = soma_contagem (tarefas_por_estado st) + 1
    /\ diagnosticos_total st' = diagnosticos_total st
    /\ diagnosticos_por_severidade st' = diagnosticos_por_severidade st
    /\ correcoes_total st' = correcoes_total st
    /\ correcoes_aplicadas st' = correcoes_aplicadas st
    /\ correcoes_pendentes st' = correcoes_pendentes st
    /\ sugestoes_total st' = sugestoes_total st
    /\ sugestoes_implementadas st' = sugestoes_implementadas st
    /\ sugestoes_pendentes st' = sugestoes_pendentes st.
Proof.
  intros Ht Hd Hc Hs Fts Fds Fcs Fss Hb.
  destruct (contar_por_soma "estado" (JStr "pendente") ts eq_refl Fts [])
    as (pe & Hpe & Spe).
  destruct (contar_por_soma "estado" (JStr "pendente")
              (ts ++ [Tarefa.dict t]) eq_refl) with (d := @nil (json * Z))
    as (pe' & Hpe' & Spe').
  { apply List.Forall_app. split; [exact Fts|].
    constructor; [reflexivity | constructor]. }
  destruct (contar_por_soma "severidade" (JStr "info") ds eq_refl Fds [])
    as (ps & Hps & Sps).
  destruct (contar_se_limites "aplicada" cs Fcs) as (na & Hna & _).
  destruct (contar_se_limites "implementada" ss Fss) as (ni & Hni & _).
  rewrite (criar_tarefa_ok amb fs ts t Ht (dentro_gravavel _ _ Hb)).
  cbn [snd]. do 2 eexists. split; [|split].
  - exact (obter_status_forma now fs ts ds cs ss pe ps na ni
             Ht Hd Hc Hs Hpe Hps Hna Hni).
  - apply (obter_status_forma now' _ (ts ++ [Tarefa.dict t]) ds cs ss
             pe' ps na ni); try assumption.
    + apply (carregar_salvo amb). exact Hb.
    + rewrite carregar_outro_arquivo by discriminate. exact Hd.
    + rewrite carregar_outro_arquivo by discriminate. exact Hc.
    + rewrite carregar_outro_arquivo by discriminate. exact Hs.
  - cbn [tarefas_total tarefas_por_estado diagnosticos_total
         diagnosticos_por_severidade correcoes_total correcoes_aplicadas
         correcoes_pendentes sugestoes_total sugestoes_implementadas
         sugestoes_pendentes].
    rewrite List.length_app in *. cbn [List.length] in *.
    repeat split; lia.
Qed.

Lemma criar_tarefa_depois_status_witness :
  exists st st',
    obter_status "2024-05-05T08:00:00" fs_ex = Ok st
    /\ obter_status "2024-05-05T09:00:00"
         (snd (criar_tarefa ambiente_ex (tarefa_ex "t3") fs_ex)) = Ok st'
    /\ tarefas_total st' = tarefas_total st + 1.
Proof.
  destruct (criar_tarefa_depois_status ambiente_ex
              "2024-05-05T08:00:00" "2024-05-05T09:00:00" fs_ex
              tarefas_ex [d_info; d_critico; d_erro] correcoes_ex sugestoes_ex
              (tarefa_ex "t3"))
    as (st & st' & H1 & H2 & H3 & _).
  1-4: vm_compute; reflexivity.
  1-4: repeat constructor.
  - vm_compute. reflexivity.
  - exists st, st'. auto.
Defined.

(** ** Ties keep the stored order *)

(** [list.sort] is stable, also with [reverse=True]: among the records of
    one key, the order of the input is the order of the output.  [E] picks
    the keys of one class; no key of the class is less than another. *)

Section Stability.
Context {K : Type} (lt : K -> K -> result bool) (E : K -> bool).
Hypothesis E_sem_ordem :
  forall a b, E a = true -> E b = true -> ltb_key lt a b = false.

Definition na_classe (p : K * json) : bool := E (fst p).

Definition tem_chave (key : json -> result K) (x : json) : bool :=
  match key x with
  | Ok k => E k
  | Raise _ => false
  end.

Lemma insert_sorted_classe (x : K * json) (l : list (K * json)) :
  List.filter na_classe (insert_sorted lt x l) = List.filter na_classe (x :: l).
Proof.
  induction l as [|y l IH]; [reflexivity|].
  cbn [insert_sorted]. destruct (ltb_key lt (fst y) (fst x)) eqn:L;
    [|reflexivity].
  cbn [List.filter]. rewrite IH. cbn [List.filter].
  destruct (na_classe y) eqn:Ey, (na_classe x) eqn:Ex; try reflexivity.
  rewrite (E_sem_ordem _ _ Ey Ex) in L. discriminate.
Qed.

Lemma stable_sort_classe (l : list (K * json)) :
  List.filter na_classe (stable_sort lt l) = List.filter na_classe l.
Proof.
  induction l as [|x l IH]; [reflexivity|].
  change (stable_sort lt (x :: l)) with (insert_sorted lt x (stable_sort lt l)).
  rewrite insert_sorted_classe. cbn [List.filter]. rewrite IH. reflexivity.
Qed.

Lemma filter_decorados (key : json -> result K) (dec : list (K * json)) :
  Forall (decorado key) dec ->
  List.filter (tem_chave key) (map snd dec)
  = map snd (List.filter na_classe dec).
Proof.
  induction 1 as [|p dec Hp _ IH]; [reflexivity|].
  cbn [map List.filter]. unfold tem_chave at 1, na_classe at 1.
  rewrite Hp, IH. destruct (E (fst p)); reflexivity.
Qed.

Lemma list_sort_estavel (key : json -> result K) (reverse : bool)
    (l s : list json) :
  list_sort lt key reverse l = Ok s ->
  List.filter (tem_chave key) s = List.filter (tem_chave key) l.
Proof.
  unfold list_sort. destruct (rmap key l) as [ks|] eqn:Hk; [|discriminate].
  cbn [rbind]. destruct (pairwise_comparable lt ks); [|discriminate].
  intros [= <-].
  destruct (combine_decorado key l ks Hk) as [Hd _].
  transitivity (List.filter (tem_chave key) (map snd (combine ks l)));
    [|rewrite (map_snd_combine ks l (rmap_length _ _ _ Hk)); reflexivity].
  rewrite (filter_decorados key (combine ks l) Hd).
  destruct reverse.
  - rewrite filter_decorados.
    + rewrite List.filter_rev, stable_sort_classe, List.filter_rev,
        List.rev_involutive. reflexivity.
    + apply (Forall_perm _ _ (combine ks l)); [|exact Hd].
      rewrite <- Permutation_rev, stable_sort_perm, <- Permutation_rev.
      reflexivity.
  - rewrite filter_decorados.
    + rewrite stable_sort_classe. reflexivity.
    + apply (Forall_perm _ _ (combine ks l) (stable_sort_perm lt _)).
      exact Hd.
Qed.
End Stability.

(** Keys equal to (rank [r], timestamp [ts]), and timestamps equal to
    [ts]. *)
Definition chave_igual (r : Z) (ts : string) (k : Z * json) : bool :=
  (fst k =? r) && py_eq (snd k) (JStr ts).

Definition texto_igual (ts : string) (k : json) : bool := py_eq k (JStr ts).

Lemma chave_igual_sem_ordem (r : Z) (ts : string) (a b : Z * json) :
  chave_igual r ts a = true -> chave_igual r ts b = true ->
  ltb_key tuple_lt a b = false.
Proof.
  destruct a as [ra ta], b as [rb tb]. unfold chave_igual. cbn [fst snd].
  intros Ha Hb. apply andb_prop in Ha as [Ha1 Ha2].
  apply andb_prop in Hb as [Hb1 Hb2].
  apply Z.eqb_eq in Ha1, Hb1. apply py_eq_str in Ha2, Hb2. subst.
  rewrite ltb_key_tuple, Z.eqb_refl. unfold String.ltb.
  rewrite str_compare_refl. reflexivity.
Qed.

Lemma texto_igual_sem_ordem (ts : string) (a b : json) :
  texto_igual ts a = true -> texto_igual ts b = true ->
  ltb_key py_lt a b = false.
Proof.
  unfold texto_igual. intros Ha Hb. apply py_eq_str in Ha, Hb. subst.
  change (ltb_key py_lt (JStr ts) (JStr ts)) with (String.ltb ts ts).
  unfold String.ltb. rewrite str_compare_refl. reflexivity.
Qed.

Lemma py_sort_estavel {K : Type} (lt : K -> K -> result bool) (E : K -> bool)
    (key : json -> result K) (reverse : bool) (l s : list json) :
  (forall a b, E a = true -> E b = true -> ltb_key lt a b = false) ->
  py_sort lt key reverse (JList l) = Ok s ->
  List.filter (tem_chave E key) s = List.filter (tem_chave E key) l.
Proof. intros HE. apply (list_sort_estavel lt E HE). Qed.

(** The four listings are stable: in the sorted records, of which the
    answer is the first [limite], the records of any one key (same rank and
    same timestamp; same timestamp for [listar_correcoes]) are in the order
    in which the file holds them, in the ascending listings and in the
    descending ones. *)
Theorem listagens_estaveis
    (fs : FS) (ts ds cs ss : list json) (limite : option Z) :
  carregar_dados fs TAREFAS_FILE None = Ok (JList ts) ->
  carregar_dados fs DIAGNOSTICOS_FILE None = Ok (JList ds) ->
  carregar_dados fs CORRECOES_FILE None = Ok (JList cs) ->
  carregar_dados fs SUGESTOES_FILE None = Ok (JList ss) ->
  Forall (fun x => ordenavel "prioridade" "timestamp_criacao" x = true) ts ->
  Forall (fun x => ordenavel "severidade" "timestamp" x = true) ds ->
  Forall (fun x => ordenavel_ts "timestamp" x = true) cs ->
  Forall (fun x => ordenavel "prioridade" "timestamp" x = true) ss ->
  limite_valido limite ->
  let n := Z.to_nat (or_default limite 100) in
  (forall estado agente prioridade r t,
      exists s,
        listar_tarefas estado agente prioridade limite fs = Ok (firstn n s)
        /\ List.filter (tem_chave (chave_igual r t) chave_tarefa) s
           = List.filter (tem_chave (chave_igual r t) chave_tarefa)
               (tarefas_filtradas estado agente prioridade ts))
  /\ (forall tipo severidade r t,
         exists s,
           listar_diagnosticos tipo severidade limite fs = Ok (firstn n s)
           /\ List.filter (tem_chave (chave_igual r t) chave_diagnostico) s
              = List.filter (tem_chave (chave_igual r t) chave_diagnostico)
                  (diagnosticos_filtrados tipo severidade ds))
  /\ (forall aplicada diagnostico_id t,
         exists s,
           listar_correcoes aplicada diagnostico_id limite fs
           = Ok (firstn n s)
           /\ List.filter (tem_chave (texto_igual t) chave_correcao) s
              = List.filter (tem_chave (texto_igual t) chave_correcao)
                  (correcoes_filtradas aplicada diagnostico_id cs))
  /\ (forall tipo prioridade implementada r t,
         exists s,
           listar_sugestoes tipo prioridade implementada limite fs
           = Ok (firstn n s)
           /\ List.filter (tem_chave (chave_igual r t) chave_sugestao) s
              = List.filter (tem_chave (chave_igual r t) chave_sugestao)
                  (sugestoes_filtradas tipo prioridade implementada ss)).
Proof.
  intros Ht Hd Hc Hs Fts Fds Fcs Fss Hlim n.
  split; [|split; [|split]]; intros.
  - destruct (listar_tarefas_forma fs ts estado agente prioridade limite
                Ht Fts Hlim) as (s & H1 & _ & H3).
    exists s. split; [exact H3|].
    exact (py_sort_estavel tuple_lt (chave_igual r t) _ _ _ _
             (chave_igual_sem_ordem r t) H1).
  - destruct (listar_diagnosticos_forma fs ds tipo severidade limite
                Hd Fds Hlim) as (s & H1 & _ & H3).
    exists s. split; [exact H3|].
    exact (py_sort_estavel tuple_lt (chave_igual r t) _ _ _ _
             (chave_igual_sem_ordem r t) H1).
  - destruct (listar_correcoes_forma fs cs aplicada diagnostico_id limite
                Hc Fcs Hlim) as (s & H1 & _ & H3).
    exists s. split; [exact H3|].
    exact (py_sort_estavel py_lt (texto_igual t) _ _ _ _
             (texto_igual_sem_ordem t) H1).
  - destruct (listar_sugestoes_forma fs ss tipo prioridade implementada limite
                Hs Fss Hlim) as (s & H1 & _ & H3).
    exists s. split; [exact H3|].
    exact (py_sort_estavel tuple_lt (chave_igual r t) _ _ _ _
             (chave_igual_sem_ordem r t) H1).
Qed.

(** The tasks [t1] and [t4] share rank 2 and their creation time, the
    diagnostics [e1] and [e3] share rank 1 and their timestamp: the
    ascending listing and the descending one both keep each pair in the
    order of the file. *)
Lemma listagens_estaveis_witness :
  (exists s,
      listar_tarefas None None None None fs_listagem = Ok (firstn 100 s)
      /\ List.filter
           (tem_chave (chave_igual 2 "2024-05-02T09:00:00") chave_tarefa) s
         = [tarefa_de "t1" "pendente" "normal" "2024-05-02T09:00:00";
            tarefa_de "t4" "pendente" "normal" "2024-05-02T09:00:00"])
  /\ (exists s,
         listar_diagnosticos None None None fs_listagem = Ok (firstn 100 s)
         /\ List.filter
              (tem_chave (chave_igual 1 "2024-05-01T12:00:00")
                 chave_diagnostico) s
            = [diagnostico_ex "e1" "erro" "2024-05-01T12:00:00";
               diagnostico_ex "e3" "erro" "2024-05-01T12:00:00"]).
Proof.
  assert (Ht : carregar_dados fs_listagem TAREFAS_FILE None
               = Ok (JList tarefas_listagem)) by (vm_compute; reflexivity).
  assert (Hd : carregar_dados fs_listagem DIAGNOSTICOS_FILE None
               = Ok (JList diagnosticos_listagem))
    by (vm_compute; reflexivity).
  assert (Hc : carregar_dados fs_listagem CORRECOES_FILE None = Ok (JList []))
    by (vm_compute; reflexivity).
  assert (Hs : carregar_dados fs_listagem SUGESTOES_FILE None = Ok (JList []))
    by (vm_compute; reflexivity).
  assert (Fts : Forall (fun x => ordenavel "prioridade" "timestamp_criacao" x
                                 = true) tarefas_listagem)
    by (repeat constructor).
  assert (Fds : Forall (fun x => ordenavel "severidade" "timestamp" x = true)
                  diagnosticos_listagem)
    by (repeat constructor).
  destruct (listagens_estaveis fs_listagem tarefas_listagem
              diagnosticos_listagem [] [] None Ht Hd Hc Hs Fts Fds
              (List.Forall_nil _) (List.Forall_nil _) I)
    as (H1 & H2 & _).
  split.
  - destruct (H1 None None None 2 "2024-05-02T09:00:00") as (s & E1 & E2).
    exists s. split; [exact E1|]. rewrite E2. vm_compute. reflexivity.
  - destruct (H2 None None 1 "2024-05-01T12:00:00") as (s & E1 & E2).
    exists s. split; [exact E1|]. rewrite E2. vm_compute. reflexivity.
Defined.

(** ** The bounds of [limite] *)

Lemma query_int_fora (n : Z) :
  n < 1 \/ 1000 < n -> query_int (Some n) 100 1 1000 = Raise RequestValidationError.
Proof.
  intros H. unfold query_int.
  replace ((1 <=? n) && (n <=? 1000)) with false; [reflexivity|].
  symmetry. apply andb_false_iff.
  destruct H; [left; apply Z.leb_gt | right; apply Z.leb_gt]; lia.
Qed.

(** A [limite] below 1 or above 1000 is refused by every list route with
    the validation error, before the collection is read: the answer is the
    same on every store, also on one whose file cannot be loaded. *)
Theorem limite_fora_da_faixa
    (fs : FS) (n : Z) (a b p : option string) (c : option bool) :
  n < 1 \/ 1000 < n ->
  listar_tarefas a b p (Some n) fs = Raise RequestValidationError
  /\ listar_diagnosticos a b (Some n) fs = Raise RequestValidationError
  /\ listar_correcoes c a (Some n) fs = Raise RequestValidationError
  /\ listar_sugestoes a b c (Some n) fs = Raise RequestValidationError.
Proof.
  intros H.
  unfold listar_tarefas, listar_diagnosticos, listar_correcoes,
    listar_sugestoes.
  rewrite (query_int_fora n H). repeat split; reflexivity.
Qed.

Lemma limite_fora_da_faixa_witness :
  listar_tarefas None None None (Some 0) fs_corrompido
  = Raise RequestValidationError
  /\ listar_tarefas None None None (Some 1001) fs_ex
     = Raise RequestValidationError.
Proof.
  split.
  - apply (limite_fora_da_faixa fs_corrompido 0 None None None None). lia.
  - apply (limite_fora_da_faixa fs_ex 1001 None None None None). lia.
Defined.
